(** * Prediction pipeline and orchestration of the ship-planning AI service

    A shallow embedding of the TypeScript sources
      - [src/services/AI/BaseModel.ts]          (model contract)
      - [src/services/AI/RouteOptimizerModel.ts]
      - [src/services/AI/FuelPredictorModel.ts]
      - [src/services/AI/MaintenanceForecasterModel.ts]
      - [src/services/AI/AIService.ts]           (orchestrator)
    in three parts: the model of the code, the vocabulary of the statements
    with sample data, and the properties.

    Numbers.  A JavaScript [number] is modelled by [JS.num]: a real number or
    one of the IEEE special values [+Infinity], [-Infinity], [NaN].  Rounding
    is not modelled (finite values are exact reals, so that the sigmoid of
    the output layers is the real function) and there is one zero.  Feature
    vectors, the values flowing through a network and every number computed
    from a prediction are [JS.num], so that a [NaN] or an infinity produced
    by a division reaches the places where the source tests for it, or
    fails to.  The trained parameters of a network and the numeric fields
    of a well-typed input are finite and written over [R].  A [Date] is its
    integral time value (milliseconds) or the invalid date.

    Effects.  Instances are records threaded through the calls; the clock is
    a parameter [now] read once per call; what lies outside the repository
    (the tfjs fitting loop, the artifact store, the initial random
    parameters of a network) enters as parameters.  The request body that
    [preprocessInput] mutates is modelled as a store of objects passed by
    reference. *)

From Stdlib Require Import Reals Lra Lia ZArith List Bool String Zfloor.
From Stdlib Require Import Sorting.Sorted Sorting.Permutation.
From stdpp Require Import base gmap strings pretty.

Local Open Scope R_scope.

(** ** JavaScript numbers *)

Module JS.

Inductive num : Type :=
| Fin (r : R)
| PInf
| NInf
| NaN.

Definition Rltb (x y : R) : bool := if Rlt_dec x y then true else false.
Definition Rgtb (x y : R) : bool := Rltb y x.
Definition Reqb (x y : R) : bool := if Req_dec_T x y then true else false.

(** [a - b] *)
Definition sub (a b : num) : num :=
  match a, b with
  | NaN, _ | _, NaN => NaN
  | Fin x, Fin y => Fin (x - y)
  | PInf, PInf | NInf, NInf => NaN
  | PInf, _ | _, NInf => PInf
  | NInf, _ | _, PInf => NInf
  end.

(** [a + b] *)
Definition add (a b : num) : num :=
  match a, b with
  | NaN, _ | _, NaN => NaN
  | Fin x, Fin y => Fin (x + y)
  | PInf, NInf | NInf, PInf => NaN
  | PInf, _ | _, PInf => PInf
  | NInf, _ | _, NInf => NInf
  end.

(** [a * b]: an infinity times zero is [NaN]. *)
Definition mul (a b : num) : num :=
  match a, b with
  | NaN, _ | _, NaN => NaN
  | Fin x, Fin y => Fin (x * y)
  | PInf, PInf | NInf, NInf => PInf
  | PInf, NInf | NInf, PInf => NInf
  | PInf, Fin y | Fin y, PInf =>
      if Reqb y 0 then NaN else if Rltb 0 y then PInf else NInf
  | NInf, Fin y | Fin y, NInf =>
      if Reqb y 0 then NaN else if Rltb 0 y then NInf else PInf
  end.

(** [a / b]: division by zero yields an infinity of the sign of the numerator,
    and [0 / 0] is [NaN]. *)
Definition div (a b : num) : num :=
  match a, b with
  | NaN, _ | _, NaN => NaN
  | Fin x, Fin y =>
      if Reqb y 0 then
        if Reqb x 0 then NaN else if Rltb 0 x then PInf else NInf
      else Fin (x / y)
  | Fin _, (PInf | NInf) => Fin 0
  | (PInf | NInf), (PInf | NInf) => NaN
  | PInf, Fin y => if Rltb y 0 then NInf else PInf
  | NInf, Fin y => if Rltb y 0 then PInf else NInf
  end.

(** [Math.max(a, b)] and [Math.min(a, b)]: [NaN] if either argument is. *)
Definition max (a b : num) : num :=
  match a, b with
  | NaN, _ | _, NaN => NaN
  | PInf, _ | _, PInf => PInf
  | NInf, x | x, NInf => x
  | Fin x, Fin y => Fin (Rmax x y)
  end.

Definition min (a b : num) : num :=
  match a, b with
  | NaN, _ | _, NaN => NaN
  | NInf, _ | _, NInf => NInf
  | PInf, x | x, PInf => x
  | Fin x, Fin y => Fin (Rmin x y)
  end.

(** [Math.max(...values)] and [Math.min(...values)]; on no argument they
    are [-Infinity] and [+Infinity]. *)
Definition max_list (values : list num) : num := fold_left max values NInf.

Definition min_list (values : list num) : num := fold_left min values PInf.

(** [isNaN(a)] for a number [a]. *)
Definition isNaN (a : num) : bool :=
  match a with
  | NaN => true
  | _ => false
  end.

(** [Math.sqrt(a)]: [NaN] below zero. *)
Definition sqrt (a : num) : num :=
  match a with
  | Fin x => if Rltb x 0 then NaN else Fin (R_sqrt.sqrt x)
  | PInf => PInf
  | NInf | NaN => NaN
  end.

(** [a > b] and [a < b]: false as soon as one side is [NaN]. *)
Definition gt (a b : num) : bool :=
  match a, b with
  | NaN, _ | _, NaN => false
  | Fin x, Fin y => Rgtb x y
  | PInf, (Fin _ | NInf) => true
  | Fin _, NInf => true
  | _, _ => false
  end.

Definition lt (a b : num) : bool := gt b a.

End JS.

Declare Scope js_scope.
Delimit Scope js_scope with js.
Infix "+" := JS.add : js_scope.
Infix "-" := JS.sub : js_scope.
Infix "*" := JS.mul : js_scope.
Infix "/" := JS.div : js_scope.

(** ** The parametric regression function (tfjs [LayersModel]) *)

Inductive Activation : Type := relu | sigmoid | linear.

(** The activations of the tfjs kernels: [relu] is [max(0, x)], the
    sigmoid of an infinity is its limit, and [NaN] passes through each. *)
Definition activate (a : Activation) (x : JS.num) : JS.num :=
  match a with
  | relu => JS.max (JS.Fin 0) x
  | sigmoid =>
      match x with
      | JS.Fin r => JS.Fin (1 / (1 + exp (- r)))
      | JS.PInf => JS.Fin 1
      | JS.NInf => JS.Fin 0
      | JS.NaN => JS.NaN
      end
  | linear => x
  end.

(** Trained parameters of a dense layer: [kernel i j] weighs input [i] for
    unit [j]. *)
Record DenseWeights : Type := {
  kernel : nat -> nat -> R;
  bias : nat -> R
}.

Record BatchNormWeights : Type := {
  gamma : nat -> R;
  beta : nat -> R;
  movingMean : nat -> R;
  movingVariance : nat -> R
}.

Inductive Layer : Type :=
| dense (units : nat) (activation : Activation) (w : DenseWeights)
| batchNormalization (w : BatchNormWeights)
| dropout (rate : R).

Definition LayersModel : Type := list Layer.

Fixpoint dot (j : nat) (i : nat) (k : nat -> nat -> R) (x : list JS.num) : JS.num :=
  match x with
  | [] => JS.Fin 0
  | xi :: rest => (xi * JS.Fin (k i j) + dot j (S i) k rest)%js
  end.

(** Inference-time behaviour of one layer: dropout is the identity. *)
Definition apply_layer (l : Layer) (x : list JS.num) : list JS.num :=
  match l with
  | dense units a w =>
      List.map (fun j => activate a (dot j 0 (kernel w) x + JS.Fin (bias w j))%js)
               (seq 0 units)
  | batchNormalization w =>
      List.map (fun '(i, xi) =>
             ((xi - JS.Fin (movingMean w i))
              / JS.sqrt (JS.Fin (movingVariance w i + 1 / 1000))
              * JS.Fin (gamma w i) + JS.Fin (beta w i))%js)
          (combine (seq 0 (length x)) x)
  | dropout _ => x
  end.

(** [model.predict(inputTensor)] followed by [dataSync]. *)
Definition model_predict (m : LayersModel) (x : list JS.num) : list JS.num :=
  fold_left (fun v l => apply_layer l v) m x.

Inductive Error : Type := Err (message : string).

(** ** BaseModel.ts: the model contract *)

Module BaseModel.

Record ModelConfig : Type := {
  modelName : string;
  version : string;
  inputShape : nat;
  outputShape : nat;
  learningRate : option R;
  epochs : option nat;
  batchSize : option nat
}.

(** [x || d] on an optional number: [d] when [x] is absent or 0. *)
Definition orNumber (x : option R) (d : R) : R :=
  match x with
  | Some v => if Req_dec_T v 0 then d else v
  | None => d
  end.

Definition orCount (x : option nat) (d : nat) : nat :=
  match x with
  | Some (S n) => S n
  | _ => d
  end.

Record TrainingData : Type := {
  inputs : list (list R);
  outputs : list (list R);
  validationSplit : option R
}.

(** A [tf.LayersModel] instance: its layers and, once compiled, the learning
    rate its optimizer was created with. *)
Record TfModel : Type := {
  layers : LayersModel;
  optimizer : option R
}.

Definition compile (m : TfModel) (lr : R) : TfModel :=
  {| layers := layers m; optimizer := Some lr |}.

(** The [history] object of a [tf.History]: the per-epoch values recorded
    under each metric name. *)
Definition History : Type := gmap string (list JS.num).

Record PredictionResult : Type := {
  prediction : list JS.num;
  confidence : JS.num;
  modelVersion : string;
  timestamp : Z
}.

(** The mutable fields of a [BaseModel] instance. *)
Record t : Type := {
  model : option TfModel;
  config : ModelConfig;
  isLoaded : bool
}.

(** [new XModel()]: [model = null], [isLoaded = false]. *)
Definition new (c : ModelConfig) : t :=
  {| model := None; config := c; isLoaded := false |}.

Definition calculateConfidence (values : list JS.num) : JS.num :=
  let max := JS.max_list values in
  let min := JS.min_list values in
  let range := JS.sub max min in
  JS.max (JS.Fin 0) (JS.min (JS.Fin 1) (JS.sub (JS.Fin 1) (JS.div range max))).

Definition dispose (m : t) : t :=
  match model m with
  | Some _ => {| model := None; config := config m; isLoaded := false |}
  | None => m
  end.

Section Contract.

(** What the class leaves abstract, and what it calls outside the
    repository: the tfjs fitting loop ([tf.tensor2d] on the samples, then
    [model.fit]) and the artifact store. *)
Variable Input : Type.
Variable buildModel : TfModel.
Variable preprocessInput : Input -> Error + list JS.num.
Variable fit : TfModel -> TrainingData -> nat -> nat -> R -> Error + (TfModel * History).
Variable writeArtifact : ModelConfig -> TfModel -> option Error.
Variable modelExists : bool.
Variable loadLayersModel : Error + LayersModel.

Definition loadModel (m : t) : option Error * t :=
  match loadLayersModel with
  | inl e => (Some e, m)
  | inr ls =>
      (None,
       {| model := Some (compile {| layers := ls; optimizer := None |}
                                 (orNumber (learningRate (config m)) (1 / 1000)));
          config := config m; isLoaded := isLoaded m |})
  end.

Definition initialize (m : t) : option Error * t :=
  if modelExists then
    match loadModel m with
    | (Some e, m') => (Some e, m')
    | (None, m') =>
        (None, {| model := model m'; config := config m'; isLoaded := true |})
    end
  else
    (None,
     {| model := Some (compile buildModel (orNumber (learningRate (config m)) (1 / 1000)));
        config := config m; isLoaded := true |}).

(** Throws when there is no model; compiles a model that has no optimizer. *)
Definition ensureModelCompiled (m : t) : Error + t :=
  match model m with
  | None => inl (Err "Model not initialized")
  | Some tm =>
      match optimizer tm with
      | Some _ => inr m
      | None =>
          inr {| model := Some (compile tm (orNumber (learningRate (config m)) (1 / 1000)));
                 config := config m; isLoaded := isLoaded m |}
      end
  end.

Definition saveModel (m : t) : option Error :=
  match model m with
  | None => Some (Err "No model to save")
  | Some tm => writeArtifact (config m) tm
  end.

(** [history.history.loss[history.history.loss.length - 1]] and the same
    for [val_loss], in the closing log entry of [train]: reading [length]
    of a series that the history does not hold throws a TypeError. *)
Definition finalLosses (history : History) : Error + (option JS.num * option JS.num) :=
  match history !! "loss", history !! "val_loss" with
  | Some loss, Some val_loss => inr (last loss, last val_loss)
  | _, _ => inl (Err "Cannot read properties of undefined (reading 'length')")
  end.

Definition train (m : t) (trainingData : TrainingData)
  : (Error + History) * t :=
  match model m with
  | None => (inl (Err "Model not initialized"), m)
  | Some _ =>
      match ensureModelCompiled m with
      | inl e => (inl e, m)
      | inr m1 =>
          match model m1 with
          | None => (inl (Err "Model not initialized"), m1)
          | Some tm =>
              let split :=
                match validationSplit trainingData with
                | Some v => v
                | None => 2 / 10
                end in
              match fit tm trainingData (orCount (epochs (config m1)) 100)
                        (orCount (batchSize (config m1)) 32) split with
              | inl e => (inl e, m1)
              | inr (tm', history) =>
                  let m2 := {| model := Some tm'; config := config m1;
                               isLoaded := isLoaded m1 |} in
                  match saveModel m2 with
                  | Some e => (inl e, m2)
                  | None =>
                      match finalLosses history with
                      | inl e => (inl e, m2)
                      | inr _ => (inr history, m2)
                      end
                  end
              end
          end
      end
  end.

Definition predict (m : t) (now : Z) (inputData : Input)
  : Error + PredictionResult :=
  match model m, isLoaded m with
  | Some tm, true =>
      match preprocessInput inputData with
      | inl e => inl e
      | inr processedInput =>
          let values := model_predict (layers tm) processedInput in
          inr {| prediction := values;
                 confidence := calculateConfidence values;
                 modelVersion := version (config m);
                 timestamp := now |}
      end
  | _, _ => inl (Err "Model not loaded")
  end.

End Contract.

End BaseModel.

(** ** Dates

    [new Date(t)] keeps the integral part of a finite [t] (truncation
    towards zero) and is the invalid date otherwise.  The range limit of
    time values (8.64e15 ms) is not modelled. *)

Inductive JSDate : Type :=
| ValidDate (t : Z)
| InvalidDate.

Definition truncate (t : R) : Z :=
  if JS.Rltb t 0 then Zceil t else Zfloor t.

Definition new_Date (t : JS.num) : JSDate :=
  match t with
  | JS.Fin r => ValidDate (truncate r)
  | _ => InvalidDate
  end.

(** [d.getTime()]: [NaN] for the invalid date. *)
Definition getTime (d : JSDate) : JS.num :=
  match d with
  | ValidDate t => JS.Fin (IZR t)
  | InvalidDate => JS.NaN
  end.

Definition msPerDay : Z := (1000 * 60 * 60 * 24)%Z.

(** ** RouteOptimizerModel.ts *)

Module RouteOptimizerModel.

Definition config : BaseModel.ModelConfig :=
  {| BaseModel.modelName := "route-optimizer"; BaseModel.version := "1.0.0";
     BaseModel.inputShape := 15; BaseModel.outputShape := 4;
     BaseModel.learningRate := Some (1 / 1000); BaseModel.epochs := Some 150%nat;
     BaseModel.batchSize := Some 32%nat |}.

(** [w k] holds the parameters of the [k]-th dense layer. *)
Definition buildModel (w : nat -> DenseWeights) : BaseModel.TfModel :=
  BaseModel.compile
    {| BaseModel.layers :=
         [ dense 64 relu (w 0%nat);
           dropout (2 / 10);
           dense 32 relu (w 1%nat);
           dropout (1 / 10);
           dense 16 relu (w 2%nat);
           dense 4 sigmoid (w 3%nat) ];
       BaseModel.optimizer := None |}
    (BaseModel.orNumber (BaseModel.learningRate config) (1 / 1000)).

Section OptimizeRoute.

(** The route, time, fuel and distance fields of the result are computed
    from the input and the raw factors by [calculateDistance],
    [generateOptimizedWaypoints] (which draws random deviations) and
    their siblings; they are kept abstract as [Derived]. *)
Variable RouteInput : Type.
Variable Derived : Type.
Variable derive : RouteInput -> JS.num -> JS.num -> JS.num -> Derived.

Record RouteOptimization : Type := {
  derived : Derived;
  weatherRiskScore : JS.num
}.

(** [predict] is the inherited [BaseModel.predict] of this instance.  The
    source destructures the raw vector into four factors; a vector with
    fewer components (which the four-unit output layer never yields) would
    leave the missing ones [undefined], rendered here as a failure. *)
Definition optimizeRoute (predict : RouteInput -> Error + BaseModel.PredictionResult)
    (input : RouteInput) : Error + RouteOptimization :=
  match predict input with
  | inl e => inl e
  | inr p =>
      match BaseModel.prediction p with
      | timeFactor :: fuelFactor :: riskScore :: routeEfficiency :: _ =>
          inr {| derived := derive input timeFactor fuelFactor routeEfficiency;
                 weatherRiskScore := riskScore |}
      | _ => inl (Err "undefined factor")
      end
  end.

End OptimizeRoute.

End RouteOptimizerModel.

(** ** FuelPredictorModel.ts *)

Module FuelPredictorModel.

Definition config : BaseModel.ModelConfig :=
  {| BaseModel.modelName := "fuel-predictor"; BaseModel.version := "1.0.0";
     BaseModel.inputShape := 20; BaseModel.outputShape := 3;
     BaseModel.learningRate := Some (5 / 10000); BaseModel.epochs := Some 200%nat;
     BaseModel.batchSize := Some 64%nat |}.

Definition buildModel (w : nat -> DenseWeights) (bn : BatchNormWeights) : BaseModel.TfModel :=
  BaseModel.compile
    {| BaseModel.layers :=
         [ dense 128 relu (w 0%nat);
           batchNormalization bn;
           dropout (3 / 10);
           dense 64 relu (w 1%nat);
           dropout (2 / 10);
           dense 32 relu (w 2%nat);
           dropout (1 / 10);
           dense 16 relu (w 3%nat);
           dense 3 linear (w 4%nat) ];
       BaseModel.optimizer := None |}
    (BaseModel.orNumber (BaseModel.learningRate config) (5 / 10000)).

Section PredictFuel.

(** The consumption, rate, efficiency, emission and impact-factor fields
    are kept abstract as [Derived]. *)
Variable FuelPredictionInput : Type.
Variable Derived : Type.
Variable derive : FuelPredictionInput -> JS.num -> JS.num -> JS.num -> Derived.

Record FuelPrediction : Type := {
  derived : Derived;
  confidence : JS.num
}.

Definition predictFuelConsumption
    (predict : FuelPredictionInput -> Error + BaseModel.PredictionResult)
    (input : FuelPredictionInput) : Error + FuelPrediction :=
  match predict input with
  | inl e => inl e
  | inr p =>
      match BaseModel.prediction p with
      | mainConsumptionFactor :: auxConsumptionFactor :: efficiencyFactor :: _ =>
          inr {| derived := derive input mainConsumptionFactor
                                   auxConsumptionFactor efficiencyFactor;
                 confidence := BaseModel.confidence p |}
      | _ => inl (Err "undefined factor")
      end
  end.

End PredictFuel.

End FuelPredictorModel.

(** ** MaintenanceForecasterModel.ts *)

Module MaintenanceForecasterModel.

Inductive ShipType : Type := cargo | tanker | container | bulk | passenger.

Inductive ComponentType : Type :=
  engine | propeller | hull | navigation | electrical | hydraulic | hvac.

Inductive MaintenanceType : Type := preventive | corrective | emergency.

Record Ship : Type := {
  id : string;
  ship_type : ShipType;
  age : R;
  length : R;
  enginePower : R;
  hoursOperated : R
}.

Record MaintenanceEvent : Type := {
  date : Z;
  event_type : MaintenanceType;
  cost : R;
  downtime : R;
  description : string
}.

Record OperatingConditions : Type := {
  averageLoad : R;
  oc_temperature : R;
  oc_vibration : R;
  oc_pressure : R
}.

Record Component : Type := {
  component_type : ComponentType;
  lastMaintenanceDate : Z;
  maintenanceHistory : list MaintenanceEvent;
  operatingConditions : OperatingConditions
}.

Record EnvironmentalConditions : Type := {
  saltWaterExposure : R;
  temperatureVariation : R;
  roughSeaExposure : R
}.

Record Usage : Type := {
  dailyOperatingHours : R;
  voyagesPerMonth : R;
  averageVoyageDistance : R;
  environmentalConditions : EnvironmentalConditions
}.

Record Readings : Type := {
  r_temperature : R;
  r_vibration : R;
  r_pressure : R;
  r_efficiency : R
}.

Record Sensors : Type := {
  temperature : list R;
  vibration : list R;
  pressure : list R;
  efficiency : list R;
  lastReadings : Readings
}.

(** A well-typed [MaintenanceInput]; the untyped view of the same record,
    as the runtime checks of [preprocessInput] see it, is in [Store]. *)
Record MaintenanceInput : Type := {
  ship : Ship;
  component : Component;
  usage : Usage;
  sensors : Sensors
}.

(** The fields [factors], [recommendations] and [alternativeSchedules]
    do not feed back into the ones below and are left out. *)
Record MaintenancePrediction : Type := {
  riskScore : JS.num;
  predictedFailureDate : option JSDate;
  recommendedMaintenanceDate : JSDate;
  maintenanceType : MaintenanceType;
  estimatedCost : JS.num;
  estimatedDowntime : JS.num;
  confidence : JS.num
}.

Inductive Trend : Type := improving | stable | degrading.

Inductive Priority : Type := low | medium | high | critical.

Record Upcoming : Type := {
  up_component : string;
  up_date : JSDate;
  priority : Priority
}.

Record ComponentHealth : Type := {
  overall : JS.num;
  trend : Trend;
  criticalIssues : list string;
  upcomingMaintenance : list Upcoming
}.

Definition config : BaseModel.ModelConfig :=
  {| BaseModel.modelName := "maintenance-forecaster"; BaseModel.version := "1.0.0";
     BaseModel.inputShape := 25; BaseModel.outputShape := 5;
     BaseModel.learningRate := Some (8 / 10000); BaseModel.epochs := Some 250%nat;
     BaseModel.batchSize := Some 48%nat |}.

Definition buildModel (w : nat -> DenseWeights) (bn : BatchNormWeights)
  : BaseModel.TfModel :=
  BaseModel.compile
    {| BaseModel.layers :=
         [ dense 128 relu (w 0%nat);
           batchNormalization bn;
           dropout (3 / 10);
           dense 64 relu (w 1%nat);
           dropout (25 / 100);
           dense 32 relu (w 2%nat);
           dropout (2 / 10);
           dense 16 relu (w 3%nat);
           dense 5 sigmoid (w 4%nat) ];
       BaseModel.optimizer := None |}
    (BaseModel.orNumber (BaseModel.learningRate config) (8 / 10000)).

Definition componentName (c : ComponentType) : string :=
  match c with
  | engine => "engine"
  | propeller => "propeller"
  | hull => "hull"
  | navigation => "navigation"
  | electrical => "electrical"
  | hydraulic => "hydraulic"
  | hvac => "hvac"
  end.

(** The whole days between consecutive history entries:
    [Math.floor((history[i].date - history[i-1].date) / msPerDay)]. *)
Fixpoint intervals (dates : list Z) : list Z :=
  match dates with
  | d0 :: (d1 :: _) as rest => ((d1 - d0) / msPerDay)%Z :: intervals rest
  | _ => []
  end.

Definition calculateAverageMaintenanceInterval (history : list MaintenanceEvent) : R :=
  if (List.length history <? 2)%nat then 365
  else
    let ivs := intervals (List.map date history) in
    IZR (fold_left Z.add ivs 0%Z) / INR (List.length ivs).

Definition calculateBaseCost (c : ComponentType) (t : MaintenanceType) : R :=
  match c, t with
  | engine, preventive => 5000 | engine, corrective => 15000 | engine, emergency => 35000
  | propeller, preventive => 2000 | propeller, corrective => 8000 | propeller, emergency => 20000
  | hull, preventive => 3000 | hull, corrective => 12000 | hull, emergency => 30000
  | navigation, preventive => 1500 | navigation, corrective => 5000 | navigation, emergency => 12000
  | electrical, preventive => 1000 | electrical, corrective => 4000 | electrical, emergency => 10000
  | hydraulic, preventive => 1200 | hydraulic, corrective => 4500 | hydraulic, emergency => 11000
  | hvac, preventive => 800 | hvac, corrective => 2500 | hvac, emergency => 6000
  end.

Definition calculateBaseDowntime (c : ComponentType) (t : MaintenanceType) : R :=
  match c, t with
  | engine, preventive => 8 | engine, corrective => 24 | engine, emergency => 72
  | propeller, preventive => 12 | propeller, corrective => 36 | propeller, emergency => 96
  | hull, preventive => 24 | hull, corrective => 72 | hull, emergency => 168
  | navigation, preventive => 4 | navigation, corrective => 12 | navigation, emergency => 24
  | electrical, preventive => 6 | electrical, corrective => 18 | electrical, emergency => 48
  | hydraulic, preventive => 8 | hydraulic, corrective => 20 | hydraulic, emergency => 56
  | hvac, preventive => 4 | hvac, corrective => 10 | hvac, emergency => 24
  end.

(** The threshold rule of [predictMaintenance] for the maintenance type. *)
Definition selectMaintenanceType (riskScore urgencyFactor : JS.num) : MaintenanceType :=
  if JS.gt riskScore (JS.Fin (9 / 10)) || JS.gt urgencyFactor (JS.Fin (9 / 10)) then emergency
  else if JS.gt riskScore (JS.Fin (6 / 10)) then corrective
  else preventive.

(** [new Date(Date.now() + days * 24 * 60 * 60 * 1000)] *)
Definition daysFromNow (now : Z) (days : JS.num) : JSDate :=
  new_Date (JS.Fin (IZR now) + days * JS.Fin 24 * JS.Fin 60 * JS.Fin 60 * JS.Fin 1000)%js.

(** The body of [predictMaintenance] after [this.predict(input)] has
    returned [p], at clock reading [now]. *)
Definition postprocess (now : Z) (input : MaintenanceInput)
    (p : BaseModel.PredictionResult) : Error + MaintenancePrediction :=
  match BaseModel.prediction p with
  | [riskScore; daysToFailureFactor; costFactor; downtimeFactor; urgencyFactor] =>
      if JS.isNaN riskScore || JS.isNaN daysToFailureFactor || JS.isNaN costFactor
         || JS.isNaN downtimeFactor || JS.isNaN urgencyFactor
      then inl (Err "Invalid prediction values")
      else
        let averageInterval :=
          calculateAverageMaintenanceInterval (maintenanceHistory (component input)) in
        let baseDaysToFailure := JS.Fin (averageInterval * (12 / 10)) in
        let predictedDaysToFailure :=
          JS.max (JS.Fin 1) (baseDaysToFailure * (JS.Fin 1 - daysToFailureFactor))%js in
        let predictedFailureDate :=
          if JS.gt riskScore (JS.Fin (8 / 10))
          then Some (daysFromNow now predictedDaysToFailure)
          else None in
        let recommendedMaintenanceDate :=
          daysFromNow now (JS.max (JS.Fin 7) (predictedDaysToFailure * JS.Fin (7 / 10))%js) in
        let maintenanceType := selectMaintenanceType riskScore urgencyFactor in
        let baseCost := calculateBaseCost (component_type (component input)) maintenanceType in
        let estimatedCost :=
          (JS.Fin baseCost * (JS.Fin 1 + costFactor * JS.Fin (5 / 10)))%js in
        let baseDowntime :=
          calculateBaseDowntime (component_type (component input)) maintenanceType in
        let estimatedDowntime :=
          (JS.Fin baseDowntime * (JS.Fin 1 + downtimeFactor * JS.Fin (4 / 10)))%js in
        inr {| riskScore := riskScore;
               predictedFailureDate := predictedFailureDate;
               recommendedMaintenanceDate := recommendedMaintenanceDate;
               maintenanceType := maintenanceType;
               estimatedCost := estimatedCost;
               estimatedDowntime := estimatedDowntime;
               confidence := BaseModel.confidence p |}
  | _ => inl (Err "Invalid prediction result")
  end.

Section Instance.

(** The instance's collaborators: the initial parameters drawn by
    [buildModel], the artifact store, and the feature vector that
    [preprocessInput] computes for a well-typed input. *)
Variable w : nat -> DenseWeights.
Variable bn : BatchNormWeights.
Variable modelExists : bool.
Variable loadLayersModel : Error + LayersModel.
Variable preprocessInput : MaintenanceInput -> Error + list JS.num.

Definition initialize : BaseModel.t -> option Error * BaseModel.t :=
  BaseModel.initialize (buildModel w bn) modelExists loadLayersModel.

Definition predict : BaseModel.t -> Z -> MaintenanceInput -> Error + BaseModel.PredictionResult :=
  BaseModel.predict MaintenanceInput preprocessInput.

(** [if (!this.model || !this.isLoaded) { await this.initialize(); }] *)
Definition ensureInitialized (m : BaseModel.t) : option Error * BaseModel.t :=
  match BaseModel.model m, BaseModel.isLoaded m with
  | Some _, true => (None, m)
  | _, _ => initialize m
  end.

(** [predictMaintenance]: initializes the model when it is not loaded,
    then predicts and post-processes. *)
Definition predictMaintenance (m : BaseModel.t) (now : Z) (input : MaintenanceInput)
  : (Error + MaintenancePrediction) * BaseModel.t :=
  let '(failure, m1) := ensureInitialized m in
  match failure with
  | Some e => (inl e, m1)
  | None =>
      match predict m1 now input with
      | inl e => (inl e, m1)
      | inr p => (postprocess now input p, m1)
      end
  end.

Definition issueText (input : MaintenanceInput) : string :=
  (componentName (component_type (component input)) ++ " on ship "
   ++ id (ship input) ++ " requires immediate attention")%string.

Definition upcomingOf (input : MaintenanceInput) (p : MaintenancePrediction) : Upcoming :=
  {| up_component :=
       (id (ship input) ++ "-" ++ componentName (component_type (component input)))%string;
     up_date := recommendedMaintenanceDate p;
     priority :=
       if JS.gt (riskScore p) (JS.Fin (8 / 10)) then critical
       else if JS.gt (riskScore p) (JS.Fin (6 / 10)) then high
       else if JS.gt (riskScore p) (JS.Fin (4 / 10)) then medium
       else low |}.

(** The accumulators of the loop of [analyzeFleetHealth]. *)
Record Acc : Type := {
  acc_model : BaseModel.t;
  predictions : list MaintenancePrediction;
  acc_criticalIssues : list string;
  acc_upcoming : list Upcoming
}.

Definition step (now : Z) (a : Acc) (input : MaintenanceInput) : Acc :=
  match predictMaintenance (acc_model a) now input with
  | (inl _, m') =>
      {| acc_model := m'; predictions := predictions a;
         acc_criticalIssues := acc_criticalIssues a;
         acc_upcoming := acc_upcoming a |}
  | (inr p, m') =>
      {| acc_model := m';
         predictions := predictions a ++ [p];
         acc_criticalIssues :=
           if JS.gt (riskScore p) (JS.Fin (8 / 10))
           then acc_criticalIssues a ++ [issueText input]
           else acc_criticalIssues a;
         acc_upcoming :=
           if JS.gt (riskScore p) (JS.Fin (5 / 10))
           then acc_upcoming a ++ [upcomingOf input p]
           else acc_upcoming a |}
  end.

(** The comparator [(a, b) => a.date.getTime() - b.date.getTime()]. *)
Definition compareDates (a b : Upcoming) : JS.num :=
  (getTime (up_date a) - getTime (up_date b))%js.

(** [Array.prototype.sort] with that comparator: a stable sort, written
    as insertion from the right.  An element moves behind another only
    when the comparator is positive; [sort] treats a [NaN] result as 0. *)
Fixpoint insertByDate (u : Upcoming) (l : list Upcoming) : list Upcoming :=
  match l with
  | [] => [u]
  | v :: rest =>
      if JS.gt (compareDates u v) (JS.Fin 0) then v :: insertByDate u rest
      else u :: l
  end.

Definition sortByDate (l : list Upcoming) : list Upcoming :=
  fold_right insertByDate [] l.

Definition analyzeFleetHealth (m : BaseModel.t) (now : Z) (inputs : list MaintenanceInput)
  : ComponentHealth * BaseModel.t :=
  let a := fold_left (step now) inputs
             {| acc_model := m; predictions := [];
                acc_criticalIssues := []; acc_upcoming := [] |} in
  let overallHealth :=
    if (0 <? List.length (predictions a))%nat
    then (fold_left (fun sum p => sum + (JS.Fin 1 - riskScore p)) (predictions a) (JS.Fin 0)
          / JS.Fin (INR (List.length (predictions a))))%js
    else JS.Fin 1 in
  let recentRiskScores := List.map riskScore (predictions a) in
  let avgRisk :=
    (fold_left (fun sum risk => sum + risk) recentRiskScores (JS.Fin 0)
     / JS.Fin (INR (List.length recentRiskScores)))%js in
  let trend :=
    if JS.gt avgRisk (JS.Fin (6 / 10)) then degrading
    else if JS.lt avgRisk (JS.Fin (3 / 10)) then improving
    else stable in
  ({| overall := overallHealth;
      trend := trend;
      criticalIssues := acc_criticalIssues a;
      upcomingMaintenance := sortByDate (acc_upcoming a) |},
   acc_model a).

End Instance.

End MaintenanceForecasterModel.

(** ** The untyped view of a request: a store of JavaScript objects

    [preprocessInput] of the maintenance model receives the request body as
    it was parsed, tests its shape at run time, assigns defaults into the
    objects it was handed and then reads the features out of them.  Objects
    live in a store and are passed by reference, so that an assignment is
    visible through every alias.  The store holds data only: no property
    is a function, and a [Date] counts as a plain object (no step below
    depends on what [validateDate] returns). *)

Module Store.

Abbreviation loc := positive.

Inductive value : Type :=
| VUndefined
| VNull
| VBool (b : bool)
| VNum (n : JS.num)
| VStr (s : string)
| VRef (l : loc).

(** An object: its own properties and, for an array, its length.  The
    elements of an array are the properties named by the decimal indices
    below the length; an index without a property is a hole. *)
Record object : Type := {
  array : option nat;
  props : gmap string value
}.

Definition isArray (o : object) : bool :=
  match array o with
  | Some _ => true
  | None => false
  end.

Abbreviation heap := (gmap loc object).

(** [o.k] for the object at [l]: [undefined] when [k] is not a property;
    the [length] of an array is its length. *)
Definition getProp (h : heap) (l : loc) (k : string) : value :=
  match h !! l with
  | Some o =>
      match array o with
      | Some n =>
          if String.eqb k "length" then VNum (JS.Fin (INR n))
          else default VUndefined (props o !! k)
      | None => default VUndefined (props o !! k)
      end
  | None => VUndefined
  end.

(** [o.k = v] for the object at [l], for a name [k] that is neither an
    index nor [length]. *)
Definition setProp (h : heap) (l : loc) (k : string) (v : value) : heap :=
  match h !! l with
  | Some o => <[l := {| array := array o; props := <[k := v]> (props o) |}]> h
  | None => h
  end.

(** An object or array literal: a new object at an unused location. *)
Definition alloc (h : heap) (o : object) : loc * heap :=
  let l := fresh (dom h) in (l, <[l := o]> h).

(** [x && typeof x === 'object'] *)
Definition isObject (h : heap) (v : value) : bool :=
  match v with
  | VRef l => bool_decide (is_Some (h !! l))
  | _ => false
  end.

(** [Array.isArray(x)] *)
Definition Array_isArray (h : heap) (v : value) : bool :=
  match v with
  | VRef l => match h !! l with Some o => isArray o | None => false end
  | _ => false
  end.

Definition emptyArray : object := {| array := Some 0%nat; props := ∅ |}.

Definition defaultReadings : object :=
  {| array := None;
     props := <["temperature" := VNum (JS.Fin 0)]>
              (<["vibration" := VNum (JS.Fin 0)]>
              (<["pressure" := VNum (JS.Fin 0)]>
              (<["efficiency" := VNum (JS.Fin 1)]> ∅))) |}.

(** [if (!accepted(o.k)) { o.k = <literal>; }] for the object at [l]. *)
Definition defaultField (accepted : heap -> value -> bool) (literal : object)
    (l : loc) (k : string) (h : heap) : heap :=
  if accepted h (getProp h l k) then h
  else let '(l', h') := alloc h literal in setProp h' l k (VRef l').

(** The elements of an array, a hole being [None]. *)
Definition elements (h : heap) (a : value) : list (option value) :=
  match a with
  | VRef l =>
      match h !! l with
      | Some o =>
          match array o with
          | Some n => List.map (fun k => props o !! pretty k) (seq 0 n)
          | None => []
          end
      | None => []
      end
  | _ => []
  end.

(** The TypeError of [o.k] on [undefined] and [null]. *)
Definition readError (o : value) (k : string) : option Error :=
  match o with
  | VUndefined =>
      Some (Err ("Cannot read properties of undefined (reading '" ++ k ++ "')"))
  | VNull =>
      Some (Err ("Cannot read properties of null (reading '" ++ k ++ "')"))
  | _ => None
  end.

(** [o.k] where it does not throw; a primitive has none of the properties
    read below. *)
Definition propOf (h : heap) (o : value) (k : string) : value :=
  match o with
  | VRef l => getProp h l k
  | _ => VUndefined
  end.

Definition orElse (a b : option Error) : option Error :=
  match a with
  | Some e => Some e
  | None => b
  end.

(** The first failure of a sequence of steps. *)
Definition firstError (steps : list (option Error)) : option Error :=
  fold_right orElse None steps.

Definition present (e : option value) : bool :=
  match e with
  | Some _ => true
  | None => false
  end.

(** [history.map(h => ({ ...h, date: validateDate(h.date) }))]: the
    callback runs on the elements that are present. *)
Definition validatedHistory (history : list (option value)) : option Error :=
  firstError
    (List.map (fun e => match e with
                        | Some v => readError v "date"
                        | None => None
                        end) history).

(** [calculateAverageMaintenanceInterval(validatedHistory)]: with two or
    more entries it reads [history[i].date] at every index, and a hole
    is [undefined]. *)
Definition calculateAverageMaintenanceInterval (history : list (option value))
  : option Error :=
  if (List.length history <? 2)%nat then None
  else if forallb present history then None
  else Some (Err "Cannot read properties of undefined (reading 'date')").

Section Runtime.

(** What arithmetic and property-key lookup do to an operand that is an
    object: they convert it to a primitive value by running its
    [toString] and [valueOf], which is taken from the language runtime.
    [toPrimitive h l] is the TypeError of that conversion for the object
    at [l], if it throws; it does not for an object that leaves both
    methods as it inherits them. *)
Variable toPrimitive : heap -> loc -> option Error.

Definition coerce (h : heap) (v : value) : option Error :=
  match v with
  | VRef l => toPrimitive h l
  | _ => None
  end.

(** [costs.reduce((sum, cost) => sum + cost, 0)] over the [cost] of each
    element. *)
Definition sumCosts (h : heap) (items : list (option value)) : option Error :=
  firstError
    (List.map (fun e => match e with
                        | Some v => coerce h (propOf h v "cost")
                        | None => None
                        end) items).

(** [calculateMaintenanceCostTrend(history)] *)
Definition calculateMaintenanceCostTrend (h : heap) (history : list (option value))
  : option Error :=
  if (List.length history <? 3)%nat then None
  else orElse (sumCosts h (skipn (List.length history - 3) history))
              (sumCosts h (firstn 3 history)).

(** What follows the default assignments: the mapping of the history,
    the average interval, and the entries of the feature vector in
    source order.  None of it writes to the caller's objects. *)
Definition features (h : heap) (ship component usage sensors : loc) : option Error :=
  let history := elements h (getProp h component "maintenanceHistory") in
  let operatingConditions := getProp h component "operatingConditions" in
  let environmentalConditions := getProp h usage "environmentalConditions" in
  let lastReadings := getProp h sensors "lastReadings" in
  firstError
    [ validatedHistory history;
      calculateAverageMaintenanceInterval history;
      coerce h (getProp h ship "age");
      coerce h (getProp h ship "length");
      coerce h (getProp h ship "enginePower");
      coerce h (getProp h ship "hoursOperated");
      coerce h (getProp h ship "type");
      coerce h (getProp h component "type");
      calculateMaintenanceCostTrend h history;
      readError operatingConditions "averageLoad";
      coerce h (propOf h operatingConditions "temperature");
      coerce h (propOf h operatingConditions "vibration");
      coerce h (propOf h operatingConditions "pressure");
      coerce h (getProp h usage "dailyOperatingHours");
      coerce h (getProp h usage "voyagesPerMonth");
      coerce h (getProp h usage "averageVoyageDistance");
      readError environmentalConditions "saltWaterExposure";
      coerce h (propOf h environmentalConditions "temperatureVariation");
      coerce h (propOf h lastReadings "temperature");
      coerce h (propOf h lastReadings "vibration");
      coerce h (propOf h lastReadings "pressure") ].

(** The effect of [MaintenanceForecasterModel.preprocessInput] on the
    store and whether it throws: the early throws, then the six default
    assignments, then the reads.  The error, if any, comes with the
    store as the call leaves it. *)
Definition preprocessInput (h : heap) (data : value) : option Error * heap :=
  match data with
  | VRef d =>
      if negb (isObject h data) then (Some (Err "Invalid input: data must be an object"), h)
      else
        let ship := getProp h d "ship" in
        let component := getProp h d "component" in
        let usage := getProp h d "usage" in
        let sensors := getProp h d "sensors" in
        if negb (isObject h ship) then (Some (Err "Invalid input: ship data is required"), h)
        else if negb (isObject h component)
        then (Some (Err "Invalid input: component data is required"), h)
        else if negb (isObject h usage) then (Some (Err "Invalid input: usage data is required"), h)
        else if negb (isObject h sensors)
        then (Some (Err "Invalid input: sensors data is required"), h)
        else
          match ship, component, usage, sensors with
          | VRef sh, VRef c, VRef u, VRef s =>
              let h1 := defaultField Array_isArray emptyArray c "maintenanceHistory" h in
              let h2 := defaultField Array_isArray emptyArray s "temperature" h1 in
              let h3 := defaultField Array_isArray emptyArray s "vibration" h2 in
              let h4 := defaultField Array_isArray emptyArray s "pressure" h3 in
              let h5 := defaultField Array_isArray emptyArray s "efficiency" h4 in
              let h6 := defaultField isObject defaultReadings s "lastReadings" h5 in
              (features h6 sh c u s, h6)
          | _, _, _, _ => (Some (Err "Invalid input: data must be an object"), h)
          end
  | _ => (Some (Err "Invalid input: data must be an object"), h)
  end.

End Runtime.

End Store.

(** ** AIService.ts: the orchestrator *)

Module AIService.

Record PredictionRecord : Type := {
  modelName : string;
  timestamp : Z;
  confidence : JS.num;
  success : bool
}.

(** [l.slice(-n)]: the last [n] elements, or all of [l] when it is shorter. *)
Definition slice_last {A : Type} (n : nat) (l : list A) : list A :=
  skipn (List.length l - n) l.

Definition recordPrediction (now : Z) (history : list PredictionRecord)
    (name : string) (conf : JS.num) (ok : bool) : list PredictionRecord :=
  let pushed :=
    history ++ [{| modelName := name; timestamp := now;
                   confidence := conf; success := ok |}] in
  if (1000 <? List.length pushed)%nat then slice_last 1000 pushed else pushed.

Definition modelNames : list string :=
  ["route-optimizer"; "fuel-predictor"; "maintenance-forecaster"]%string.

(** The score that the loop body of [evaluateModels] gives to one model. *)
Definition score (recentPredictions : list PredictionRecord) (name : string) : JS.num :=
  let modelPredictions :=
    List.filter (fun p => String.eqb (modelName p) name) recentPredictions in
  if (0 <? List.length modelPredictions)%nat then
    let n := JS.Fin (INR (List.length modelPredictions)) in
    let successRate :=
      JS.div (JS.Fin (INR (List.length (List.filter success modelPredictions)))) n in
    let avgConfidence :=
      JS.div (fold_left (fun sum p => JS.add sum (confidence p)) modelPredictions (JS.Fin 0)) n in
    JS.add (JS.mul successRate (JS.Fin (7 / 10))) (JS.mul avgConfidence (JS.Fin (3 / 10)))
  else JS.Fin (5 / 10).

Definition evaluateModels (history : list PredictionRecord) : gmap string JS.num :=
  let recentPredictions := slice_last 100 history in
  fold_left (fun evaluations name => <[name := score recentPredictions name]> evaluations)
            modelNames ∅.

(** The fields of the service that predictions read and write. *)
Record t : Type := {
  routeOptimizer : BaseModel.t;
  fuelPredictor : BaseModel.t;
  maintenanceForecaster : BaseModel.t;
  predictionHistory : list PredictionRecord
}.

Definition record (s : t) (now : Z) (name : string) (conf : JS.num) (ok : bool) : t :=
  {| routeOptimizer := routeOptimizer s;
     fuelPredictor := fuelPredictor s;
     maintenanceForecaster := maintenanceForecaster s;
     predictionHistory := recordPrediction now (predictionHistory s) name conf ok |}.

Section Predictions.

Variables RouteInput RouteDerived : Type.
Variable routeDerive : RouteInput -> JS.num -> JS.num -> JS.num -> RouteDerived.
Variable routePreprocess : RouteInput -> Error + list JS.num.

Variables FuelInput FuelDerived : Type.
Variable fuelDerive : FuelInput -> JS.num -> JS.num -> JS.num -> FuelDerived.
Variable fuelPreprocess : FuelInput -> Error + list JS.num.

Variable w : nat -> DenseWeights.
Variable bn : BatchNormWeights.
Variable modelExists : bool.
Variable loadLayersModel : Error + LayersModel.
Variable maintenancePreprocess :
  MaintenanceForecasterModel.MaintenanceInput -> Error + list JS.num.

Definition optimizeRoute (s : t) (now : Z) (input : RouteInput)
  : (Error + RouteOptimizerModel.RouteOptimization RouteDerived) * t :=
  match RouteOptimizerModel.optimizeRoute RouteInput RouteDerived routeDerive
          (BaseModel.predict RouteInput routePreprocess (routeOptimizer s) now)
          input with
  | inr optimization =>
      (inr optimization,
       record s now "route-optimizer"
              (RouteOptimizerModel.weatherRiskScore RouteDerived optimization)
              true)
  | inl e => (inl e, record s now "route-optimizer" (JS.Fin 0) false)
  end.

Definition predictFuelConsumption (s : t) (now : Z) (input : FuelInput)
  : (Error + FuelPredictorModel.FuelPrediction FuelDerived) * t :=
  match FuelPredictorModel.predictFuelConsumption FuelInput FuelDerived fuelDerive
          (BaseModel.predict FuelInput fuelPreprocess (fuelPredictor s) now)
          input with
  | inr p =>
      (inr p,
       record s now "fuel-predictor"
              (FuelPredictorModel.confidence FuelDerived p) true)
  | inl e => (inl e, record s now "fuel-predictor" (JS.Fin 0) false)
  end.

Definition predictMaintenance (s : t) (now : Z)
    (input : MaintenanceForecasterModel.MaintenanceInput)
  : (Error + MaintenanceForecasterModel.MaintenancePrediction) * t :=
  let '(result, m') :=
    MaintenanceForecasterModel.predictMaintenance w bn modelExists loadLayersModel
      maintenancePreprocess (maintenanceForecaster s) now input in
  let s' := {| routeOptimizer := routeOptimizer s;
               fuelPredictor := fuelPredictor s;
               maintenanceForecaster := m';
               predictionHistory := predictionHistory s |} in
  match result with
  | inr p =>
      (inr p,
       record s' now "maintenance-forecaster"
              (MaintenanceForecasterModel.confidence p) true)
  | inl e => (inl e, record s' now "maintenance-forecaster" (JS.Fin 0) false)
  end.

End Predictions.

End AIService.


(** * Further functions of the same sources *)

(** ** MaintenanceForecasterModel.ts: features, factor scores, schedules *)

Module MaintenanceDetails.
Import MaintenanceForecasterModel.

(** [l.slice(0, n)] and [l.slice(-n)] *)
Definition slice_first {A : Type} (n : nat) (l : list A) : list A := firstn n l.

Definition slice_last {A : Type} (n : nat) (l : list A) : list A :=
  skipn (List.length l - n) l.

(** [l.reduce((sum, x) => sum + x, 0)] over finite numbers. *)
Definition sum (l : list R) : R := fold_left (fun sum x => sum + x) l 0.

(** [Math.min(1, Math.max(-1, x))] *)
Definition clampTrend (x : JS.num) : JS.num :=
  JS.min (JS.Fin 1) (JS.max (JS.Fin (-1)) x).

Definition calculateMaintenanceCostTrend (history : list MaintenanceEvent) : JS.num :=
  if (List.length history <? 3)%nat then JS.Fin 0
  else
    let recentCosts := List.map cost (slice_last 3 history) in
    let earlierCosts := List.map cost (slice_first 3 history) in
    let recentAvg := sum recentCosts / INR (List.length recentCosts) in
    let earlierAvg := sum earlierCosts / INR (List.length earlierCosts) in
    clampTrend (JS.div (JS.Fin (recentAvg - earlierAvg)) (JS.Fin earlierAvg)).

(** [l.reduce((sum, val) => sum + val, 0) / l.length] *)
Definition average (l : list JS.num) : JS.num :=
  JS.div (fold_left JS.add l (JS.Fin 0)) (JS.Fin (INR (List.length l))).

(** [x === 0] *)
Definition isZero (x : JS.num) : bool :=
  match x with JS.Fin r => JS.Reqb r 0 | _ => false end.

(** The inner [calculateTrend] of [calculateSensorTrends], on an array of
    numbers. *)
Definition calculateTrend (values : list JS.num) : JS.num :=
  let validValues := List.filter (fun v => negb (JS.isNaN v)) values in
  if (List.length validValues <? 3)%nat then JS.Fin 0
  else
    let recent := slice_last 5 validValues in
    let earlier := slice_first 5 validValues in
    if (List.length recent =? 0)%nat || (List.length earlier =? 0)%nat then JS.Fin 0
    else
      let recentAvg := average recent in
      let earlierAvg := average earlier in
      if isZero earlierAvg then JS.Fin 0
      else clampTrend (JS.div (JS.sub recentAvg earlierAvg) earlierAvg).

Definition calculateSensorTrends (s : Sensors) : JS.num * JS.num :=
  (calculateTrend (List.map JS.Fin (temperature s)),
   calculateTrend (List.map JS.Fin (vibration s))).

Record FactorScores : Type := {
  ageScore : R;
  usageScore : R;
  conditionScore : R;
  historyScore : R;
  sensorScore : R
}.

Definition calculateFactorScores (input : MaintenanceInput) : FactorScores :=
  {| ageScore := Rmin 1 (age (ship input) / 25);
     usageScore :=
       Rmin 1 (dailyOperatingHours (usage input) / 16 * (5 / 10)
               + voyagesPerMonth (usage input) / 20 * (3 / 10)
               + roughSeaExposure (environmentalConditions (usage input)) * (2 / 10));
     conditionScore :=
       Rmin 1 (averageLoad (operatingConditions (component input)) * (4 / 10)
               + oc_vibration (operatingConditions (component input)) / 10 * (3 / 10)
               + oc_temperature (operatingConditions (component input)) / 100 * (3 / 10));
     historyScore :=
       Rmin 1 (INR (List.length (maintenanceHistory (component input))) / 20);
     sensorScore :=
       Rmin 1 ((1 - r_efficiency (lastReadings (sensors input))) * (5 / 10)
               + r_vibration (lastReadings (sensors input)) / 10 * (3 / 10)
               + r_temperature (lastReadings (sensors input)) / 100 * (2 / 10)) |}.





End MaintenanceDetails.

(** ** RouteOptimizerModel.ts: geometry, baselines and waypoints *)

Module RouteGeometry.

Record Point : Type := {
  latitude : R;
  longitude : R
}.

Record ShipSpecs : Type := {
  maxSpeed : R;
  fuelCapacity : R;
  cargoCapacity : R;
  currentCargoWeight : R
}.

Record Weather : Type := {
  windSpeed : R;
  waveHeight : R;
  visibility : R;
  temperature : R
}.

Record Preferences : Type := {
  prioritizeFuel : bool;
  prioritizeTime : bool;
  avoidRoughSeas : bool
}.

Record RouteInput : Type := {
  origin : Point;
  destination : Point;
  shipSpecs : ShipSpecs;
  weatherConditions : Weather;
  preferences : Preferences
}.

(** [Math.atan2(y, x)] on finite arguments. *)
Definition Math_atan2 (y x : R) : R :=
  if JS.Rltb 0 x then atan (y / x)
  else if JS.Rltb x 0 then
         if JS.Rltb y 0 then atan (y / x) - PI else atan (y / x) + PI
       else if JS.Rltb 0 y then PI / 2
            else if JS.Rltb y 0 then - PI / 2 else 0.

(** The haversine term [a] of [calculateDistance]. *)
Definition haversine (point1 point2 : Point) : R :=
  let lat1Rad := latitude point1 * PI / 180 in
  let lat2Rad := latitude point2 * PI / 180 in
  let deltaLatRad := (latitude point2 - latitude point1) * PI / 180 in
  let deltaLonRad := (longitude point2 - longitude point1) * PI / 180 in
  sin (deltaLatRad / 2) * sin (deltaLatRad / 2)
  + cos lat1Rad * cos lat2Rad * sin (deltaLonRad / 2) * sin (deltaLonRad / 2).

Definition earthRadius : R := 3440065 / 1000.

(** [calculateDistance], in nautical miles, in exact arithmetic: there
    [haversine] and [1 - haversine] are never negative (lemma
    [haversine_range]) and both square roots are real.  For two nearly
    antipodal points the haversine term computed in double precision can
    exceed 1 by a rounding error, and the source then returns [NaN]; that
    case lies outside this definition, and the statements about single
    distances below are limited to what holds there as well. *)
Definition calculateDistance (point1 point2 : Point) : R :=
  let a := haversine point1 point2 in
  let c := 2 * Math_atan2 (sqrt a) (sqrt (1 - a)) in
  earthRadius * c.

Fixpoint calculateTotalRouteDistance (route : list Point) : R :=
  match route with
  | p0 :: (p1 :: _) as rest => calculateDistance p0 p1 + calculateTotalRouteDistance rest
  | _ => 0
  end.

Definition calculateBaseTime (distance speed : R) : JS.num :=
  JS.div (JS.Fin distance) (JS.Fin speed).

Definition calculateBaseFuelConsumption (distance : R) (s : ShipSpecs) : JS.num :=
  let baseConsumption := JS.Fin (distance * (3 / 10)) in
  let cargoFactor :=
    JS.add (JS.Fin 1)
           (JS.mul (JS.div (JS.Fin (currentCargoWeight s)) (JS.Fin (cargoCapacity s)))
                   (JS.Fin (2 / 10))) in
  let speedFactor := JS.Fin (maxSpeed s / 20 * (maxSpeed s / 20)) in
  JS.mul (JS.mul baseConsumption cargoFactor) speedFactor.

(** The estimates of [optimizeRoute] from the raw time and fuel factors. *)
Definition estimatedTime (input : RouteInput) (timeFactor : JS.num) : JS.num :=
  (calculateBaseTime (calculateDistance (origin input) (destination input))
                     (maxSpeed (shipSpecs input))
   * (JS.Fin 1 + timeFactor * JS.Fin (5 / 10)))%js.

Definition estimatedFuelConsumption (input : RouteInput) (fuelFactor : JS.num) : JS.num :=
  (calculateBaseFuelConsumption
     (calculateDistance (origin input) (destination input)) (shipSpecs input)
   * (JS.Fin 1 + fuelFactor * JS.Fin (3 / 10)))%js.

(** [preprocessInput]; [month] is [new Date().getMonth()]. *)
Definition preprocessInput (month : nat) (data : RouteInput) : list JS.num :=
  let distance := calculateDistance (origin data) (destination data) in
  let flag (b : bool) : JS.num := if b then JS.Fin 1 else JS.Fin 0 in
  [ JS.Fin (latitude (origin data) / 90);
    JS.Fin (longitude (origin data) / 180);
    JS.Fin (latitude (destination data) / 90);
    JS.Fin (longitude (destination data) / 180);
    JS.Fin (maxSpeed (shipSpecs data) / 30);
    JS.div (JS.Fin (currentCargoWeight (shipSpecs data)))
           (JS.Fin (cargoCapacity (shipSpecs data)));
    JS.Fin (windSpeed (weatherConditions data) / 50);
    JS.Fin (waveHeight (weatherConditions data) / 10);
    JS.Fin (visibility (weatherConditions data) / 10);
    JS.Fin (temperature (weatherConditions data) / 50);
    flag (prioritizeFuel (preferences data));
    flag (prioritizeTime (preferences data));
    flag (avoidRoughSeas (preferences data));
    JS.Fin (distance / 5000);
    JS.Fin (sin (INR month * PI / 6)) ].

(** [Math.max(2, Math.floor(efficiency * 10))] *)
Definition numWaypoints (efficiency : R) : nat :=
  Z.to_nat (Z.max 2 (Zfloor (efficiency * 10))).

(** [generateOptimizedWaypoints]; [random k] is the result of the [k]-th
    call of [Math.random] that the function makes. *)
Definition generateOptimizedWaypoints (random : nat -> R) (origin destination : Point)
    (weather : Weather) (efficiency : R) : list Point :=
  let n := numWaypoints efficiency in
  let interior (i : nat) : Point :=
    let progress := INR i / INR n in
    let lat := latitude origin + (latitude destination - latitude origin) * progress in
    let lon := longitude origin + (longitude destination - longitude origin) * progress in
    let weatherDeviation := (windSpeed weather + waveHeight weather) / 100 in
    let latAdjustment := (random (2 * (i - 1))%nat - 5 / 10) * weatherDeviation in
    let lonAdjustment := (random (2 * (i - 1) + 1)%nat - 5 / 10) * weatherDeviation in
    {| latitude := lat + latAdjustment; longitude := lon + lonAdjustment |} in
  origin :: List.map interior (seq 1 (n - 1)) ++ [destination].

Record Alternative : Type := {
  route : list Point;
  time : R;
  fuel : R;
  risk : R
}.

(** One waypoint of the [i]-th alternative route (0 or 1), [j] from 0 to 5;
    the interior ones draw two random numbers each. *)
Definition alternativePoint (random : nat -> R) (origin destination : Point)
    (i j : nat) : Point :=
  let routeVariation := (INR i + 1) * (1 / 10) in
  let progress := INR j / 5 in
  let lat := latitude origin + (latitude destination - latitude origin) * progress in
  let lon := longitude origin + (longitude destination - longitude origin) * progress in
  if (0 <? j)%nat && (j <? 5)%nat
  then {| latitude := lat + (random (8 * i + 2 * (j - 1))%nat - 5 / 10) * routeVariation;
          longitude := lon + (random (8 * i + 2 * (j - 1) + 1)%nat - 5 / 10) * routeVariation |}
  else {| latitude := lat; longitude := lon |}.

Definition generateAlternativeRoutes (random : nat -> R) (origin destination : Point)
    (weather : Weather) : list Alternative :=
  List.map
    (fun i =>
       let r := List.map (alternativePoint random origin destination i) (seq 0 6) in
       let distance := calculateTotalRouteDistance r in
       {| route := r;
          time := distance / 20;
          fuel := distance * (35 / 100);
          risk := Rmin 1 ((windSpeed weather + waveHeight weather) / 30) |})
    (seq 0 2).

End RouteGeometry.


(** ** AIService.ts: configuration, status and metrics *)

Module ServiceStatus.
Import AIService.

Record AIServiceConfig : Type := {
  autoTrainModels : bool;
  modelUpdateInterval : R;
  performanceThreshold : R;
  enableModelVersioning : bool;
  maxModelVersions : R
}.

(** [Partial<AIServiceConfig>]: each key is present or absent. *)
Record PartialConfig : Type := {
  p_autoTrainModels : option bool;
  p_modelUpdateInterval : option R;
  p_performanceThreshold : option R;
  p_enableModelVersioning : option bool;
  p_maxModelVersions : option R
}.

Record ModelPerformanceMetrics : Type := {
  m_modelName : string;
  m_version : string;
  accuracy : JS.num;
  precision : JS.num;
  recall : JS.num;
  f1Score : JS.num;
  lastEvaluated : Z;
  predictionCount : nat;
  averageConfidence : JS.num
}.

(** A [Map] with string keys, in insertion order. *)
Definition Map (V : Type) : Type := list (string * V).

Fixpoint Map_get {V : Type} (k : string) (m : Map V) : option V :=
  match m with
  | [] => None
  | (k', v) :: rest => if String.eqb k' k then Some v else Map_get k rest
  end.

(** [m.set(k, v)]: an existing key keeps its place. *)
Fixpoint Map_set {V : Type} (k : string) (v : V) (m : Map V) : Map V :=
  match m with
  | [] => [(k, v)]
  | (k', v') :: rest =>
      if String.eqb k' k then (k, v) :: rest else (k', v') :: Map_set k v rest
  end.

Definition Map_values {V : Type} (m : Map V) : list V := List.map snd m.

Record Service : Type := {
  core : AIService.t;
  config : AIServiceConfig;
  performanceMetrics : Map ModelPerformanceMetrics
}.

(** The constructor: the defaults, overridden by the keys of [config]. *)
Definition new (config : option PartialConfig) : Service :=
  let get {A : Type} (field : PartialConfig -> option A) (d : A) : A :=
    match config with
    | Some c => match field c with Some v => v | None => d end
    | None => d
    end in
  {| core := {| routeOptimizer := BaseModel.new RouteOptimizerModel.config;
                fuelPredictor := BaseModel.new FuelPredictorModel.config;
                maintenanceForecaster := BaseModel.new MaintenanceForecasterModel.config;
                predictionHistory := [] |};
     config := {| autoTrainModels := get p_autoTrainModels true;
                  modelUpdateInterval := get p_modelUpdateInterval 24;
                  performanceThreshold := get p_performanceThreshold (8 / 10);
                  enableModelVersioning := get p_enableModelVersioning true;
                  maxModelVersions := get p_maxModelVersions 5 |};
     performanceMetrics := [] |}.

(** [getAIService] on the module variable [aiServiceInstance]. *)
Definition getAIService (config : option PartialConfig)
    (aiServiceInstance : option Service) : Service * option Service :=
  match aiServiceInstance with
  | None => let s := new config in (s, Some s)
  | Some s => (s, Some s)
  end.

(** [Object.entries(evaluations)]: the keys in the order of their insertion,
    which is that of [modelNames]. *)
Definition Object_entries (evaluations : gmap string JS.num) : list (string * JS.num) :=
  omap (fun name => (fun sc => (name, sc)) <$> evaluations !! name) modelNames.

(** The test of [checkAndTrainModels]. *)
Definition needsTraining (s : Service) : bool :=
  existsb (fun entry => JS.lt (snd entry) (JS.Fin (performanceThreshold (config s))))
          (Object_entries (evaluateModels (predictionHistory (core s)))).

(** The entry that the loop body of [updatePerformanceMetrics] stores. *)
Definition metricsOf (now : Z) (history : list PredictionRecord)
    (name : string) (acc : JS.num) : ModelPerformanceMetrics :=
  let recentPredictions :=
    slice_last 100 (List.filter (fun p => String.eqb (modelName p) name) history) in
  let avgConfidence :=
    if (0 <? List.length recentPredictions)%nat
    then JS.div (fold_left (fun sum p => JS.add sum (confidence p)) recentPredictions (JS.Fin 0))
                (JS.Fin (INR (List.length recentPredictions)))
    else JS.Fin 0 in
  {| m_modelName := name;
     m_version := "1.0.0";
     accuracy := acc;
     precision := JS.mul acc (JS.Fin (95 / 100));
     recall := JS.mul acc (JS.Fin (9 / 10));
     f1Score := JS.mul acc (JS.Fin (925 / 1000));
     lastEvaluated := now;
     predictionCount := List.length recentPredictions;
     averageConfidence := avgConfidence |}.

Definition updatePerformanceMetrics (now : Z) (s : Service) : Service :=
  let history := predictionHistory (core s) in
  {| core := core s;
     config := config s;
     performanceMetrics :=
       fold_left (fun metrics entry =>
                    Map_set (fst entry) (metricsOf now history (fst entry) (snd entry)) metrics)
                 (Object_entries (evaluateModels history))
                 (performanceMetrics s) |}.

(** One entry of [models/saved]: no [metadata.json], one whose [savedAt]
    gives the time value [Some ms] or an Invalid Date ([None]), or one whose
    reading or parsing throws. *)
Inductive DirEntry : Type :=
| noMetadata
| metadata (savedAt : option Z)
| unreadable.

(** [a > b] on two [Date]s: false when either is an Invalid Date. *)
Definition Date_gt (a b : option Z) : bool :=
  match a, b with
  | Some x, Some y => (y <? x)%Z
  | _, _ => false
  end.

(** The body of the loop of [getLastTrainingDate]; the state is [None] once
    an exception was thrown, and else holds [latestDate]. *)
Definition latestStep (state : option (option (option Z))) (e : DirEntry)
  : option (option (option Z)) :=
  match state with
  | None => None
  | Some latestDate =>
      match e with
      | noMetadata => Some latestDate
      | unreadable => None
      | metadata savedAt =>
          match latestDate with
          | None => Some (Some savedAt)
          | Some latest =>
              if Date_gt savedAt latest then Some (Some savedAt)
              else Some (Some latest)
          end
      end
  end.

(** [getLastTrainingDate]: the result [None] is [null]; [modelsDir] is the
    listing of the directory when it exists and can be listed. *)
Definition getLastTrainingDate (modelsDir : option (list DirEntry)) : option (option Z) :=
  match modelsDir with
  | None => None
  | Some modelDirs =>
      match fold_left latestStep modelDirs (Some None) with
      | Some latestDate => latestDate
      | None => None
      end
  end.

Inductive SystemHealth : Type := excellent | good | fair | poor.

Record AIServiceStatus : Type := {
  isReady : bool;
  routeOptimizerLoaded : bool;
  fuelPredictorLoaded : bool;
  maintenanceForecasterLoaded : bool;
  lastTrainingDate : option (option Z);
  statusMetrics : list ModelPerformanceMetrics;
  systemHealth : SystemHealth
}.

Definition avgPerformance (metrics : list ModelPerformanceMetrics) : JS.num :=
  if (0 <? List.length metrics)%nat
  then JS.div (fold_left (fun sum m => JS.add sum (accuracy m)) metrics (JS.Fin 0))
              (JS.Fin (INR (List.length metrics)))
  else JS.Fin 0.

Definition healthOf (avg : JS.num) : SystemHealth :=
  if JS.gt avg (JS.Fin (9 / 10)) then excellent
  else if JS.gt avg (JS.Fin (8 / 10)) then good
  else if JS.gt avg (JS.Fin (6 / 10)) then fair
  else poor.

Definition getServiceStatus (modelsDir : option (list DirEntry)) (s : Service)
  : AIServiceStatus :=
  let routeLoaded := BaseModel.isLoaded (routeOptimizer (core s)) in
  let fuelLoaded := BaseModel.isLoaded (fuelPredictor (core s)) in
  let maintenanceLoaded := BaseModel.isLoaded (maintenanceForecaster (core s)) in
  let metrics := Map_values (performanceMetrics s) in
  {| isReady := routeLoaded && fuelLoaded && maintenanceLoaded;
     routeOptimizerLoaded := routeLoaded;
     fuelPredictorLoaded := fuelLoaded;
     maintenanceForecasterLoaded := maintenanceLoaded;
     lastTrainingDate := getLastTrainingDate modelsDir;
     statusMetrics := metrics;
     systemHealth := healthOf (avgPerformance metrics) |}.

(** [dispose] of the service: it disposes the three models. *)
Definition dispose (s : Service) : Service :=
  {| core := {| routeOptimizer := BaseModel.dispose (routeOptimizer (core s));
                fuelPredictor := BaseModel.dispose (fuelPredictor (core s));
                maintenanceForecaster := BaseModel.dispose (maintenanceForecaster (core s));
                predictionHistory := predictionHistory (core s) |};
     config := config s;
     performanceMetrics := performanceMetrics s |}.

End ServiceStatus.

(** ** Synthetic training data *)

Module JSArray.

(** [input[k]] on an array of numbers: [undefined], which arithmetic turns
    into [NaN], when [k] is not an index of the array. *)
Definition get (input : list R) (k : nat) : JS.num :=
  match nth_error input k with
  | Some x => JS.Fin x
  | None => JS.NaN
  end.

(** [Math.max(0, Math.min(1, x))] *)
Definition clampUnit (x : JS.num) : JS.num :=
  JS.max (JS.Fin 0) (JS.min (JS.Fin 1) x).

(** [Math.floor(x)] as a number. *)
Definition Math_floor (x : R) : R := IZR (Zfloor x).

End JSArray.

(** The result of [generateTrainingData]. *)
Record TrainingSet : Type := {
  ts_inputs : list (list R);
  ts_outputs : list (list JS.num);
  ts_validationSplit : R
}.

Module MaintenanceTraining.
Import JSArray.

Definition calculateRiskScore (input : list R) : JS.num :=
  let ageRisk := (get input 0 * JS.Fin (15 / 100))%js in
  let usageRisk := (get input 1 * JS.Fin (15 / 100))%js in
  let maintenanceHistory := (get input 6 / JS.Fin 10 * JS.Fin (1 / 10))%js in
  let failureHistory := (get input 7 * JS.Fin (15 / 100))%js in
  let conditionRisk :=
    ((get input 9 + get input 11 + get input 13) / JS.Fin 3 * JS.Fin (2 / 10))%js in
  let sensorTrends :=
    ((get input 20 + get input 21 + get input 22) / JS.Fin 3 * JS.Fin (25 / 100))%js in
  let risk :=
    (ageRisk + usageRisk + maintenanceHistory + failureHistory + conditionRisk
     + sensorTrends)%js in
  clampUnit risk.

Definition calculateDaysToFailure (input : list R) : JS.num :=
  let baseLife := (JS.Fin 1 - get input 0)%js in
  let maintenanceEffect := (get input 5 * JS.Fin (2 / 10))%js in
  let conditionEffect :=
    ((get input 10 + get input 11 + get input 12) / JS.Fin 3 * JS.Fin (3 / 10))%js in
  let trendEffect :=
    ((JS.Fin 1 - (get input 20 + get input 21 + get input 22) / JS.Fin 3)
     * JS.Fin (3 / 10))%js in
  let daysToFailure := (baseLife + maintenanceEffect + conditionEffect + trendEffect)%js in
  clampUnit daysToFailure.

Definition calculateMaintenanceUrgency (input : list R) : JS.num :=
  let riskScore := calculateRiskScore input in
  let operationalImpact := (get input 9 * JS.Fin (3 / 10))%js in
  let sensorWarnings :=
    ((get input 20 + get input 21 + get input 22) / JS.Fin 3 * JS.Fin (3 / 10))%js in
  let timeSinceLastMaintenance := ((JS.Fin 1 - get input 5) * JS.Fin (2 / 10))%js in
  let urgency :=
    (riskScore * JS.Fin (2 / 10) + operationalImpact + sensorWarnings
     + timeSinceLastMaintenance)%js in
  clampUnit urgency.

Definition calculateCostFactor (input : list R) : JS.num :=
  let componentFactor := (get input 23 * JS.Fin (3 / 10))%js in
  let ageFactor := (get input 0 * JS.Fin (2 / 10))%js in
  let conditionFactor :=
    ((get input 10 + get input 11 + get input 12) / JS.Fin 3 * JS.Fin (3 / 10))%js in
  let urgencyFactor := (calculateMaintenanceUrgency input * JS.Fin (2 / 10))%js in
  let cost := (componentFactor + ageFactor + conditionFactor + urgencyFactor)%js in
  clampUnit cost.

Definition calculateDowntimeFactor (input : list R) : JS.num :=
  let componentFactor := (get input 23 * JS.Fin (25 / 100))%js in
  let complexityFactor :=
    ((get input 2 + get input 3) / JS.Fin 2 * JS.Fin (25 / 100))%js in
  let accessFactor := (get input 18 * JS.Fin (25 / 100))%js in
  let urgencyFactor := (calculateMaintenanceUrgency input * JS.Fin (25 / 100))%js in
  let downtime := (componentFactor + complexityFactor + accessFactor + urgencyFactor)%js in
  clampUnit downtime.

(** The input vector of one sample; [r k] is the result of the [k]-th call
    of [Math.random] within the iteration, which makes 25 of them. *)
Definition sampleInput (r : nat -> R) : list R :=
  let ship_age := 1 + r 0%nat * 24 in
  let ship_hoursOperated := 1000 + r 1%nat * 99000 in
  let ship_enginePower := 15000 + r 2%nat * 20000 in
  let ship_length := 200 + r 3%nat * 200 in
  let component_isEngine := JS.Rgtb (r 4%nat) (5 / 10) in
  let component_age := r 5%nat * ship_age in
  let component_lastMaintenanceAge := r 6%nat * ship_age * (8 / 10) in
  let component_maintenanceCount := Math_floor (r 7%nat * 10) in
  let component_failureCount := Math_floor (r 8%nat * 3) in
  let component_operatingHours := r 9%nat * ship_hoursOperated in
  let averageLoad := 4 / 10 + r 10%nat * (5 / 10) in
  let temperature := 40 + r 11%nat * 40 in
  let vibration := 1 + r 12%nat * 4 in
  let pressure := 20 + r 13%nat * 10 in
  let oilQuality := r 14%nat in
  let coolingEfficiency := 7 / 10 + r 15%nat * (3 / 10) in
  let dailyOperatingHours := 8 + r 16%nat * 16 in
  let startStopCycles := Math_floor (r 17%nat * 1000) in
  let overloadFrequency := r 18%nat * (2 / 10) in
  let environmentalStress := r 19%nat in
  let temperatureSlope := - (1 / 10) + r 20%nat * (2 / 10) in
  let vibrationSlope := r 21%nat * (1 / 100) in
  let pressureSlope := - (1 / 100) + r 22%nat * (2 / 100) in
  let efficiencySlope := - (1 / 1000) + r 23%nat * (2 / 1000) in
  [ ship_age / 25;
    ship_hoursOperated / 100000;
    ship_enginePower / 35000;
    ship_length / 400;
    component_age / ship_age;
    component_lastMaintenanceAge / ship_age;
    component_maintenanceCount / 10;
    component_failureCount / 3;
    component_operatingHours / ship_hoursOperated;
    averageLoad;
    temperature / 80;
    vibration / 5;
    pressure / 30;
    oilQuality;
    coolingEfficiency;
    dailyOperatingHours / 24;
    startStopCycles / 1000;
    overloadFrequency;
    environmentalStress;
    temperatureSlope + 1 / 10;
    vibrationSlope / (1 / 100);
    pressureSlope + 1 / 100;
    efficiencySlope + 1 / 1000;
    (if component_isEngine then 1 else 0);
    r 24%nat ].

Definition sampleOutput (input : list R) : list JS.num :=
  [ calculateRiskScore input;
    calculateDaysToFailure input;
    calculateCostFactor input;
    calculateDowntimeFactor input;
    calculateMaintenanceUrgency input ].

(** [generateTrainingData(sampleSize)] for a whole number of samples;
    [random k] is the [k]-th result of [Math.random]. *)
Definition generateTrainingData (random : nat -> R) (sampleSize : nat) : TrainingSet :=
  let input (i : nat) := sampleInput (fun k => random (25 * i + k)%nat) in
  {| ts_inputs := List.map input (seq 0 sampleSize);
     ts_outputs := List.map (fun i => sampleOutput (input i)) (seq 0 sampleSize);
     ts_validationSplit := 2 / 10 |}.

End MaintenanceTraining.

Module RouteTraining.
Import JSArray RouteGeometry.

Definition calculateTimeFactor (input : list R) : JS.num :=
  let speedFactor := (get input 4 / JS.Fin 35)%js in
  let weatherImpact := ((get input 6 + get input 7) / JS.Fin 2)%js in
  let prioritizeTime := get input 11 in
  let factor :=
    (speedFactor * JS.Fin (4 / 10) + (JS.Fin 1 - weatherImpact) * JS.Fin (4 / 10)
     + prioritizeTime * JS.Fin (2 / 10))%js in
  clampUnit factor.

Definition calculateFuelFactor (input : list R) : JS.num :=
  let cargoLoad := get input 5 in
  let weatherImpact := ((get input 6 + get input 7) / JS.Fin 2)%js in
  let prioritizeFuel := get input 10 in
  let factor :=
    ((JS.Fin 1 - cargoLoad) * JS.Fin (3 / 10) + (JS.Fin 1 - weatherImpact) * JS.Fin (4 / 10)
     + prioritizeFuel * JS.Fin (3 / 10))%js in
  clampUnit factor.

Definition calculateRiskScore (input : list R) : JS.num :=
  let weatherRisk := ((get input 6 + get input 7) / JS.Fin 2)%js in
  let visibilityRisk := (JS.Fin 1 - get input 8)%js in
  let avoidRoughSeas := get input 12 in
  let score :=
    (weatherRisk * JS.Fin (4 / 10) + visibilityRisk * JS.Fin (3 / 10)
     + (JS.Fin 1 - avoidRoughSeas) * JS.Fin (3 / 10))%js in
  clampUnit score.

Definition calculateRouteEfficiency (input : list R) : JS.num :=
  let timeFactor := calculateTimeFactor input in
  let fuelFactor := calculateFuelFactor input in
  let riskScore := calculateRiskScore input in
  let efficiency :=
    (timeFactor * JS.Fin (35 / 100) + fuelFactor * JS.Fin (35 / 100)
     + (JS.Fin 1 - riskScore) * JS.Fin (3 / 10))%js in
  clampUnit efficiency.

(** The random voyage of one sample; [r k] is the result of the [k]-th call
    of [Math.random] within the iteration, which makes 15 of them. *)
Definition sampleRoute (r : nat -> R) : RouteInput :=
  {| origin := {| latitude := r 0%nat * 180 - 90; longitude := r 1%nat * 360 - 180 |};
     destination := {| latitude := r 2%nat * 180 - 90; longitude := r 3%nat * 360 - 180 |};
     shipSpecs := {| maxSpeed := 15 + r 4%nat * 20;
                     fuelCapacity := 3000 + r 5%nat * 4000;
                     cargoCapacity := 500 + r 6%nat * 1500;
                     currentCargoWeight := r 7%nat * 1500 |};
     weatherConditions := {| windSpeed := r 8%nat * 50;
                             waveHeight := r 9%nat * 10;
                             visibility := r 10%nat * 10;
                             temperature := r 11%nat * 40 - 10 |};
     preferences := {| prioritizeFuel := JS.Rgtb (r 12%nat) (5 / 10);
                       prioritizeTime := JS.Rgtb (r 13%nat) (5 / 10);
                       avoidRoughSeas := JS.Rgtb (r 14%nat) (5 / 10) |} |}.

(** The input vector that the sample loop builds from the voyage; the cargo
    capacity of a generated voyage is at least 500. *)
Definition sampleInput (v : RouteInput) : list R :=
  let distance := calculateDistance (origin v) (destination v) in
  let flag (b : bool) : R := if b then 1 else 0 in
  [ latitude (origin v); longitude (origin v);
    latitude (destination v); longitude (destination v);
    maxSpeed (shipSpecs v);
    currentCargoWeight (shipSpecs v) / cargoCapacity (shipSpecs v);
    windSpeed (weatherConditions v) / 50;
    waveHeight (weatherConditions v) / 10;
    visibility (weatherConditions v) / 10;
    temperature (weatherConditions v) / 40;
    flag (prioritizeFuel (preferences v));
    flag (prioritizeTime (preferences v));
    flag (avoidRoughSeas (preferences v));
    distance / 10000;
    fuelCapacity (shipSpecs v) / 7000 ].

Definition sampleOutput (input : list R) : list JS.num :=
  [ calculateTimeFactor input;
    calculateFuelFactor input;
    calculateRiskScore input;
    calculateRouteEfficiency input ].

Definition generateTrainingData (random : nat -> R) (sampleSize : nat) : TrainingSet :=
  let input (i : nat) := sampleInput (sampleRoute (fun k => random (15 * i + k)%nat)) in
  {| ts_inputs := List.map input (seq 0 sampleSize);
     ts_outputs := List.map (fun i => sampleOutput (input i)) (seq 0 sampleSize);
     ts_validationSplit := 2 / 10 |}.

End RouteTraining.

(** ** FuelPredictorModel.ts: the quantities of a prediction *)

Module FuelDetails.

(** The fields of a [FuelPredictionInput] that the functions below read. *)
Record Voyage : Type := {
  distance : R;
  duration : R
}.

Record Ship : Type := {
  enginePower : R;
  maxSpeed : R
}.

Record Conditions : Type := {
  windSpeed : R;
  waveHeight : R;
  seaState : R
}.

Record Operational : Type := {
  cruisingSpeed : R;
  loadFactor : R;
  mainEngineLoad : R;
  auxiliaryLoad : R;
  hvacLoad : R
}.

Record FuelPredictionInput : Type := {
  voyage : Voyage;
  ship : Ship;
  conditions : Conditions;
  operational : Operational
}.

Definition FUEL_DENSITY : R := 845 / 1000.
Definition CO2_FACTOR : R := 315 / 100.

(** [Math.pow(x, 3)] *)
Definition Math_pow3 (x : JS.num) : JS.num := (x * x * x)%js.

(** [Math.round(x)]: the nearest integer, a tie going up. *)
Definition Math_round (x : JS.num) : JS.num :=
  match x with
  | JS.Fin r => JS.Fin (IZR (Zfloor (r + 1 / 2)))
  | other => other
  end.

Definition calculateBaseMainEngineConsumption (input : FuelPredictionInput) : JS.num :=
  let sfoc := 190 in
  let powerUsed := enginePower (ship input) * mainEngineLoad (operational input) in
  let baseConsumption := powerUsed * duration (voyage input) * sfoc / 1000 in
  let speedFactor :=
    Math_pow3 (JS.Fin (cruisingSpeed (operational input)) / JS.Fin (maxSpeed (ship input)))%js in
  let loadFactor := 1 + loadFactor (operational input) * (15 / 100) in
  (JS.Fin baseConsumption * speedFactor * JS.Fin loadFactor)%js.

Definition calculateBaseAuxiliaryConsumption (input : FuelPredictionInput) : R :=
  let auxPower := enginePower (ship input) * (1 / 10) in
  let sfoc := 210 in
  let baseConsumption :=
    auxPower * auxiliaryLoad (operational input) * duration (voyage input) * sfoc / 1000 in
  let hvacFactor := 1 + hvacLoad (operational input) * (2 / 10) in
  baseConsumption * hvacFactor.

Record Factors : Type := {
  weatherImpact : JS.num;
  loadImpact : JS.num;
  speedImpact : JS.num;
  seaStateImpact : JS.num
}.

Definition round2 (x : JS.num) : JS.num := (Math_round (x * JS.Fin 100) / JS.Fin 100)%js.

Definition calculateImpactFactors (input : FuelPredictionInput) : Factors :=
  let windImpact := Rmin 30 (windSpeed (conditions input) / 30 * 15) in
  let waveImpact := Rmin 20 (waveHeight (conditions input) / 8 * 12) in
  let weatherImpact := windImpact + waveImpact in
  let loadImpact := loadFactor (operational input) * 15 in
  let speedRatio :=
    (JS.Fin (cruisingSpeed (operational input)) / JS.Fin (maxSpeed (ship input)))%js in
  let speedImpact :=
    ((Math_pow3 speedRatio - JS.Fin (7 / 10 * (7 / 10) * (7 / 10))) * JS.Fin 50)%js in
  let seaStateImpact := seaState (conditions input) / 9 * 10 in
  {| weatherImpact := round2 (JS.Fin weatherImpact);
     loadImpact := round2 (JS.Fin loadImpact);
     speedImpact := round2 speedImpact;
     seaStateImpact := round2 (JS.Fin seaStateImpact) |}.

(** The object that [predictFuelConsumption] returns, the confidence apart. *)
Record Derived : Type := {
  totalConsumption : JS.num;
  consumptionRate : JS.num;
  mainEngineConsumption : JS.num;
  auxiliaryConsumption : JS.num;
  efficiency : JS.num;
  co2Emissions : JS.num;
  factors : Factors
}.

Definition derive (input : FuelPredictionInput)
    (mainConsumptionFactor auxConsumptionFactor efficiencyFactor : JS.num) : Derived :=
  let baseMainConsumption := calculateBaseMainEngineConsumption input in
  let baseAuxConsumption := calculateBaseAuxiliaryConsumption input in
  let mainEngineConsumption :=
    (baseMainConsumption * (JS.Fin 1 + mainConsumptionFactor * JS.Fin (5 / 10)))%js in
  let auxiliaryConsumption :=
    (JS.Fin baseAuxConsumption * (JS.Fin 1 + auxConsumptionFactor * JS.Fin (3 / 10)))%js in
  let totalConsumption := (mainEngineConsumption + auxiliaryConsumption)%js in
  {| totalConsumption := totalConsumption;
     consumptionRate := (totalConsumption / JS.Fin (duration (voyage input)))%js;
     mainEngineConsumption := mainEngineConsumption;
     auxiliaryConsumption := auxiliaryConsumption;
     efficiency := (totalConsumption / JS.Fin (distance (voyage input)))%js;
     co2Emissions := (totalConsumption * JS.Fin FUEL_DENSITY * JS.Fin CO2_FACTOR)%js;
     factors := calculateImpactFactors input |}.

Inductive FuelTrend : Type := increasing | decreasing | stableTrend.

Record TrendReport : Type := {
  averageConsumption : JS.num;
  trend : FuelTrend;
  recommendations : list string
}.

(** [l.reduce((a, b) => a + b, 0) / l.length] *)
Definition averageOf (l : list JS.num) : JS.num :=
  (fold_left JS.add l (JS.Fin 0) / JS.Fin (INR (List.length l)))%js.

(** [analyzeFuelTrends] from the consumptions that were predicted. *)
Definition trendsOf (consumptions : list JS.num) : TrendReport :=
  let averageConsumption := averageOf consumptions in
  let half := Nat.div (List.length consumptions) 2 in
  let firstHalf := firstn half consumptions in
  let secondHalf := skipn half consumptions in
  let firstAvg := averageOf firstHalf in
  let secondAvg := averageOf secondHalf in
  let change := ((secondAvg - firstAvg) / firstAvg)%js in
  let trend :=
    if JS.gt change (JS.Fin (5 / 100)) then increasing
    else if JS.lt change (JS.Fin (- (5 / 100))) then decreasing
    else stableTrend in
  let recommendations :=
    List.app
      match trend with
      | increasing =>
          ["Consider route optimization to reduce fuel consumption"%string;
           "Review engine maintenance schedule"%string;
           "Evaluate speed management strategies"%string]
      | _ => []
      end
      (if JS.gt averageConsumption (JS.Fin 1000)
       then ["Consider fuel-efficient routing"%string;
             "Monitor weather patterns for optimal departure times"%string]
       else []) in
  {| averageConsumption := averageConsumption;
     trend := trend;
     recommendations := recommendations |}.

(** [analyzeFuelTrends]: a data point whose prediction throws is skipped. *)
Definition analyzeFuelTrends
    (predict : FuelPredictionInput -> Error + BaseModel.PredictionResult)
    (historicalData : list FuelPredictionInput) : TrendReport :=
  let consumptions :=
    omap (fun data =>
            match FuelPredictorModel.predictFuelConsumption
                    FuelPredictionInput Derived derive predict data with
            | inr prediction =>
                Some (totalConsumption
                        (FuelPredictorModel.derived Derived prediction))
            | inl _ => None
            end)
         historicalData in
  trendsOf consumptions.

End FuelDetails.
(** * Vocabulary of the statements and sample data *)

(** ** Model instances with explicit parameters *)

Definition in_unit_interval (v : R) : Prop := 0 <= v <= 1.

(** [Number.isFinite(x)] *)
Definition finiteNum (x : JS.num) : Prop := exists r, x = JS.Fin r.

(** A number in [0,1]. *)
Definition unitNum (y : JS.num) : Prop := exists t, y = JS.Fin t /\ 0 <= t <= 1.

(** A result of a sigmoid unit: [NaN], or a number in [0,1]. *)
Definition nanOrUnit (y : JS.num) : Prop := y = JS.NaN \/ unitNum y.

(** The vector of the finite numbers [rs]. *)
Definition numbers (rs : list R) : list JS.num := List.map JS.Fin rs.

(** The variances of a batch normalization stay above [-epsilon], so
    that the normalization divides by a positive number. *)
Definition positiveVariance (bn : BatchNormWeights) : Prop :=
  forall i, 0 < movingVariance bn i + 1 / 1000.

(** A layer through which finite values stay finite. *)
Definition wellConditioned (l : Layer) : Prop :=
  match l with
  | batchNormalization w => positiveVariance w
  | _ => True
  end.

(** A raw component strictly between 0 and 1. *)
Definition openUnit (y : JS.num) : Prop := exists t, y = JS.Fin t /\ 0 < t < 1.

(** The model that [train] hands to the fitting loop: the one the
    instance holds, compiled if it had no optimizer. *)
Definition compiledFor (m : BaseModel.t) (tm : BaseModel.TfModel) : BaseModel.TfModel :=
  match BaseModel.optimizer tm with
  | Some _ => tm
  | None =>
      BaseModel.compile tm
        (BaseModel.orNumber (BaseModel.learningRate (BaseModel.config m)) (1 / 1000))
  end.

(** The instance after a fit that produced [tm']. *)
Definition fitted (m : BaseModel.t) (tm' : BaseModel.TfModel) : BaseModel.t :=
  {| BaseModel.model := Some tm'; BaseModel.config := BaseModel.config m;
     BaseModel.isLoaded := BaseModel.isLoaded m |}.

(** The validation split that [train] passes on. *)
Definition splitOf (data : BaseModel.TrainingData) : R :=
  match BaseModel.validationSplit data with
  | Some v => v
  | None => 2 / 10
  end.

Definition constWeights (b : R) : DenseWeights :=
  {| kernel := fun _ _ => 0; bias := fun _ => b |}.

Definition zeroBatchNorm : BatchNormWeights :=
  {| gamma := fun _ => 0; beta := fun _ => 0;
     movingMean := fun _ => 0; movingVariance := fun _ => 1 |}.

(** A loaded instance of the fuel predictor whose last layer has a zero
    kernel and bias [b]; its input type is the feature vector itself. *)
Definition fuelInstance (b : R) : BaseModel.t :=
  {| BaseModel.model :=
       Some (FuelPredictorModel.buildModel (fun _ => constWeights b) zeroBatchNorm);
     BaseModel.config := FuelPredictorModel.config;
     BaseModel.isLoaded := true |}.

Definition routeInstance : BaseModel.t :=
  {| BaseModel.model := Some (RouteOptimizerModel.buildModel (fun _ => constWeights 0));
     BaseModel.config := RouteOptimizerModel.config;
     BaseModel.isLoaded := true |}.

Definition routeRaw : list JS.num :=
  model_predict (BaseModel.layers (RouteOptimizerModel.buildModel (fun _ => constWeights 0)))
                (repeat (JS.Fin 0) 15).

Definition routeResult : BaseModel.PredictionResult :=
  {| BaseModel.prediction := routeRaw;
     BaseModel.confidence := BaseModel.calculateConfidence routeRaw;
     BaseModel.modelVersion := "1.0.0";
     BaseModel.timestamp := 0%Z |}.

Definition sampleTrainingData : BaseModel.TrainingData :=
  {| BaseModel.inputs := [repeat 0 15];
     BaseModel.outputs := [repeat 0 4];
     BaseModel.validationSplit := Some (2 / 10) |}.

(** A history of one epoch, with the loss and the validation loss. *)
Definition sampleHistory : BaseModel.History :=
  <["loss" := [JS.Fin (1 / 10)]]> (<["val_loss" := [JS.Fin (2 / 10)]]> ∅).

(** A fitting loop that succeeds at once with that history, one that
    returns a history without the validation loss, and an artifact store
    that accepts every write. *)
Definition idleFit (tm : BaseModel.TfModel) (_ : BaseModel.TrainingData)
    (_ _ : nat) (_ : R) : Error + (BaseModel.TfModel * BaseModel.History) :=
  inr (tm, sampleHistory).

Definition noValidationFit (tm : BaseModel.TfModel) (_ : BaseModel.TrainingData)
    (_ _ : nat) (_ : R) : Error + (BaseModel.TfModel * BaseModel.History) :=
  inr (tm, <["loss" := [JS.Fin (1 / 10)]]> ∅).

(** A route optimizer that holds its network before any [compile]. *)
Definition uncompiledInstance : BaseModel.t :=
  {| BaseModel.model :=
       Some {| BaseModel.layers :=
                 BaseModel.layers (RouteOptimizerModel.buildModel (fun _ => constWeights 0));
               BaseModel.optimizer := None |};
     BaseModel.config := RouteOptimizerModel.config;
     BaseModel.isLoaded := true |}.

Definition acceptWrite (_ : BaseModel.ModelConfig) (_ : BaseModel.TfModel)
  : option Error := None.

(** ** History and evaluation *)

(** A run of the service records a sequence of entries, one call each. *)
Definition recordAll (h : list AIService.PredictionRecord)
    (entries : list AIService.PredictionRecord) : list AIService.PredictionRecord :=
  fold_left
    (fun acc e =>
       AIService.recordPrediction (AIService.timestamp e) acc (AIService.modelName e)
         (AIService.confidence e) (AIService.success e))
    entries h.

Definition finiteConfidence (p : AIService.PredictionRecord) : Prop :=
  exists r, AIService.confidence p = JS.Fin r.

Definition confidenceValue (p : AIService.PredictionRecord) : R :=
  match AIService.confidence p with
  | JS.Fin r => r
  | _ => 0
  end.

(** The entries of model [name] among [recent]. *)
Definition entriesOf (name : string) (recent : list AIService.PredictionRecord)
  : list AIService.PredictionRecord :=
  List.filter (fun p => String.eqb (AIService.modelName p) name) recent.

Definition successRate (l : list AIService.PredictionRecord) : R :=
  INR (List.length (List.filter AIService.success l)) / INR (List.length l).

Definition meanConfidence (l : list AIService.PredictionRecord) : R :=
  fold_left (fun sum p => sum + confidenceValue p) l 0 / INR (List.length l).

(** The mean of the recorded confidences as the source computes it, in
    JavaScript arithmetic: [NaN] when one of them is. *)
Definition averageConfidence (l : list AIService.PredictionRecord) : JS.num :=
  (fold_left JS.add (List.map AIService.confidence l) (JS.Fin 0)
   / JS.Fin (INR (List.length l)))%js.

(** The window that the specification describes: the last 100 entries
    among those of the model. *)
Definition perModelWindow (name : string) (history : list AIService.PredictionRecord)
  : list AIService.PredictionRecord :=
  AIService.slice_last 100 (entriesOf name history).

Definition routeEntry : AIService.PredictionRecord :=
  {| AIService.modelName := "route-optimizer"; AIService.timestamp := 0%Z;
     AIService.confidence := JS.Fin 1; AIService.success := true |}.

Definition fuelEntry : AIService.PredictionRecord :=
  {| AIService.modelName := "fuel-predictor"; AIService.timestamp := 1%Z;
     AIService.confidence := JS.Fin 1; AIService.success := true |}.

(** A successful fuel prediction whose confidence is [NaN]. *)
Definition nanEntry : AIService.PredictionRecord :=
  {| AIService.modelName := "fuel-predictor"; AIService.timestamp := 2%Z;
     AIService.confidence := JS.NaN; AIService.success := true |}.

(** One successful route prediction followed by a hundred fuel predictions. *)
Definition crowdedHistory : list AIService.PredictionRecord :=
  routeEntry :: repeat fuelEntry 100.

(** ** Maintenance inputs and fleet aggregates *)

Module M := MaintenanceForecasterModel.

Definition withRaw (raw : list JS.num) : BaseModel.PredictionResult :=
  {| BaseModel.prediction := raw;
     BaseModel.confidence := BaseModel.calculateConfidence raw;
     BaseModel.modelVersion := "1.0.0";
     BaseModel.timestamp := 0%Z |}.

(** An engine serviced twice, one day apart. *)
Definition sampleEvent (d : Z) : M.MaintenanceEvent :=
  {| M.date := d; M.event_type := M.preventive; M.cost := 1000;
     M.downtime := 8; M.description := "service" |}.

Definition sampleInput : M.MaintenanceInput :=
  {| M.ship := {| M.id := "S1"; M.ship_type := M.cargo; M.age := 10; M.length := 200;
                  M.enginePower := 20000; M.hoursOperated := 50000 |};
     M.component :=
       {| M.component_type := M.engine;
          M.lastMaintenanceDate := 86400000%Z;
          M.maintenanceHistory := [sampleEvent 0; sampleEvent 86400000];
          M.operatingConditions :=
            {| M.averageLoad := 5 / 10; M.oc_temperature := 60;
               M.oc_vibration := 2; M.oc_pressure := 25 |} |};
     M.usage :=
       {| M.dailyOperatingHours := 12; M.voyagesPerMonth := 4;
          M.averageVoyageDistance := 1000;
          M.environmentalConditions :=
            {| M.saltWaterExposure := 5 / 10; M.temperatureVariation := 10;
               M.roughSeaExposure := 2 / 10 |} |};
     M.sensors :=
       {| M.temperature := []; M.vibration := []; M.pressure := []; M.efficiency := [];
          M.lastReadings := {| M.r_temperature := 60; M.r_vibration := 2;
                               M.r_pressure := 25; M.r_efficiency := 9 / 10 |} |} |}.

(** [u] is not dated after [v]; an invalid date compares with none. *)
Definition byDate (u v : M.Upcoming) : Prop :=
  match M.up_date u, M.up_date v with
  | ValidDate a, ValidDate b => (a <= b)%Z
  | _, _ => True
  end.

(** The sum of the risk scores, as [analyzeFleetHealth] folds it, and
    their mean. *)
Definition sumRisk (ps : list M.MaintenancePrediction) : JS.num :=
  fold_left JS.add (List.map M.riskScore ps) (JS.Fin 0).

Definition meanRisk (ps : list M.MaintenancePrediction) : JS.num :=
  (sumRisk ps / JS.Fin (INR (List.length ps)))%js.

(** The risk scores of [ps] are the finite numbers [rs], in order. *)
Definition risksAre (ps : list M.MaintenancePrediction) (rs : list R) : Prop :=
  List.map M.riskScore ps = numbers rs.

Section FleetSpec.

Variable w : nat -> DenseWeights.
Variable bn : BatchNormWeights.
Variable modelExists : bool.
Variable loadLayersModel : Error + LayersModel.
Variable preprocessInput : M.MaintenanceInput -> Error + list JS.num.

Abbreviation predictMaintenance :=
  (M.predictMaintenance w bn modelExists loadLayersModel preprocessInput).

(** The inputs whose prediction succeeds, each with its prediction, in
    the order of the loop; the instance is threaded through the calls. *)
Fixpoint successes (m : BaseModel.t) (now : Z) (inputs : list M.MaintenanceInput)
  : list (M.MaintenanceInput * M.MaintenancePrediction) :=
  match inputs with
  | [] => []
  | input :: rest =>
      match predictMaintenance m now input with
      | (inr p, m') => (input, p) :: successes m' now rest
      | (inl _, m') => successes m' now rest
      end
  end.

End FleetSpec.

Definition riskAbove (threshold : R) (ip : M.MaintenanceInput * M.MaintenancePrediction)
  : bool := JS.gt (M.riskScore (snd ip)) (JS.Fin threshold).

(** A forecaster whose stored artifact is a single linear layer with zero
    parameters: every raw component, the risk score among them, is 0. *)
Definition zeroArtifact : Error + LayersModel := inr [dense 5 linear (constWeights 0)].

Definition freshForecaster : BaseModel.t := BaseModel.new M.config.

Definition noFeatures (_ : M.MaintenanceInput) : Error + list JS.num := inr [].

Definition entry (name : string) (now : Z) (conf : JS.num) : AIService.PredictionRecord :=
  {| AIService.modelName := name; AIService.timestamp := now;
     AIService.confidence := conf; AIService.success := true |}.

(** ** Outcome and frame of the default assignments *)

Module StoreSpec.
Import Store.

(** One conditional default assignment: the object, the property, the
    run-time test and the literal assigned when the test fails. *)
Record FieldDefault : Type := {
  fd_loc : loc;
  fd_key : string;
  fd_accepted : heap -> value -> bool;
  fd_literal : object
}.

Definition applyDefault (h : heap) (f : FieldDefault) : heap :=
  defaultField (fd_accepted f) (fd_literal f) (fd_loc f) (fd_key f) h.

Definition fieldOf (f : FieldDefault) : loc * string := (fd_loc f, fd_key f).

(** The six assignments of [preprocessInput], in source order. *)
Definition defaults (c s : loc) : list FieldDefault :=
  [ {| fd_loc := c; fd_key := "maintenanceHistory";
       fd_accepted := Array_isArray; fd_literal := emptyArray |};
    {| fd_loc := s; fd_key := "temperature";
       fd_accepted := Array_isArray; fd_literal := emptyArray |};
    {| fd_loc := s; fd_key := "vibration";
       fd_accepted := Array_isArray; fd_literal := emptyArray |};
    {| fd_loc := s; fd_key := "pressure";
       fd_accepted := Array_isArray; fd_literal := emptyArray |};
    {| fd_loc := s; fd_key := "efficiency";
       fd_accepted := Array_isArray; fd_literal := emptyArray |};
    {| fd_loc := s; fd_key := "lastReadings";
       fd_accepted := isObject; fd_literal := defaultReadings |} ].

(** The value of the property is not a dangling reference. *)
Definition notDangling (h : heap) (f : FieldDefault) : Prop :=
  forall a, getProp h (fd_loc f) (fd_key f) = VRef a -> is_Some (h !! a).

(** What one assignment leaves behind: the property as it was when the
    test accepted it, and otherwise a reference to a new object holding
    the literal. *)
Definition outcome (h h' : heap) (f : FieldDefault) : Prop :=
  if fd_accepted f h (getProp h (fd_loc f) (fd_key f))
  then getProp h' (fd_loc f) (fd_key f) = getProp h (fd_loc f) (fd_key f)
  else exists l', h !! l' = None /\
                  getProp h' (fd_loc f) (fd_key f) = VRef l' /\
                  h' !! l' = Some (fd_literal f).

(** Every object of [h] is still there in [h'], an array of the same
    length if it was one, with the same properties except the [touched]
    ones. *)
Definition frame (touched : list (loc * string)) (h h' : heap) : Prop :=
  forall l0 o0, h !! l0 = Some o0 ->
    exists o', h' !! l0 = Some o' /\ array o' = array o0 /\
               forall k0, ~ In (l0, k0) touched -> props o' !! k0 = props o0 !! k0.

(** [undefined] or [null]: a value that has no properties. *)
Definition nullish (v : value) : bool :=
  match v with
  | VUndefined | VNull => true
  | _ => false
  end.

(** A history array that can be mapped and averaged: no element is
    [undefined] or [null] and, if there are two or more entries, none is
    a hole. *)
Definition usableHistory (history : list (option value)) : Prop :=
  (forall v, In (Some v) history -> nullish v = false) /\
  ((2 <= List.length history)%nat -> forall e, In e history -> e <> None).

(** The [cost] of the elements that are present. *)
Definition costsOf (h : heap) (items : list (option value)) : list value :=
  omap (fun e : option value =>
          match e with
          | Some v => Some (propOf h v "cost")
          | None => None
          end) items.

(** The values that the feature vector turns into numbers or property
    keys, in source order: of the ship, of the component, the costs of
    the last three and of the first three events when there are three or
    more, of the operating conditions, the usage, the environmental
    conditions and the last readings. *)
Definition converted (h : heap) (ship component usage sensors : loc) : list value :=
  let history := elements h (getProp h component "maintenanceHistory") in
  let operatingConditions := getProp h component "operatingConditions" in
  let environmentalConditions := getProp h usage "environmentalConditions" in
  let lastReadings := getProp h sensors "lastReadings" in
  [ getProp h ship "age"; getProp h ship "length"; getProp h ship "enginePower";
    getProp h ship "hoursOperated"; getProp h ship "type"; getProp h component "type" ]
  ++ (if (List.length history <? 3)%nat then []
      else costsOf h (skipn (List.length history - 3) history)
           ++ costsOf h (firstn 3 history))
  ++ [ propOf h operatingConditions "temperature";
       propOf h operatingConditions "vibration";
       propOf h operatingConditions "pressure";
       getProp h usage "dailyOperatingHours";
       getProp h usage "voyagesPerMonth";
       getProp h usage "averageVoyageDistance";
       propOf h environmentalConditions "temperatureVariation";
       propOf h lastReadings "temperature";
       propOf h lastReadings "vibration";
       propOf h lastReadings "pressure" ].

(** The errors of the shape checks that precede the assignments. *)
Definition validationErrors : list Error :=
  [ Err "Invalid input: data must be an object";
    Err "Invalid input: ship data is required";
    Err "Invalid input: component data is required";
    Err "Invalid input: usage data is required";
    Err "Invalid input: sensors data is required" ].

(** The call went past the shape checks: it returned, or threw something
    else than their errors. *)
Definition pastValidation (r : option Error) : Prop :=
  match r with
  | None => True
  | Some e => ~ In e validationErrors
  end.

Definition stable (accepted : heap -> value -> bool) : Prop :=
  forall t h h' v,
    frame t h h' ->
    (forall a, v = VRef a -> is_Some (h !! a)) ->
    accepted h' v = accepted h v.

End StoreSpec.

(** A request whose component has no maintenanceHistory and whose sensors
    hold a temperature array of two readings and a null lastReadings. *)
Definition sampleObject (fields : list (string * Store.value)) : Store.object :=
  {| Store.array := None; Store.props := list_to_map fields |}.

Definition sampleArray (items : list Store.value) : Store.object :=
  {| Store.array := Some (List.length items);
     Store.props :=
       list_to_map (List.map (fun '(k, v) => (pretty k, v))
                             (combine (seq 0 (List.length items)) items)) |}.

Definition sampleHeap : gmap positive Store.object :=
  list_to_map
    [ (1%positive, sampleObject [("ship", Store.VRef 2); ("component", Store.VRef 3);
                                 ("usage", Store.VRef 4); ("sensors", Store.VRef 5)]%string);
      (2%positive, sampleObject [("id", Store.VStr "S1"); ("type", Store.VStr "cargo");
                                 ("age", Store.VNum (JS.Fin 10))]%string);
      (3%positive, sampleObject [("type", Store.VStr "engine");
                                 ("operatingConditions", Store.VRef 7)]%string);
      (4%positive, sampleObject [("environmentalConditions", Store.VRef 8)]%string);
      (5%positive, sampleObject [("temperature", Store.VRef 6);
                                 ("lastReadings", Store.VNull)]%string);
      (6%positive, sampleArray [Store.VNum (JS.Fin 60); Store.VNum (JS.Fin 61)]);
      (7%positive, sampleObject [("averageLoad", Store.VNum (JS.Fin (1 / 2)))]%string);
      (8%positive, sampleObject []) ].

(** The same request without the operating conditions of the component. *)
Definition incompleteHeap : gmap positive Store.object :=
  <[3%positive := sampleObject [("type", Store.VStr "engine")]%string]> sampleHeap.

(** A runtime in which every conversion of an object to a primitive value
    returns. *)
Definition plainObjects (_ : gmap positive Store.object) (_ : positive) : option Error :=
  None.

(** ** A sample service *)

(** A service whose three models take the feature vector itself as input
    and whose derived result fields are left empty. *)
Definition noDerived (_ : list JS.num) (_ _ _ : JS.num) : unit := tt.

Definition sampleService : AIService.t :=
  {| AIService.routeOptimizer := routeInstance;
     AIService.fuelPredictor := fuelInstance 2;
     AIService.maintenanceForecaster := freshForecaster;
     AIService.predictionHistory := [] |}.

Definition sampleRouteRun :=
  AIService.optimizeRoute (list JS.num) unit noDerived inr sampleService 0
    (repeat (JS.Fin 0) 15).


(** ** Further vocabulary *)

(** Whether a call returned rather than threw. *)
Definition succeeded {A : Type} (r : Error + A) : bool :=
  match r with inr _ => true | inl _ => false end.

Definition unitConfidence (p : AIService.PredictionRecord) : Prop :=
  exists c, AIService.confidence p = JS.Fin c /\ 0 <= c <= 1.

(** What a call leaves in the history: one more entry, the last one, named
    after the model, successful exactly when the call returned, with
    confidence 0 when it threw. *)
Definition appendsOne {A : Type} (name : string) (now : Z) (s : AIService.t)
    (out : (Error + A) * AIService.t) : Prop :=
  (exists conf,
     last (AIService.predictionHistory (snd out)) =
       Some {| AIService.modelName := name; AIService.timestamp := now;
               AIService.confidence := conf; AIService.success := succeeded (fst out) |} /\
     (succeeded (fst out) = false -> conf = JS.Fin 0)) /\
  List.length (AIService.predictionHistory (snd out))
    = Nat.min (List.length (AIService.predictionHistory s) + 1) 1000.


(** The literal that an assignment stores passes the test that triggered
    it. *)
Definition literalAccepted (f : StoreSpec.FieldDefault) : Prop :=
  forall (h : gmap positive Store.object) (l : positive),
    h !! l = Some (StoreSpec.fd_literal f) ->
    StoreSpec.fd_accepted f h (Store.VRef l) = true.

Module MD := MaintenanceDetails.

(** The mean cost of the first three and of the last three events. *)
Definition earlierCostAvg (history : list M.MaintenanceEvent) : R :=
  MD.sum (List.map M.cost (firstn 3 history)) / 3.

Definition recentCostAvg (history : list M.MaintenanceEvent) : R :=
  MD.sum (List.map M.cost (MD.slice_last 3 history)) / 3.

(** A sensor reading that is a finite number or [NaN]. *)
Definition noInfinity (v : JS.num) : Prop :=
  match v with JS.PInf | JS.NInf => False | _ => True end.

(** The finite readings of an array, in order. *)
Fixpoint finiteValues (values : list JS.num) : list R :=
  match values with
  | [] => []
  | JS.Fin r :: rest => r :: finiteValues rest
  | _ :: rest => finiteValues rest
  end.

Module RG := RouteGeometry.

(** The results of [Math.random] lie in [0,1). *)
Definition unitStream (random : nat -> R) : Prop := forall k, 0 <= random k < 1.

(** The point at fraction [t] of the straight line between two points. *)
Definition interpolate (o d : RG.Point) (t : R) : RG.Point :=
  {| RG.latitude := RG.latitude o + (RG.latitude d - RG.latitude o) * t;
     RG.longitude := RG.longitude o + (RG.longitude d - RG.longitude o) * t |}.

(** Both coordinates of [p] are within [eps] of those of [q]. *)
Definition within (eps : R) (p q : RG.Point) : Prop :=
  Rabs (RG.latitude p - RG.latitude q) <= eps /\
  Rabs (RG.longitude p - RG.longitude q) <= eps.

Definition halfStream (_ : nat) : R := 1 / 2.

Definition samplePoint (lat lon : R) : RG.Point :=
  {| RG.latitude := lat; RG.longitude := lon |}.

Definition sampleWeather : RG.Weather :=
  {| RG.windSpeed := 20; RG.waveHeight := 2; RG.visibility := 8; RG.temperature := 15 |}.

Definition sampleRouteInput : RG.RouteInput :=
  {| RG.origin := samplePoint 40 (-74);
     RG.destination := samplePoint 51 0;
     RG.shipSpecs := {| RG.maxSpeed := 20; RG.fuelCapacity := 5000;
                        RG.cargoCapacity := 1000; RG.currentCargoWeight := 500 |};
     RG.weatherConditions := sampleWeather;
     RG.preferences := {| RG.prioritizeFuel := true; RG.prioritizeTime := false;
                          RG.avoidRoughSeas := true |} |}.

(** The same voyage for a ship whose maximum speed is 0, and for one
    whose cargo capacity is 0. *)
Definition becalmedRouteInput : RG.RouteInput :=
  {| RG.origin := samplePoint 40 (-74);
     RG.destination := samplePoint 51 0;
     RG.shipSpecs := {| RG.maxSpeed := 0; RG.fuelCapacity := 5000;
                        RG.cargoCapacity := 1000; RG.currentCargoWeight := 500 |};
     RG.weatherConditions := sampleWeather;
     RG.preferences := {| RG.prioritizeFuel := true; RG.prioritizeTime := false;
                          RG.avoidRoughSeas := true |} |}.

Definition emptyHoldRouteInput : RG.RouteInput :=
  {| RG.origin := samplePoint 40 (-74);
     RG.destination := samplePoint 51 0;
     RG.shipSpecs := {| RG.maxSpeed := 20; RG.fuelCapacity := 5000;
                        RG.cargoCapacity := 0; RG.currentCargoWeight := 0 |};
     RG.weatherConditions := sampleWeather;
     RG.preferences := {| RG.prioritizeFuel := true; RG.prioritizeTime := false;
                          RG.avoidRoughSeas := true |} |}.

Module SS := ServiceStatus.

(** A model that is flagged as loaded holds a network. *)
Definition loadedHasModel (m : BaseModel.t) : Prop :=
  BaseModel.isLoaded m = true -> BaseModel.model m <> None.

(** The dates of the entries that have a [metadata.json], in order. *)
Definition savedDates (l : list SS.DirEntry) : list (option Z) :=
  omap (fun e => match e with SS.metadata d => Some d | _ => None end) l.

(** The services that successive calls of [getAIService] return. *)
Fixpoint getAIService_calls (configs : list (option SS.PartialConfig))
    (aiServiceInstance : option SS.Service) : list SS.Service :=
  match configs with
  | [] => []
  | c :: cs =>
      let '(s, instance) := SS.getAIService c aiServiceInstance in
      s :: getAIService_calls cs instance
  end.

Definition strictConfig : SS.PartialConfig :=
  {| SS.p_autoTrainModels := Some false;
     SS.p_modelUpdateInterval := None;
     SS.p_performanceThreshold := Some 2;
     SS.p_enableModelVersioning := None;
     SS.p_maxModelVersions := None |}.

(** The accuracies of the stored metrics are the numbers [accs]. *)
Definition accuraciesAre (s : SS.Service) (accs : list R) : Prop :=
  List.map SS.accuracy (SS.Map_values (SS.performanceMetrics s)) = List.map JS.Fin accs.

Definition sampleMetrics (a : R) : SS.ModelPerformanceMetrics :=
  {| SS.m_modelName := "route-optimizer"; SS.m_version := "1.0.0";
     SS.accuracy := JS.Fin a; SS.precision := JS.Fin (a * (95 / 100));
     SS.recall := JS.Fin (a * (9 / 10)); SS.f1Score := JS.Fin (a * (925 / 1000));
     SS.lastEvaluated := 0%Z; SS.predictionCount := 0%nat;
     SS.averageConfidence := JS.Fin 0 |}.

Definition serviceWithMetrics (a : R) : SS.Service :=
  {| SS.core := SS.core (SS.new None);
     SS.config := SS.config (SS.new None);
     SS.performanceMetrics := [("route-optimizer"%string, sampleMetrics a)] |}.

Module MT := MaintenanceTraining.

(** A number in [0,1]. *)
Definition unitValue (x : R) : Prop := 0 <= x <= 1.

Module RT := RouteTraining.

(** The entry [k] of a feature vector is the number [x]. *)
Definition featureIs (features : list JS.num) (k : nat) (x : R) : Prop :=
  nth_error features k = Some (JS.Fin x).

Module FD := FuelDetails.

(** A voyage with non-negative power, loads, duration and cruising speed
    and a positive maximum speed. *)
Definition plausibleFuelInput (input : FD.FuelPredictionInput) : Prop :=
  0 <= FD.enginePower (FD.ship input) /\
  0 < FD.maxSpeed (FD.ship input) /\
  0 <= FD.duration (FD.voyage input) /\
  0 <= FD.cruisingSpeed (FD.operational input) /\
  0 <= FD.loadFactor (FD.operational input) /\
  0 <= FD.mainEngineLoad (FD.operational input) /\
  0 <= FD.auxiliaryLoad (FD.operational input) /\
  0 <= FD.hvacLoad (FD.operational input).

(** The arithmetic mean of a list of numbers. *)
Definition mean (rs : list R) : R := MD.sum rs / INR (List.length rs).

Definition sampleFuelInput : FD.FuelPredictionInput :=
  {| FD.voyage := {| FD.distance := 2000; FD.duration := 100 |};
     FD.ship := {| FD.enginePower := 20000; FD.maxSpeed := 25 |};
     FD.conditions := {| FD.windSpeed := 20; FD.waveHeight := 2; FD.seaState := 4 |};
     FD.operational := {| FD.cruisingSpeed := 20; FD.loadFactor := 7 / 10;
                          FD.mainEngineLoad := 8 / 10; FD.auxiliaryLoad := 5 / 10;
                          FD.hvacLoad := 4 / 10 |} |}.

(** The quantities derived for [sampleFuelInput] from the raw factors
    0.5, 0.5 and 0. *)
Definition sampleFuelRun : FD.Derived :=
  FD.derive sampleFuelInput (JS.Fin (1 / 2)) (JS.Fin (1 / 2)) (JS.Fin 0).
(** * Properties *)

(** ** Numbers *)

Lemma finite_numbers (l : list JS.num) :
  List.Forall finiteNum l <-> exists rs, l = numbers rs.
Proof.
  split.
  - induction l as [|x l IH]; intros H.
    + now exists [].
    + apply List.Forall_cons_iff in H. destruct H as [[r ->] Hl].
      destruct (IH Hl) as [rs ->]. now exists (r :: rs).
  - intros [rs ->]. unfold numbers. apply List.Forall_forall. intros x Hx.
    apply List.in_map_iff in Hx. destruct Hx as [r [<- _]]. now exists r.
Qed.

Lemma fold_left_map {A B C : Type} (f : A -> B -> A) (g : C -> B) (l : list C) (a : A) :
  fold_left f (List.map g l) a = fold_left (fun x y => f x (g y)) l a.
Proof. revert a. induction l as [|c l IH]; intros a; [reflexivity|apply IH]. Qed.

Lemma fold_plus_shift {A : Type} (f : A -> R) (l : list A) (a : R) :
  fold_left (fun sum x => sum + f x) l a = a + fold_left (fun sum x => sum + f x) l 0.
Proof.
  revert a. induction l as [|x l IH]; intros a; cbn [fold_left]; [lra|].
  rewrite (IH (a + f x)), (IH (0 + f x)). lra.
Qed.

Lemma max_nan_r (x : JS.num) : JS.max x JS.NaN = JS.NaN.
Proof. now destruct x. Qed.

Lemma min_nan_r (x : JS.num) : JS.min x JS.NaN = JS.NaN.
Proof. now destruct x. Qed.

Lemma fold_max_nan (l : list JS.num) : fold_left JS.max l JS.NaN = JS.NaN.
Proof. induction l as [|x l IH]; [reflexivity|exact IH]. Qed.

Lemma fold_min_nan (l : list JS.num) : fold_left JS.min l JS.NaN = JS.NaN.
Proof. induction l as [|x l IH]; [reflexivity|exact IH]. Qed.

Lemma max_list_nan (l : list JS.num) : In JS.NaN l -> JS.max_list l = JS.NaN.
Proof.
  unfold JS.max_list. generalize JS.NInf.
  induction l as [|x l IH]; intros acc Hin; [destruct Hin|].
  cbn [fold_left]. destruct Hin as [->|Hin].
  - rewrite max_nan_r. apply fold_max_nan.
  - now apply IH.
Qed.

Lemma min_list_nan (l : list JS.num) : In JS.NaN l -> JS.min_list l = JS.NaN.
Proof.
  unfold JS.min_list. generalize JS.PInf.
  induction l as [|x l IH]; intros acc Hin; [destruct Hin|].
  cbn [fold_left]. destruct Hin as [->|Hin].
  - rewrite min_nan_r. apply fold_min_nan.
  - now apply IH.
Qed.

(** ** Output range and confidence heuristic *)

Lemma sigmoid_range (x : R) : 0 < 1 / (1 + exp (- x)) < 1.
Proof.
  pose proof (exp_pos (- x)) as Hpos.
  split.
  - apply Rdiv_lt_0_compat; lra.
  - apply (Rmult_lt_reg_r (1 + exp (- x))); [lra|].
    unfold Rdiv. rewrite Rmult_assoc, Rinv_l; lra.
Qed.

Lemma sigmoid_nanOrUnit (x : JS.num) : nanOrUnit (activate sigmoid x).
Proof.
  destruct x as [r| | |]; cbn [activate].
  - right. eexists. split; [reflexivity|]. pose proof (sigmoid_range r). lra.
  - right. exists 1. split; [reflexivity|lra].
  - right. exists 0. split; [reflexivity|lra].
  - now left.
Qed.

Lemma model_predict_app (ls1 ls2 : LayersModel) (x : list JS.num) :
  model_predict (ls1 ++ ls2) x = model_predict ls2 (model_predict ls1 x).
Proof. unfold model_predict. apply fold_left_app. Qed.

(** A network that ends in a sigmoid dense layer of [n] units yields [n]
    values, each [NaN] or between 0 and 1. *)
Lemma sigmoid_output_stage (ls : LayersModel) (n : nat) (w : DenseWeights)
    (x : list JS.num) :
  List.length (model_predict (ls ++ [dense n sigmoid w]) x) = n /\
  List.Forall nanOrUnit (model_predict (ls ++ [dense n sigmoid w]) x).
Proof.
  rewrite model_predict_app. cbn [model_predict fold_left apply_layer].
  split.
  - rewrite List.length_map, List.length_seq. reflexivity.
  - apply List.Forall_forall. intros v Hv.
    apply List.in_map_iff in Hv. destruct Hv as [j [<- _]].
    apply sigmoid_nanOrUnit.
Qed.

Lemma dot_finite (j i : nat) (k : nat -> nat -> R) (x : list JS.num) :
  List.Forall finiteNum x -> finiteNum (dot j i k x).
Proof.
  revert i. induction x as [|a x IH]; intros i H; cbn [dot].
  - now exists 0.
  - apply List.Forall_cons_iff in H. destruct H as [[r ->] Hx].
    destruct (IH (S i) Hx) as [d ->]. cbn [JS.mul JS.add]. now eexists.
Qed.

Lemma activate_finite (a : Activation) (r : R) : finiteNum (activate a (JS.Fin r)).
Proof. destruct a; cbn [activate JS.max]; now eexists. Qed.

Lemma sqrt_positive (x : R) : 0 < x -> JS.sqrt (JS.Fin x) = JS.Fin (sqrt x) /\ 0 < sqrt x.
Proof.
  intros Hx. split; [|now apply sqrt_lt_R0].
  cbn [JS.sqrt]. unfold JS.Rltb. destruct (Rlt_dec x 0); [lra|reflexivity].
Qed.

Lemma div_finite (x y : R) : y <> 0 -> JS.div (JS.Fin x) (JS.Fin y) = JS.Fin (x / y).
Proof.
  intros Hy. cbn [JS.div]. unfold JS.Reqb.
  destruct (Req_dec_T y 0); [contradiction|reflexivity].
Qed.

Lemma apply_layer_finite (l : Layer) (x : list JS.num) :
  wellConditioned l -> List.Forall finiteNum x -> List.Forall finiteNum (apply_layer l x).
Proof.
  intros Hl Hx. destruct l as [units a w|w|rate]; cbn [apply_layer].
  - apply List.Forall_forall. intros v Hv.
    apply List.in_map_iff in Hv. destruct Hv as [j [<- _]].
    destruct (dot_finite j 0 (kernel w) x Hx) as [d ->]. cbn [JS.add].
    apply activate_finite.
  - apply List.Forall_forall. intros v Hv.
    apply List.in_map_iff in Hv. destruct Hv as [[i xi] [<- Hin]].
    apply List.in_combine_r in Hin.
    rewrite List.Forall_forall in Hx. destruct (Hx xi Hin) as [r ->].
    destruct (sqrt_positive _ (Hl i)) as [-> Hs].
    cbn [JS.sub]. rewrite div_finite by lra. cbn [JS.mul JS.add]. now eexists.
  - exact Hx.
Qed.

Lemma model_predict_finite (ls : LayersModel) (x : list JS.num) :
  List.Forall wellConditioned ls -> List.Forall finiteNum x ->
  List.Forall finiteNum (model_predict ls x).
Proof.
  unfold model_predict. revert x.
  induction ls as [|l ls IH]; intros x Hls Hx; cbn [fold_left]; [exact Hx|].
  apply List.Forall_cons_iff in Hls. destruct Hls as [Hl Hls].
  apply IH; [exact Hls|]. now apply apply_layer_finite.
Qed.

(** On finite inputs the sigmoid stage yields values strictly between 0
    and 1. *)
Lemma sigmoid_output_open (ls : LayersModel) (n : nat) (w : DenseWeights)
    (x : list JS.num) :
  List.Forall finiteNum (model_predict ls x) ->
  List.Forall openUnit (model_predict (ls ++ [dense n sigmoid w]) x).
Proof.
  intros Hfin. rewrite model_predict_app. cbn [model_predict fold_left apply_layer].
  apply List.Forall_forall. intros v Hv.
  apply List.in_map_iff in Hv. destruct Hv as [j [<- _]].
  destruct (dot_finite j 0 (kernel w) _ Hfin) as [d ->]. cbn [JS.add activate].
  eexists. split; [reflexivity|]. apply sigmoid_range.
Qed.

(** A network that ends in a linear dense layer returns the affine
    combination itself. *)
Lemma linear_output_stage (ls : LayersModel) (n : nat) (w : DenseWeights)
    (x : list JS.num) :
  model_predict (ls ++ [dense n linear w]) x =
  List.map (fun j => (dot j 0 (kernel w) (model_predict ls x) + JS.Fin (bias w j))%js)
           (seq 0 n).
Proof. rewrite model_predict_app. reflexivity. Qed.

Lemma max_list_cons (v : R) (vs : list R) :
  JS.max_list (numbers (v :: vs)) = JS.Fin (fold_left Rmax vs v).
Proof.
  unfold JS.max_list, numbers. cbn [List.map fold_left JS.max].
  revert v. induction vs as [|a vs IH]; intros v; [reflexivity|].
  cbn [List.map fold_left JS.max]. apply IH.
Qed.

Lemma min_list_cons (v : R) (vs : list R) :
  JS.min_list (numbers (v :: vs)) = JS.Fin (fold_left Rmin vs v).
Proof.
  unfold JS.min_list, numbers. cbn [List.map fold_left JS.min].
  revert v. induction vs as [|a vs IH]; intros v; [reflexivity|].
  cbn [List.map fold_left JS.min]. apply IH.
Qed.

Lemma fold_Rmax_spec (vs : list R) (a : R) :
  a <= fold_left Rmax vs a /\
  (forall v, In v vs -> v <= fold_left Rmax vs a) /\
  (fold_left Rmax vs a = a \/ In (fold_left Rmax vs a) vs).
Proof.
  revert a. induction vs as [|b vs IH]; intros a; cbn [fold_left].
  - split; [lra|]. split; [intros v []|]. now left.
  - destruct (IH (Rmax a b)) as (H1 & H2 & H3).
    pose proof (Rmax_l a b). pose proof (Rmax_r a b).
    split; [lra|]. split.
    + intros v [<-|Hv]; [lra|]. now apply H2.
    + destruct H3 as [H3|H3].
      * rewrite H3. unfold Rmax. destruct (Rle_dec a b); [right; now left|now left].
      * right. now right.
Qed.

Lemma fold_Rmin_spec (vs : list R) (a : R) :
  fold_left Rmin vs a <= a /\
  (forall v, In v vs -> fold_left Rmin vs a <= v) /\
  (fold_left Rmin vs a = a \/ In (fold_left Rmin vs a) vs).
Proof.
  revert a. induction vs as [|b vs IH]; intros a; cbn [fold_left].
  - split; [lra|]. split; [intros v []|]. now left.
  - destruct (IH (Rmin a b)) as (H1 & H2 & H3).
    pose proof (Rmin_l a b). pose proof (Rmin_r a b).
    split; [lra|]. split.
    + intros v [<-|Hv]; [lra|]. now apply H2.
    + destruct H3 as [H3|H3].
      * rewrite H3. unfold Rmin. destruct (Rle_dec a b); [now left|right; now left].
      * right. now right.
Qed.

(** The confidence of a non-empty vector of finite numbers, by cases on
    its extrema. *)
Lemma calculateConfidence_cons (v : R) (vs : list R) :
  let M := fold_left Rmax vs v in
  let m := fold_left Rmin vs v in
  BaseModel.calculateConfidence (numbers (v :: vs)) =
    if JS.Reqb M 0 then
      if JS.Reqb m 0 then JS.NaN else JS.Fin 0
    else JS.Fin (Rmax 0 (Rmin 1 (1 - (M - m) / M))).
Proof.
  intros M m. unfold BaseModel.calculateConfidence.
  rewrite max_list_cons, min_list_cons. fold M m.
  assert (Hle : m <= M).
  { pose proof (fold_Rmax_spec vs v) as [? _].
    pose proof (fold_Rmin_spec vs v) as [? _]. subst M m. lra. }
  cbn [JS.sub JS.div].
  unfold JS.Reqb, JS.Rltb.
  destruct (Req_dec_T M 0) as [HM|HM].
  - destruct (Req_dec_T (M - m) 0) as [Hr|Hr].
    + destruct (Req_dec_T m 0) as [_|Hm]; [reflexivity|lra].
    + destruct (Req_dec_T m 0) as [Hm|_]; [lra|].
      destruct (Rlt_dec 0 (M - m)) as [_|Hn]; [reflexivity|lra].
  - reflexivity.
Qed.

Lemma confidence_in_range_of_nonzero (values : list R) :
  (exists v, In v values /\ v <> 0) ->
  unitNum (BaseModel.calculateConfidence (numbers values)).
Proof.
  intros [v0 [Hin Hnz]].
  destruct values as [|v vs]; [destruct Hin|].
  rewrite calculateConfidence_cons.
  set (M := fold_left Rmax vs v). set (m := fold_left Rmin vs v).
  unfold JS.Reqb.
  destruct (Req_dec_T M 0) as [HM|HM].
  - destruct (Req_dec_T m 0) as [Hm|Hm].
    + exfalso. apply Hnz.
      pose proof (fold_Rmax_spec vs v) as (Ha & Hb & _).
      pose proof (fold_Rmin_spec vs v) as (Hc & Hd & _).
      fold M in Ha, Hb. fold m in Hc, Hd.
      destruct Hin as [<-|Hin]; [lra|].
      specialize (Hb _ Hin). specialize (Hd _ Hin). lra.
    + exists 0. split; [reflexivity|lra].
  - eexists. split; [reflexivity|].
    split.
    + apply Rmax_l.
    + apply Rmax_lub; [lra|apply Rmin_l].
Qed.

Lemma confidence_nan (values : list JS.num) :
  In JS.NaN values -> BaseModel.calculateConfidence values = JS.NaN.
Proof.
  intros Hin. unfold BaseModel.calculateConfidence.
  rewrite (max_list_nan _ Hin), (min_list_nan _ Hin). reflexivity.
Qed.

(** ** Output stage of the three models *)

Lemma dot_zero_kernel (x : list JS.num) (j i : nat) :
  List.Forall finiteNum x -> dot j i (fun _ _ => 0) x = JS.Fin 0.
Proof.
  revert i. induction x as [|a x IH]; intros i H; cbn [dot]; [reflexivity|].
  apply List.Forall_cons_iff in H. destruct H as [[r ->] Hx].
  rewrite (IH _ Hx). cbn [JS.mul JS.add]. f_equal. lra.
Qed.

Lemma mul_zero_not_finite (x : JS.num) : ~ finiteNum x -> JS.mul x (JS.Fin 0) = JS.NaN.
Proof.
  intros Hx. destruct x as [r| | |]; cbn [JS.mul]; try reflexivity.
  - exfalso. apply Hx. now exists r.
  - unfold JS.Reqb. destruct (Req_dec_T 0 0); [reflexivity|lra].
  - unfold JS.Reqb. destruct (Req_dec_T 0 0); [reflexivity|lra].
Qed.

Lemma add_nan_l (x : JS.num) : JS.add JS.NaN x = JS.NaN.
Proof. reflexivity. Qed.

Lemma add_nan_r (x : JS.num) : JS.add x JS.NaN = JS.NaN.
Proof. now destruct x. Qed.

(** With a zero kernel, one feature that is not a finite number turns the
    weighted sum into [NaN]: an infinity times 0 is [NaN]. *)
Lemma dot_zero_kernel_nan (x : list JS.num) (j i : nat) :
  List.Exists (fun v => ~ finiteNum v) x -> dot j i (fun _ _ => 0) x = JS.NaN.
Proof.
  revert i. induction x as [|a x IH]; intros i H; cbn [dot].
  - inversion H.
  - apply List.Exists_cons in H. destruct H as [Ha|Hx].
    + now rewrite (mul_zero_not_finite a Ha).
    + rewrite (IH _ Hx). apply add_nan_r.
Qed.

Lemma last_layer_split (l1 l2 l3 l4 l5 l6 : Layer) :
  [l1; l2; l3; l4; l5; l6] = [l1; l2; l3; l4; l5] ++ [l6].
Proof. reflexivity. Qed.

Lemma last_layer_split9 (l1 l2 l3 l4 l5 l6 l7 l8 l9 : Layer) :
  [l1; l2; l3; l4; l5; l6; l7; l8; l9] = [l1; l2; l3; l4; l5; l6; l7; l8] ++ [l9].
Proof. reflexivity. Qed.

Lemma open_closed (vs : list JS.num) :
  List.Forall openUnit vs -> List.Forall unitNum vs.
Proof.
  intros H. eapply List.Forall_impl; [|exact H].
  intros v [t [-> Ht]]. exists t. split; [reflexivity|lra].
Qed.

Lemma route_output_range (w : nat -> DenseWeights) (x : list JS.num) :
  List.length (model_predict (BaseModel.layers (RouteOptimizerModel.buildModel w)) x) = 4%nat /\
  List.Forall nanOrUnit
    (model_predict (BaseModel.layers (RouteOptimizerModel.buildModel w)) x) /\
  (List.Forall finiteNum x ->
   List.Forall openUnit
     (model_predict (BaseModel.layers (RouteOptimizerModel.buildModel w)) x)).
Proof.
  cbn [RouteOptimizerModel.buildModel BaseModel.compile BaseModel.layers].
  rewrite last_layer_split.
  split; [apply sigmoid_output_stage|]. split; [apply sigmoid_output_stage|].
  intros Hx. apply sigmoid_output_open. apply model_predict_finite; [|exact Hx].
  repeat constructor.
Qed.

Lemma maintenance_output_range (w : nat -> DenseWeights) (bn : BatchNormWeights)
    (x : list JS.num) :
  List.length
    (model_predict (BaseModel.layers (MaintenanceForecasterModel.buildModel w bn)) x) = 5%nat /\
  List.Forall nanOrUnit
    (model_predict (BaseModel.layers (MaintenanceForecasterModel.buildModel w bn)) x) /\
  (positiveVariance bn -> List.Forall finiteNum x ->
   List.Forall openUnit
     (model_predict (BaseModel.layers (MaintenanceForecasterModel.buildModel w bn)) x)).
Proof.
  cbn [MaintenanceForecasterModel.buildModel BaseModel.compile BaseModel.layers].
  rewrite last_layer_split9.
  split; [apply sigmoid_output_stage|]. split; [apply sigmoid_output_stage|].
  intros Hbn Hx. apply sigmoid_output_open. apply model_predict_finite; [|exact Hx].
  repeat constructor. exact Hbn.
Qed.

(** The fuel predictor ends in a linear layer: with a zero kernel in that
    layer and finite values reaching it, the raw vector is the bias. *)
Lemma fuel_output_is_bias (w : nat -> DenseWeights) (bn : BatchNormWeights)
    (b : R) (x : list JS.num) :
  w 4%nat = constWeights b -> positiveVariance bn -> List.Forall finiteNum x ->
  model_predict (BaseModel.layers (FuelPredictorModel.buildModel w bn)) x
  = numbers [b; b; b].
Proof.
  intros Hw Hbn Hx.
  cbn [FuelPredictorModel.buildModel BaseModel.compile BaseModel.layers].
  rewrite last_layer_split9, linear_output_stage, Hw.
  cbn [seq List.map constWeights kernel bias numbers].
  rewrite !dot_zero_kernel.
  - cbn [JS.add]. repeat f_equal; lra.
  - apply model_predict_finite; [|exact Hx]. repeat constructor. exact Hbn.
  - apply model_predict_finite; [|exact Hx]. repeat constructor. exact Hbn.
  - apply model_predict_finite; [|exact Hx]. repeat constructor. exact Hbn.
Qed.

Lemma zeroBatchNorm_positive : positiveVariance zeroBatchNorm.
Proof. intros i. cbn. lra. Qed.

Lemma repeat_finite (r : R) (n : nat) : List.Forall finiteNum (repeat (JS.Fin r) n).
Proof.
  apply List.Forall_forall. intros x Hx. apply List.repeat_spec in Hx. subst x. now exists r.
Qed.

Lemma predict_loaded (Input : Type) (pre : Input -> Error + list JS.num)
    (m : BaseModel.t) (now : Z) (input : Input) (p : BaseModel.PredictionResult) :
  BaseModel.predict Input pre m now input = inr p ->
  exists tm features,
    BaseModel.model m = Some tm /\ BaseModel.isLoaded m = true /\
    pre input = inr features /\
    BaseModel.prediction p = model_predict (BaseModel.layers tm) features /\
    BaseModel.confidence p = BaseModel.calculateConfidence (BaseModel.prediction p).
Proof.
  unfold BaseModel.predict. intros H.
  destruct (BaseModel.model m) as [tm|]; [|discriminate].
  destruct (BaseModel.isLoaded m); [|discriminate].
  destruct (pre input) as [e|features]; [discriminate|].
  injection H as <-. exists tm, features. cbn. repeat split; reflexivity.
Qed.

Lemma fuelInstance_predict (b : R) (now : Z) (x : list JS.num) :
  List.Forall finiteNum x ->
  BaseModel.predict (list JS.num) inr (fuelInstance b) now x =
  inr {| BaseModel.prediction := numbers [b; b; b];
         BaseModel.confidence := BaseModel.calculateConfidence (numbers [b; b; b]);
         BaseModel.modelVersion := "1.0.0";
         BaseModel.timestamp := now |}.
Proof.
  intros Hx. unfold BaseModel.predict, fuelInstance.
  cbn [BaseModel.model BaseModel.isLoaded BaseModel.config].
  rewrite (fuel_output_is_bias _ _ b) by
    (reflexivity || apply zeroBatchNorm_positive || exact Hx).
  reflexivity.
Qed.

(** C1, as stated, fails: the fuel predictor with bias 2 in its linear
    output layer returns the raw vector [2; 2; 2] on the all-zero feature
    vector, and 2 is not in [0,1]. *)
Lemma predict_raw_unit_interval_counterexample :
  exists p,
    BaseModel.predict (list JS.num) inr (fuelInstance 2) 0%Z (repeat (JS.Fin 0) 20) = inr p /\
    BaseModel.prediction p = numbers [2; 2; 2] /\
    ~ List.Forall unitNum (BaseModel.prediction p).
Proof.
  eexists. split; [apply fuelInstance_predict, repeat_finite|]. split; [reflexivity|].
  cbn [BaseModel.prediction numbers List.map]. intros H.
  apply List.Forall_inv in H. destruct H as [t [E Ht]]. injection E as <-. lra.
Qed.

(** C1 (amended): for a model with the architecture of the route optimizer
    or of the maintenance forecaster (sigmoid output layer), every
    component of the raw vector returned by [predict] is [NaN] or lies in
    [0,1]; it lies in [0,1] when every feature that [preprocessInput]
    computed is a finite number (for the maintenance forecaster: and the
    batch normalization divides by a positive number).  For every model
    the returned confidence is a number in [0,1] when the raw vector
    consists of finite numbers that are not all 0, and it is [NaN] when a
    raw component is [NaN]. *)
Theorem predict_ranges (Input : Type) (pre : Input -> Error + list JS.num)
    (m : BaseModel.t) (now : Z) (input : Input) (p : BaseModel.PredictionResult) :
  BaseModel.predict Input pre m now input = inr p ->
  ((exists tm w bn, BaseModel.model m = Some tm /\
      (BaseModel.layers tm = BaseModel.layers (RouteOptimizerModel.buildModel w) \/
       BaseModel.layers tm = BaseModel.layers (MaintenanceForecasterModel.buildModel w bn))) ->
   List.Forall nanOrUnit (BaseModel.prediction p)) /\
  (forall tm w bn features,
     BaseModel.model m = Some tm ->
     BaseModel.layers tm = BaseModel.layers (RouteOptimizerModel.buildModel w) \/
     BaseModel.layers tm = BaseModel.layers (MaintenanceForecasterModel.buildModel w bn) /\
     positiveVariance bn ->
     pre input = inr features -> List.Forall finiteNum features ->
     List.Forall unitNum (BaseModel.prediction p)) /\
  (List.Forall finiteNum (BaseModel.prediction p) ->
   (exists v, In v (BaseModel.prediction p) /\ v <> JS.Fin 0) ->
   unitNum (BaseModel.confidence p)) /\
  (In JS.NaN (BaseModel.prediction p) -> BaseModel.confidence p = JS.NaN).
Proof.
  intros Hp.
  destruct (predict_loaded _ _ _ _ _ _ Hp) as (tm & features & Hm & _ & Hpre & Hraw & Hconf).
  split; [|split; [|split]].
  - intros (tm' & w & bn & Hm' & Harch).
    rewrite Hm in Hm'. injection Hm' as <-.
    rewrite Hraw.
    destruct Harch as [-> | ->].
    + apply route_output_range.
    + apply maintenance_output_range.
  - intros tm' w bn features' Hm' Harch Hpre' Hfin.
    rewrite Hm in Hm'. injection Hm' as <-.
    rewrite Hpre in Hpre'. injection Hpre' as <-.
    rewrite Hraw. apply open_closed.
    destruct Harch as [-> | [-> Hbn]].
    + now apply route_output_range.
    + now apply maintenance_output_range.
  - intros Hfin [v [Hin Hnz]]. rewrite Hconf.
    apply finite_numbers in Hfin. destruct Hfin as [rs Hrs]. rewrite Hrs in Hin |- *.
    apply confidence_in_range_of_nonzero.
    unfold numbers in Hin. apply List.in_map_iff in Hin. destruct Hin as [r [<- Hr]].
    exists r. split; [exact Hr|]. intros ->. now apply Hnz.
  - intros Hin. rewrite Hconf. now apply confidence_nan.
Qed.

Lemma routeInstance_predict :
  BaseModel.predict (list JS.num) inr routeInstance 0%Z (repeat (JS.Fin 0) 15)
  = inr routeResult.
Proof. reflexivity. Qed.

Lemma predict_ranges_witness :
  List.Forall unitNum (BaseModel.prediction routeResult) /\
  unitNum (BaseModel.confidence routeResult).
Proof.
  destruct (predict_ranges (list JS.num) inr routeInstance 0%Z (repeat (JS.Fin 0) 15)
              routeResult routeInstance_predict) as (_ & Hraw & Hconf & _).
  assert (Hunit : List.Forall unitNum (BaseModel.prediction routeResult)).
  { apply (Hraw (RouteOptimizerModel.buildModel (fun _ => constWeights 0))
                (fun _ => constWeights 0) zeroBatchNorm (repeat (JS.Fin 0) 15)).
    - reflexivity.
    - left. reflexivity.
    - reflexivity.
    - apply repeat_finite. }
  split; [exact Hunit|].
  destruct (route_output_range (fun _ => constWeights 0) (repeat (JS.Fin 0) 15))
    as (Hlen & _ & Hopen).
  specialize (Hopen (repeat_finite 0 15)).
  change (BaseModel.prediction routeResult) with routeRaw in *.
  fold routeRaw in Hlen, Hopen.
  apply Hconf.
  - eapply List.Forall_impl; [|exact Hunit]. intros v [t [-> _]]. now exists t.
  - destruct routeRaw as [|v vs]; [discriminate Hlen|].
    exists v. split; [now left|].
    apply List.Forall_inv in Hopen. destruct Hopen as [t [-> Ht]].
    intros E. injection E as E. lra.
Defined.

(** ** A feature that is not a number reaches the output *)

Lemma div_by_zero_not_finite (x : R) : ~ finiteNum (JS.div (JS.Fin x) (JS.Fin 0)).
Proof.
  intros [r Hr]. cbn [JS.div] in Hr. unfold JS.Reqb, JS.Rltb in Hr.
  destruct (Req_dec_T 0 0); [|lra].
  destruct (Req_dec_T x 0); [discriminate|]. destruct (Rlt_dec 0 x); discriminate.
Qed.

Lemma nan_not_finite : ~ finiteNum JS.NaN.
Proof. intros [r Hr]. discriminate. Qed.

Lemma dense_zero_nan (n : nat) (a : Activation) (x : list JS.num) :
  List.Exists (fun v => ~ finiteNum v) x ->
  apply_layer (dense n a (constWeights 0)) x = repeat JS.NaN n.
Proof.
  intros Hx. cbn [apply_layer constWeights kernel bias].
  transitivity (List.map (fun _ : nat => JS.NaN) (seq 0 n)).
  - apply List.map_ext. intros j. rewrite (dot_zero_kernel_nan x j 0 Hx).
    now destruct a.
  - now rewrite List.map_const, List.length_seq.
Qed.

Lemma repeat_nan_not_finite (n : nat) :
  List.Exists (fun v => ~ finiteNum v) (repeat JS.NaN (S n)).
Proof. cbn [repeat]. apply List.Exists_cons_hd. exact nan_not_finite. Qed.

(** A route request with cargo capacity 0 is not rejected: its load-ratio
    feature is an infinity or [NaN], and the route optimizer with zero
    kernels returns four times [NaN], with confidence [NaN]. *)
Lemma route_predict_zero_capacity (month : nat) (now : Z) (data : RG.RouteInput) :
  RG.cargoCapacity (RG.shipSpecs data) = 0 ->
  BaseModel.predict RG.RouteInput (fun d => inr (RG.preprocessInput month d))
    routeInstance now data
  = inr {| BaseModel.prediction := repeat JS.NaN 4;
           BaseModel.confidence := JS.NaN;
           BaseModel.modelVersion := "1.0.0";
           BaseModel.timestamp := now |}.
Proof.
  intros Hc. unfold BaseModel.predict, routeInstance.
  cbn [BaseModel.model BaseModel.isLoaded BaseModel.config BaseModel.version
       RouteOptimizerModel.config RouteOptimizerModel.buildModel BaseModel.compile
       BaseModel.layers].
  assert (Hx : List.Exists (fun v => ~ finiteNum v) (RG.preprocessInput month data)).
  { unfold RG.preprocessInput. cbv zeta. rewrite Hc.
    do 5 apply List.Exists_cons_tl. apply List.Exists_cons_hd.
    apply div_by_zero_not_finite. }
  assert (Hraw : model_predict
            [dense 64 relu (constWeights 0); dropout (2 / 10);
             dense 32 relu (constWeights 0); dropout (1 / 10);
             dense 16 relu (constWeights 0); dense 4 sigmoid (constWeights 0)]
            (RG.preprocessInput month data) = repeat JS.NaN 4).
  { unfold model_predict. cbn [fold_left].
    rewrite (dense_zero_nan 64 relu _ Hx).
    change (apply_layer (dropout (2 / 10)) (repeat JS.NaN 64)) with (repeat JS.NaN 64).
    rewrite (dense_zero_nan 32 relu _ (repeat_nan_not_finite 63)).
    change (apply_layer (dropout (1 / 10)) (repeat JS.NaN 32)) with (repeat JS.NaN 32).
    rewrite (dense_zero_nan 16 relu _ (repeat_nan_not_finite 31)).
    apply (dense_zero_nan 4 sigmoid _ (repeat_nan_not_finite 15)). }
  rewrite Hraw. reflexivity.
Qed.

(** ** The confidence heuristic at a zero maximum *)

Lemma confidence_formula (v : R) (vs : list R) :
  fold_left Rmax vs v <> 0 ->
  BaseModel.calculateConfidence (numbers (v :: vs)) =
  JS.Fin (Rmax 0 (Rmin 1 (1 - (fold_left Rmax vs v - fold_left Rmin vs v)
                               / fold_left Rmax vs v))).
Proof.
  intros HM. rewrite calculateConfidence_cons. unfold JS.Reqb.
  destruct (Req_dec_T (fold_left Rmax vs v) 0); [contradiction|reflexivity].
Qed.

Lemma confidence_max_zero_min_negative (v : R) (vs : list R) :
  fold_left Rmax vs v = 0 -> fold_left Rmin vs v < 0 ->
  BaseModel.calculateConfidence (numbers (v :: vs)) = JS.Fin 0.
Proof.
  intros HM Hm. rewrite calculateConfidence_cons. unfold JS.Reqb.
  destruct (Req_dec_T (fold_left Rmax vs v) 0); [|contradiction].
  destruct (Req_dec_T (fold_left Rmin vs v) 0); [lra|reflexivity].
Qed.

Lemma calculateConfidence_all_zero :
  BaseModel.calculateConfidence (numbers [0; 0; 0]) = JS.NaN.
Proof.
  rewrite calculateConfidence_cons. cbn [fold_left].
  replace (Rmax (Rmax 0 0) 0) with 0
    by (unfold Rmax; repeat destruct (Rle_dec _ _); lra).
  replace (Rmin (Rmin 0 0) 0) with 0
    by (unfold Rmin; repeat destruct (Rle_dec _ _); lra).
  unfold JS.Reqb. destruct (Req_dec_T 0 0); [reflexivity|lra].
Qed.

(** C4: on the raw vector [0; 0; 0] (maximum 0), which the fuel predictor
    returns when its linear output layer has a zero kernel and the zero bias
    it is created with, the confidence that [predict] returns is [NaN], not
    0: the quotient 0/0 passes through both clamps. *)
Theorem predict_confidence_zero_vector :
  exists p,
    BaseModel.predict (list JS.num) inr (fuelInstance 0) 0%Z (repeat (JS.Fin 0) 20) = inr p /\
    BaseModel.prediction p = numbers [0; 0; 0] /\
    BaseModel.confidence p = JS.NaN /\
    BaseModel.confidence p <> JS.Fin 0.
Proof.
  eexists. split; [apply fuelInstance_predict, repeat_finite|].
  cbn [BaseModel.prediction BaseModel.confidence].
  rewrite calculateConfidence_all_zero.
  repeat split. discriminate.
Qed.

(** ** Training an instance that holds no model *)

(** C5, as stated, fails: [train] on a freshly constructed route optimizer,
    with a fitting loop and a store that cannot fail, throws
    'Model not initialized'. *)
Lemma train_uninitialized_counterexample :
  BaseModel.train idleFit acceptWrite
    (BaseModel.new RouteOptimizerModel.config) sampleTrainingData
  = (inl (Err "Model not initialized"), BaseModel.new RouteOptimizerModel.config).
Proof. reflexivity. Qed.

Lemma compiledFor_optimizer (m : BaseModel.t) (tm : BaseModel.TfModel) :
  BaseModel.optimizer (compiledFor m tm) <> None /\
  BaseModel.layers (compiledFor m tm) = BaseModel.layers tm /\
  (forall lr, BaseModel.optimizer tm = Some lr -> compiledFor m tm = tm) /\
  (BaseModel.optimizer tm = None ->
   compiledFor m tm
   = BaseModel.compile tm
       (BaseModel.orNumber (BaseModel.learningRate (BaseModel.config m)) (1 / 1000))).
Proof.
  unfold compiledFor.
  destruct (BaseModel.optimizer tm) as [lr|] eqn:E; cbn; rewrite ?E;
    repeat split; congruence.
Qed.

(** C5 (amended): [train] does not initialize.  On an instance that holds no
    model it throws 'Model not initialized' and leaves the instance as it
    was.  On an instance that holds a model it hands that model to the
    fitting loop, compiled with the configured learning rate (0.001 when
    none is configured) if it had no optimizer, together with the
    configured numbers of epochs (or 100) and batch size (or 32); a failure of the fit, or of the artifact write that follows
    a successful fit, is rethrown; after both succeeded the instance holds
    the fitted model, and [train] returns the fit's history when that
    history records the loss and the validation loss, and otherwise throws
    the TypeError of its closing log entry. *)
Theorem train_requires_model
    (fit : BaseModel.TfModel -> BaseModel.TrainingData -> nat -> nat -> R ->
           Error + (BaseModel.TfModel * BaseModel.History))
    (writeArtifact : BaseModel.ModelConfig -> BaseModel.TfModel -> option Error)
    (m : BaseModel.t) (data : BaseModel.TrainingData) :
  (BaseModel.model m = None ->
   BaseModel.train fit writeArtifact m data
   = (inl (Err "Model not initialized"), m)) /\
  (forall tm,
     BaseModel.model m = Some tm ->
     let outcome :=
       fit (compiledFor m tm) data
           (BaseModel.orCount (BaseModel.epochs (BaseModel.config m)) 100)
           (BaseModel.orCount (BaseModel.batchSize (BaseModel.config m)) 32)
           (splitOf data) in
     BaseModel.optimizer (compiledFor m tm) <> None /\
     (forall e, outcome = inl e ->
        BaseModel.train fit writeArtifact m data = (inl e, fitted m (compiledFor m tm))) /\
     (forall tm' h, outcome = inr (tm', h) ->
        (forall e, writeArtifact (BaseModel.config m) tm' = Some e ->
           BaseModel.train fit writeArtifact m data = (inl e, fitted m tm')) /\
        (writeArtifact (BaseModel.config m) tm' = None ->
           (is_Some (h !! "loss") -> is_Some (h !! "val_loss") ->
            BaseModel.train fit writeArtifact m data = (inr h, fitted m tm')) /\
           (h !! "loss" = None \/ h !! "val_loss" = None ->
            BaseModel.train fit writeArtifact m data
            = (inl (Err "Cannot read properties of undefined (reading 'length')"),
               fitted m tm'))))).
Proof.
  split.
  - intros Hm. unfold BaseModel.train. rewrite Hm. reflexivity.
  - intros tm Hm outcome.
    split; [apply compiledFor_optimizer|].
    assert (Hrun : BaseModel.train fit writeArtifact m data =
      match outcome with
      | inl e => (inl e, fitted m (compiledFor m tm))
      | inr (tm', h) =>
          match writeArtifact (BaseModel.config m) tm' with
          | Some e => (inl e, fitted m tm')
          | None =>
              match BaseModel.finalLosses h with
              | inl e => (inl e, fitted m tm')
              | inr _ => (inr h, fitted m tm')
              end
          end
      end).
    { subst outcome. unfold BaseModel.train, BaseModel.ensureModelCompiled,
        BaseModel.saveModel, compiledFor, fitted, splitOf.
      rewrite Hm. destruct (BaseModel.optimizer tm) as [lr|] eqn:Hopt.
      - rewrite Hm.
        destruct (fit tm data _ _ _) as [e|[tm' h]]; [destruct m; cbn in *; congruence|].
        reflexivity.
      - cbn [BaseModel.model BaseModel.config BaseModel.isLoaded].
        destruct (fit (BaseModel.compile tm _) data _ _ _) as [e|[tm' h]]; reflexivity. }
    split.
    + intros e He. rewrite Hrun, He. reflexivity.
    + intros tm' h Hfit. rewrite Hrun, Hfit. split.
      * intros e ->. reflexivity.
      * intros ->. unfold BaseModel.finalLosses. split.
        -- intros [l ->] [vl ->]. reflexivity.
        -- intros [-> | Hv]; [reflexivity|].
           rewrite Hv. now destruct (h !! "loss").
Qed.

Lemma train_requires_model_witness :
  BaseModel.train idleFit acceptWrite
    (BaseModel.new FuelPredictorModel.config) sampleTrainingData
  = (inl (Err "Model not initialized"), BaseModel.new FuelPredictorModel.config) /\
  BaseModel.train idleFit acceptWrite routeInstance sampleTrainingData
  = (inr sampleHistory, routeInstance) /\
  BaseModel.train idleFit acceptWrite uncompiledInstance sampleTrainingData
  = (inr sampleHistory, routeInstance) /\
  BaseModel.train noValidationFit acceptWrite routeInstance sampleTrainingData
  = (inl (Err "Cannot read properties of undefined (reading 'length')"), routeInstance).
Proof.
  split; [|split; [|split]].
  - apply (proj1 (train_requires_model idleFit acceptWrite
                    (BaseModel.new FuelPredictorModel.config) sampleTrainingData)).
    reflexivity.
  - refine (proj1 (proj2 (proj2 (proj2 (proj2 (train_requires_model idleFit acceptWrite
                    routeInstance sampleTrainingData)
             (RouteOptimizerModel.buildModel (fun _ => constWeights 0)) eq_refl))
             (RouteOptimizerModel.buildModel (fun _ => constWeights 0)) sampleHistory
             eq_refl) eq_refl) _ _);
      vm_compute; eauto.
  - refine (proj1 (proj2 (proj2 (proj2 (proj2 (train_requires_model idleFit acceptWrite
                    uncompiledInstance sampleTrainingData)
             _ eq_refl))
             (RouteOptimizerModel.buildModel (fun _ => constWeights 0)) sampleHistory
             eq_refl) eq_refl) _ _);
      vm_compute; eauto.
  - refine (proj2 (proj2 (proj2 (proj2 (proj2 (train_requires_model noValidationFit acceptWrite
                    routeInstance sampleTrainingData)
             (RouteOptimizerModel.buildModel (fun _ => constWeights 0)) eq_refl))
             (RouteOptimizerModel.buildModel (fun _ => constWeights 0))
             (<["loss" := [JS.Fin (1 / 10)]]> ∅)
             eq_refl) eq_refl) _).
    right. reflexivity.
Defined.
(** ** The prediction history of the orchestrator *)

Lemma slice_last_short {A : Type} (n : nat) (l : list A) :
  (List.length l <= n)%nat -> AIService.slice_last n l = l.
Proof.
  intros H. unfold AIService.slice_last.
  replace (List.length l - n)%nat with 0%nat by lia. reflexivity.
Qed.

Lemma slice_last_length {A : Type} (n : nat) (l : list A) :
  List.length (AIService.slice_last n l) = Nat.min (List.length l) n.
Proof. unfold AIService.slice_last. rewrite List.length_skipn. lia. Qed.

Lemma slice_last_push {A : Type} (n : nat) (l : list A) (x : A) :
  (1 <= n)%nat ->
  AIService.slice_last n (AIService.slice_last n l ++ [x]) = AIService.slice_last n (l ++ [x]).
Proof.
  intros Hn.
  destruct (Nat.le_gt_cases (List.length l) n) as [Hle|Hgt].
  - now rewrite (slice_last_short n l).
  - unfold AIService.slice_last at 1 3.
    rewrite !List.length_app, slice_last_length. cbn [List.length].
    replace (Nat.min (List.length l) n + 1 - n)%nat with 1%nat by lia.
    unfold AIService.slice_last.
    rewrite !List.skipn_app, List.length_skipn, List.skipn_skipn.
    replace (1 + (List.length l - n))%nat with (List.length l + 1 - n)%nat by lia.
    f_equal. f_equal; lia.
Qed.

(** One call of [recordPrediction] appends and then keeps the last 1000. *)
Lemma recordPrediction_slice (now : Z) (h : list AIService.PredictionRecord)
    (name : string) (conf : JS.num) (ok : bool) :
  AIService.recordPrediction now h name conf ok =
  AIService.slice_last 1000
    (h ++ [{| AIService.modelName := name; AIService.timestamp := now;
              AIService.confidence := conf; AIService.success := ok |}]).
Proof.
  unfold AIService.recordPrediction.
  destruct (Nat.ltb_spec 1000 (List.length
     (h ++ [{| AIService.modelName := name; AIService.timestamp := now;
               AIService.confidence := conf; AIService.success := ok |}]))) as [Hgt|Hle].
  - reflexivity.
  - symmetry. now apply slice_last_short.
Qed.

Lemma recordAll_snoc (h entries : list AIService.PredictionRecord)
    (e : AIService.PredictionRecord) :
  recordAll h (entries ++ [e]) =
  AIService.slice_last 1000 (recordAll h entries ++ [e]).
Proof.
  unfold recordAll. rewrite fold_left_app. cbn [fold_left].
  rewrite recordPrediction_slice. destruct e; reflexivity.
Qed.

(** C2: starting from the empty history, after any sequence of recorded
    predictions the history is the suffix of length min(total, 1000) of the
    sequence of all entries ever appended; so it never holds more than 1000
    entries (1000 exactly after 10,000 calls) and the entries dropped are
    the oldest ones. *)
Theorem history_is_last_1000 (entries : list AIService.PredictionRecord) :
  recordAll [] entries = AIService.slice_last 1000 entries /\
  List.length (recordAll [] entries) = Nat.min (List.length entries) 1000 /\
  (List.length (recordAll [] entries) <= 1000)%nat /\
  (List.length entries = (10 * 1000)%nat -> List.length (recordAll [] entries) = 1000%nat) /\
  exists evicted,
    entries = evicted ++ recordAll [] entries /\
    List.length evicted = (List.length entries - 1000)%nat.
Proof.
  assert (Heq : recordAll [] entries = AIService.slice_last 1000 entries).
  { induction entries as [|e entries IH] using rev_ind; [reflexivity|].
    rewrite recordAll_snoc, IH. apply slice_last_push. lia. }
  assert (Hlen : List.length (recordAll [] entries) = Nat.min (List.length entries) 1000).
  { rewrite Heq. apply slice_last_length. }
  split; [exact Heq|]. split; [exact Hlen|].
  split; [rewrite Hlen; apply Nat.le_min_r|].
  split.
  - intros H. rewrite Hlen, H. apply Nat.min_r. lia.
  - exists (firstn (List.length entries - 1000) entries). split.
    + rewrite Heq. unfold AIService.slice_last. symmetry. apply List.firstn_skipn.
    + rewrite List.length_firstn. lia.
Qed.


(** ** Evaluation scores *)

Lemma sum_finite (l : list AIService.PredictionRecord) (a : R) :
  List.Forall finiteConfidence l ->
  fold_left (fun sum p => JS.add sum (AIService.confidence p)) l (JS.Fin a) =
  JS.Fin (fold_left (fun sum p => sum + confidenceValue p) l a).
Proof.
  revert a. induction l as [|p l IH]; intros a Hall; [reflexivity|].
  apply List.Forall_cons_iff in Hall. destruct Hall as [[r Hr] Hall].
  cbn [fold_left]. unfold confidenceValue at 2. rewrite Hr. cbn [JS.add].
  now apply IH.
Qed.

Lemma sum_nan (l : list AIService.PredictionRecord) (acc : JS.num) :
  acc = JS.NaN \/ (exists p, In p l /\ AIService.confidence p = JS.NaN) ->
  fold_left (fun sum p => JS.add sum (AIService.confidence p)) l acc = JS.NaN.
Proof.
  revert acc. induction l as [|q l IH]; intros acc H; cbn [fold_left].
  - destruct H as [H|[p [[] _]]]. exact H.
  - apply IH. destruct H as [->|[p [[->|Hin] Hp]]].
    + now left.
    + left. rewrite Hp. apply add_nan_r.
    + right. now exists p.
Qed.

Lemma score_default (recent : list AIService.PredictionRecord) (name : string) :
  entriesOf name recent = [] -> AIService.score recent name = JS.Fin (5 / 10).
Proof. unfold AIService.score, entriesOf. intros ->. reflexivity. Qed.

(** The score of a model that has entries, as the source computes it. *)
Lemma score_formula (recent : list AIService.PredictionRecord) (name : string) :
  entriesOf name recent <> [] ->
  AIService.score recent name =
  (JS.Fin (successRate (entriesOf name recent) * (7 / 10))
   + averageConfidence (entriesOf name recent) * JS.Fin (3 / 10))%js.
Proof.
  unfold AIService.score. fold (entriesOf name recent).
  intros Hne.
  destruct (entriesOf name recent) as [|p l] eqn:E; [contradiction|].
  assert (Hlen : INR (List.length (p :: l)) <> 0).
  { apply not_0_INR. discriminate. }
  replace (0 <? List.length (p :: l))%nat with true by reflexivity.
  cbv zeta. rewrite div_finite by exact Hlen.
  unfold averageConfidence, successRate. rewrite fold_left_map.
  reflexivity.
Qed.

Lemma averageConfidence_finite (l : list AIService.PredictionRecord) :
  l <> [] -> List.Forall finiteConfidence l ->
  averageConfidence l = JS.Fin (meanConfidence l).
Proof.
  intros Hne Hfin. unfold averageConfidence, meanConfidence.
  rewrite fold_left_map, (sum_finite l 0 Hfin).
  apply div_finite. apply not_0_INR. destruct l; [contradiction|discriminate].
Qed.

Lemma averageConfidence_nan (l : list AIService.PredictionRecord) :
  (exists p, In p l /\ AIService.confidence p = JS.NaN) ->
  averageConfidence l = JS.NaN.
Proof.
  intros H. unfold averageConfidence.
  rewrite fold_left_map, (sum_nan l (JS.Fin 0)) by now right.
  reflexivity.
Qed.

Lemma score_weighted (recent : list AIService.PredictionRecord) (name : string) :
  entriesOf name recent <> [] ->
  List.Forall finiteConfidence (entriesOf name recent) ->
  AIService.score recent name =
  JS.Fin (successRate (entriesOf name recent) * (7 / 10)
          + meanConfidence (entriesOf name recent) * (3 / 10)).
Proof.
  intros Hne Hfin. rewrite (score_formula _ _ Hne).
  now rewrite (averageConfidence_finite _ Hne Hfin).
Qed.

Lemma score_nan (recent : list AIService.PredictionRecord) (name : string)
    (p : AIService.PredictionRecord) :
  In p (entriesOf name recent) -> AIService.confidence p = JS.NaN ->
  AIService.score recent name = JS.NaN.
Proof.
  intros Hin Hp. rewrite score_formula by (intros E; rewrite E in Hin; destruct Hin).
  rewrite averageConfidence_nan by now exists p.
  reflexivity.
Qed.

Lemma evaluateModels_lookup (history : list AIService.PredictionRecord) (name : string) :
  In name AIService.modelNames ->
  AIService.evaluateModels history !! name =
  Some (AIService.score (AIService.slice_last 100 history) name).
Proof.
  unfold AIService.evaluateModels, AIService.modelNames. cbn [fold_left In].
  intros [<-|[<-|[<-|[]]]].
  - rewrite lookup_insert_ne by discriminate.
    rewrite lookup_insert_ne by discriminate.
    apply lookup_insert_eq.
  - rewrite lookup_insert_ne by discriminate.
    apply lookup_insert_eq.
  - apply lookup_insert_eq.
Qed.

(** C3, as stated, fails: after one successful route prediction of
    confidence 1 and then a hundred fuel predictions, the route optimizer
    has one history entry, over which 0.7 x successRate + 0.3 x
    meanConfidence is 1; [evaluateModels] gives it 0.5, because that entry
    is not among the last 100 entries of the whole history. *)
Lemma evaluateModels_window_counterexample :
  perModelWindow "route-optimizer" crowdedHistory = [routeEntry] /\
  successRate [routeEntry] * (7 / 10) + meanConfidence [routeEntry] * (3 / 10) = 1 /\
  AIService.evaluateModels crowdedHistory !! "route-optimizer"%string = Some (JS.Fin (5 / 10)) /\
  JS.Fin (5 / 10) <> JS.Fin 1.
Proof.
  split; [reflexivity|]. split.
  - unfold successRate, meanConfidence, confidenceValue. cbn. lra.
  - split.
    + rewrite evaluateModels_lookup by (cbn; auto).
      reflexivity.
    + intros H. injection H as H. lra.
Qed.

(** C3 (amended): [evaluateModels] looks at the last 100 entries of the
    whole history.  Every model whose entries among those hundred are none
    (in particular a model with no history entry at all) gets exactly 0.5.
    Every other model gets 0.7 x successRate + 0.3 x the mean of the
    recorded confidences over its entries among those hundred, computed in
    JavaScript arithmetic: the number 0.7 x successRate + 0.3 x
    meanConfidence when those confidences are finite numbers, and [NaN]
    as soon as one of them is [NaN]. *)
Theorem evaluateModels_score (history : list AIService.PredictionRecord) (name : string) :
  In name AIService.modelNames ->
  let mine := entriesOf name (AIService.slice_last 100 history) in
  (entriesOf name history = [] ->
   AIService.evaluateModels history !! name = Some (JS.Fin (5 / 10))) /\
  (mine = [] ->
   AIService.evaluateModels history !! name = Some (JS.Fin (5 / 10))) /\
  (mine <> [] ->
   AIService.evaluateModels history !! name =
   Some (JS.Fin (successRate mine * (7 / 10)) + averageConfidence mine * JS.Fin (3 / 10))%js /\
   (List.Forall finiteConfidence mine ->
    AIService.evaluateModels history !! name =
    Some (JS.Fin (successRate mine * (7 / 10) + meanConfidence mine * (3 / 10)))) /\
   ((exists p, In p mine /\ AIService.confidence p = JS.NaN) ->
    AIService.evaluateModels history !! name = Some JS.NaN)).
Proof.
  intros Hname mine.
  rewrite (evaluateModels_lookup history name Hname).
  assert (Hnone : mine = [] ->
                  Some (AIService.score (AIService.slice_last 100 history) name)
                  = Some (JS.Fin (5 / 10))).
  { intros Hm. f_equal. now apply score_default. }
  split; [|split].
  - intros Hall. apply Hnone. subst mine.
    unfold entriesOf, AIService.slice_last in *.
    destruct (List.filter _ (skipn _ history)) as [|p l] eqn:E; [reflexivity|].
    assert (Hin : In p (List.filter (fun p => String.eqb (AIService.modelName p) name)
                               (skipn (List.length history - 100) history))).
    { rewrite E. now left. }
    apply List.filter_In in Hin. destruct Hin as [Hin Hp].
    assert (Hin' : In p (List.filter (fun p => String.eqb (AIService.modelName p) name) history)).
    { apply List.filter_In. split; [|exact Hp].
      rewrite <- (List.firstn_skipn (List.length history - 100) history).
      apply List.in_or_app. now right. }
    rewrite Hall in Hin'. destruct Hin'.
  - exact Hnone.
  - intros Hne. split; [|split].
    + f_equal. now apply score_formula.
    + intros Hfin. f_equal. now apply score_weighted.
    + intros [p [Hin Hp]]. f_equal. now apply (score_nan _ _ p).
Qed.

Lemma fuel_window_of_crowdedHistory :
  entriesOf "fuel-predictor" (AIService.slice_last 100 crowdedHistory) = repeat fuelEntry 100.
Proof. reflexivity. Qed.

Lemma evaluateModels_score_witness :
  AIService.evaluateModels [] !! "fuel-predictor"%string = Some (JS.Fin (5 / 10)) /\
  AIService.evaluateModels crowdedHistory !! "fuel-predictor"%string =
  Some (JS.Fin (successRate (repeat fuelEntry 100) * (7 / 10)
                + meanConfidence (repeat fuelEntry 100) * (3 / 10))) /\
  AIService.evaluateModels (crowdedHistory ++ [nanEntry]) !! "fuel-predictor"%string
  = Some JS.NaN.
Proof.
  split; [|split].
  - apply (evaluateModels_score [] "fuel-predictor"); [cbn; auto|reflexivity].
  - rewrite <- fuel_window_of_crowdedHistory.
    apply (evaluateModels_score crowdedHistory "fuel-predictor"); [cbn; auto| |].
    + rewrite fuel_window_of_crowdedHistory. discriminate.
    + rewrite fuel_window_of_crowdedHistory.
      apply List.Forall_forall. intros p Hp. apply List.repeat_spec in Hp. subst p.
      exists 1. reflexivity.
  - apply (evaluateModels_score (crowdedHistory ++ [nanEntry]) "fuel-predictor");
      [cbn; auto| |].
    + vm_compute. discriminate.
    + exists nanEntry. split; [|reflexivity].
      vm_compute. do 99 right. now left.
Defined.

(** ** Maintenance post-processing *)

Lemma Rgtb_true (x y : R) : JS.Rgtb x y = true <-> x > y.
Proof.
  unfold JS.Rgtb, JS.Rltb. destruct (Rlt_dec y x); split; intros H; try lra; discriminate.
Qed.

Lemma Rgtb_false (x y : R) : JS.Rgtb x y = false <-> ~ x > y.
Proof.
  unfold JS.Rgtb, JS.Rltb. destruct (Rlt_dec y x); split; intros H;
    try lra; try discriminate; try reflexivity.
Qed.

Lemma gt_fin (x y : R) : JS.gt (JS.Fin x) (JS.Fin y) = true <-> x > y.
Proof. apply Rgtb_true. Qed.

Lemma gt_fin_false (x y : R) : JS.gt (JS.Fin x) (JS.Fin y) = false <-> ~ x > y.
Proof. apply Rgtb_false. Qed.

Lemma lt_fin (x y : R) : JS.lt (JS.Fin x) (JS.Fin y) = true <-> x < y.
Proof.
  unfold JS.lt, JS.gt, JS.Rgtb, JS.Rltb.
  destruct (Rlt_dec x y); split; intros; try lra; try discriminate; reflexivity.
Qed.



Lemma selectMaintenanceType_spec (risk urgency : R) :
  (M.selectMaintenanceType (JS.Fin risk) (JS.Fin urgency) = M.emergency <->
     risk > 9 / 10 \/ urgency > 9 / 10) /\
  (M.selectMaintenanceType (JS.Fin risk) (JS.Fin urgency) = M.corrective <->
     ~ (risk > 9 / 10 \/ urgency > 9 / 10) /\ risk > 6 / 10) /\
  (M.selectMaintenanceType (JS.Fin risk) (JS.Fin urgency) = M.preventive <->
     ~ (risk > 9 / 10 \/ urgency > 9 / 10) /\ ~ risk > 6 / 10).
Proof.
  unfold M.selectMaintenanceType. cbn [JS.gt]. unfold JS.Rgtb, JS.Rltb.
  destruct (Rlt_dec (9 / 10) risk), (Rlt_dec (9 / 10) urgency), (Rlt_dec (6 / 10) risk);
    cbn [orb]; intuition (try discriminate; try reflexivity; try lra).
Qed.

(** The prediction computed from five finite raw values. *)
Lemma postprocess_five (now : Z) (input : M.MaintenanceInput)
    (p : BaseModel.PredictionResult) (risk f c d u : R) :
  BaseModel.prediction p = numbers [risk; f; c; d; u] ->
  exists mp,
    M.postprocess now input p = inr mp /\
    M.riskScore mp = JS.Fin risk /\
    M.maintenanceType mp = M.selectMaintenanceType (JS.Fin risk) (JS.Fin u) /\
    M.confidence mp = BaseModel.confidence p /\
    M.predictedFailureDate mp =
      (if JS.Rgtb risk (8 / 10)
       then Some (ValidDate (truncate
                    (IZR now
                     + Rmax 1 (M.calculateAverageMaintenanceInterval
                                 (M.maintenanceHistory (M.component input))
                               * (12 / 10) * (1 - f)) * 24 * 60 * 60 * 1000)))
       else None) /\
    M.recommendedMaintenanceDate mp =
      ValidDate (truncate
        (IZR now
         + Rmax 7 (Rmax 1 (M.calculateAverageMaintenanceInterval
                             (M.maintenanceHistory (M.component input))
                           * (12 / 10) * (1 - f)) * (7 / 10)) * 24 * 60 * 60 * 1000)) /\
    M.estimatedCost mp =
      JS.Fin (M.calculateBaseCost (M.component_type (M.component input))
                (M.selectMaintenanceType (JS.Fin risk) (JS.Fin u))
              * (1 + c * (5 / 10))) /\
    M.estimatedDowntime mp =
      JS.Fin (M.calculateBaseDowntime (M.component_type (M.component input))
                (M.selectMaintenanceType (JS.Fin risk) (JS.Fin u))
              * (1 + d * (4 / 10))).
Proof.
  intros Hp. unfold M.postprocess. rewrite Hp.
  cbn [numbers List.map JS.isNaN orb]. cbv zeta.
  eexists. split; [reflexivity|].
  cbn [M.riskScore M.maintenanceType M.confidence M.predictedFailureDate
       M.recommendedMaintenanceDate M.estimatedCost M.estimatedDowntime].
  repeat split; reflexivity.
Qed.


(** C6: the maintenance type of a prediction is 'emergency' exactly when
    riskScore > 0.9 or urgencyFactor > 0.9, otherwise 'corrective' exactly
    when riskScore > 0.6, otherwise 'preventive'; and with the other four
    raw components fixed, a prediction that is not 'preventive' stays so
    when riskScore grows. *)
Theorem maintenanceType_thresholds (now : Z) (input : M.MaintenanceInput)
    (p : BaseModel.PredictionResult) (risk f c d u : R) :
  BaseModel.prediction p = numbers [risk; f; c; d; u] ->
  exists mp,
    M.postprocess now input p = inr mp /\
    M.riskScore mp = JS.Fin risk /\
    (M.maintenanceType mp = M.emergency <-> risk > 9 / 10 \/ u > 9 / 10) /\
    (M.maintenanceType mp = M.corrective <->
       ~ (risk > 9 / 10 \/ u > 9 / 10) /\ risk > 6 / 10) /\
    (M.maintenanceType mp = M.preventive <->
       ~ (risk > 9 / 10 \/ u > 9 / 10) /\ ~ risk > 6 / 10) /\
    (forall (p' : BaseModel.PredictionResult) (risk' : R),
       BaseModel.prediction p' = numbers [risk'; f; c; d; u] ->
       risk <= risk' ->
       M.maintenanceType mp <> M.preventive ->
       exists mp', M.postprocess now input p' = inr mp' /\
                   M.maintenanceType mp' <> M.preventive).
Proof.
  intros Hp.
  destruct (postprocess_five now input p risk f c d u Hp)
    as (mp & Hpost & Hrisk & Htype & _).
  exists mp. split; [exact Hpost|]. split; [exact Hrisk|].
  rewrite Htype.
  destruct (selectMaintenanceType_spec risk u) as (He & Hc & Hv).
  split; [exact He|]. split; [exact Hc|]. split; [exact Hv|].
  intros p' risk' Hp' Hle Hnot.
  destruct (postprocess_five now input p' risk' f c d u Hp')
    as (mp' & Hpost' & _ & Htype' & _).
  exists mp'. split; [exact Hpost'|].
  rewrite Htype'. intros Hprev.
  apply Hnot. apply Hv.
  apply (proj1 (proj2 (proj2 (selectMaintenanceType_spec risk' u)))) in Hprev.
  destruct Hprev as [Hne Hlow]. split.
  - intros [H|H]; apply Hne; [left; lra|right; exact H].
  - lra.
Qed.

Lemma maintenanceType_thresholds_witness :
  exists mp,
    M.postprocess 0 sampleInput (withRaw (numbers [7 / 10; 5 / 10; 0; 0; 0])) = inr mp /\
    M.riskScore mp = JS.Fin (7 / 10) /\
    (M.maintenanceType mp = M.emergency <-> 7 / 10 > 9 / 10 \/ 0 > 9 / 10) /\
    (M.maintenanceType mp = M.corrective <->
       ~ (7 / 10 > 9 / 10 \/ 0 > 9 / 10) /\ 7 / 10 > 6 / 10) /\
    (M.maintenanceType mp = M.preventive <->
       ~ (7 / 10 > 9 / 10 \/ 0 > 9 / 10) /\ ~ 7 / 10 > 6 / 10) /\
    (forall (p' : BaseModel.PredictionResult) (risk' : R),
       BaseModel.prediction p' = numbers [risk'; 5 / 10; 0; 0; 0] ->
       7 / 10 <= risk' ->
       M.maintenanceType mp <> M.preventive ->
       exists mp', M.postprocess 0 sampleInput p' = inr mp' /\
                   M.maintenanceType mp' <> M.preventive).
Proof.
  apply (maintenanceType_thresholds 0 sampleInput
           (withRaw (numbers [7 / 10; 5 / 10; 0; 0; 0])) (7 / 10) (5 / 10) 0 0 0).
  reflexivity.
Defined.

(** ** Failure and maintenance dates *)








(** ** Fleet health *)

Lemma insertByDate_perm (u : M.Upcoming) (l : list M.Upcoming) :
  Permutation (u :: l) (M.insertByDate u l).
Proof.
  induction l as [|v l IH]; cbn [M.insertByDate]; [reflexivity|].
  destruct (JS.gt (M.compareDates u v) (JS.Fin 0)); [|reflexivity].
  rewrite perm_swap. now apply perm_skip.
Qed.

(** What the comparator tells about two entries. *)
Lemma compareDates_spec (u v : M.Upcoming) :
  (JS.gt (M.compareDates u v) (JS.Fin 0) = true -> byDate v u) /\
  (JS.gt (M.compareDates u v) (JS.Fin 0) = false -> byDate u v).
Proof.
  unfold M.compareDates, byDate.
  destruct (M.up_date u) as [a|], (M.up_date v) as [b|]; cbn [getTime JS.sub JS.gt];
    try (split; [discriminate|trivial]).
  split; intros H.
  - apply Rgtb_true in H. apply le_IZR. lra.
  - apply Rgtb_false in H. apply le_IZR. lra.
Qed.

Lemma insertByDate_sorted (u : M.Upcoming) (l : list M.Upcoming) :
  Sorted byDate l -> Sorted byDate (M.insertByDate u l).
Proof.
  induction l as [|v l IH]; intros Hs; cbn [M.insertByDate].
  - repeat constructor.
  - destruct (compareDates_spec u v) as [Hgt Hle].
    destruct (JS.gt (M.compareDates u v) (JS.Fin 0)).
    + apply Sorted_inv in Hs. destruct Hs as [Hs Hhd].
      constructor; [now apply IH|].
      destruct l as [|v' l']; cbn [M.insertByDate].
      * constructor. now apply Hgt.
      * destruct (JS.gt (M.compareDates u v') (JS.Fin 0)).
        -- constructor. now apply HdRel_inv in Hhd.
        -- constructor. now apply Hgt.
    + constructor; [exact Hs|]. constructor. now apply Hle.
Qed.

Lemma sortByDate_perm (l : list M.Upcoming) : Permutation (M.sortByDate l) l.
Proof.
  induction l as [|u l IH]; [reflexivity|].
  cbn [M.sortByDate fold_right]. fold (M.sortByDate l).
  rewrite <- insertByDate_perm. now apply perm_skip.
Qed.

Lemma sortByDate_sorted (l : list M.Upcoming) : Sorted byDate (M.sortByDate l).
Proof.
  induction l as [|u l IH]; [constructor|].
  cbn [M.sortByDate fold_right]. now apply insertByDate_sorted.
Qed.

(** The sum of the healths 1 - r is the count minus the sum of the risks
    r, also when some of them are infinite or [NaN]. *)
Lemma health_step (k : nat) (t r : JS.num) :
  ((JS.Fin (INR k) - t) + (JS.Fin 1 - r))%js = (JS.Fin (INR (S k)) - (t + r))%js.
Proof.
  rewrite S_INR.
  destruct t as [x| | |], r as [y| | |]; cbn [JS.sub JS.add]; try reflexivity.
  f_equal. lra.
Qed.

Lemma sum_health_from (rs : list JS.num) (k : nat) (t : JS.num) :
  fold_left (fun sum r => (sum + (JS.Fin 1 - r))%js) rs (JS.Fin (INR k) - t)%js
  = (JS.Fin (INR (k + List.length rs)) - fold_left JS.add rs t)%js.
Proof.
  revert k t. induction rs as [|r rs IH]; intros k t; cbn [fold_left List.length].
  - now rewrite Nat.add_0_r.
  - rewrite health_step, IH.
    now replace (k + S (List.length rs))%nat with (S k + List.length rs)%nat by lia.
Qed.

Lemma sum_health (ps : list M.MaintenancePrediction) :
  fold_left (fun sum p => (sum + (JS.Fin 1 - M.riskScore p))%js) ps (JS.Fin 0)
  = (JS.Fin (INR (List.length ps)) - sumRisk ps)%js.
Proof.
  unfold sumRisk.
  rewrite <- (fold_left_map (fun sum r => (sum + (JS.Fin 1 - r))%js) M.riskScore).
  replace (JS.Fin 0) with (JS.Fin (INR 0) - JS.Fin 0)%js at 1
    by (cbn [JS.sub INR]; f_equal; lra).
  rewrite sum_health_from, List.length_map. reflexivity.
Qed.

Lemma mean_health (t : JS.num) (n : nat) :
  (0 < n)%nat ->
  ((JS.Fin (INR n) - t) / JS.Fin (INR n))%js = (JS.Fin 1 - t / JS.Fin (INR n))%js.
Proof.
  intros Hn. assert (Hpos : 0 < INR n) by (apply lt_0_INR; lia).
  destruct t as [x| | |]; cbn [JS.sub]; try reflexivity.
  - rewrite !div_finite by lra. cbn [JS.sub]. f_equal. field. lra.
  - cbn [JS.div]. unfold JS.Rltb. destruct (Rlt_dec (INR n) 0); [lra|reflexivity].
  - cbn [JS.div]. unfold JS.Rltb. destruct (Rlt_dec (INR n) 0); [lra|reflexivity].
Qed.

Lemma sum_numbers (rs : list R) (a : R) :
  fold_left JS.add (numbers rs) (JS.Fin a) = JS.Fin (fold_left (fun sum x => sum + x) rs a).
Proof.
  revert a. induction rs as [|r rs IH]; intros a; [reflexivity|].
  cbn [numbers List.map fold_left JS.add]. apply IH.
Qed.

Lemma meanRisk_finite (ps : list M.MaintenancePrediction) (rs : list R) :
  ps <> [] -> risksAre ps rs -> meanRisk ps = JS.Fin (mean rs).
Proof.
  intros Hne Hrs. unfold meanRisk, sumRisk, mean, MD.sum. rewrite Hrs, sum_numbers.
  assert (Hlen : List.length ps = List.length rs).
  { rewrite <- (List.length_map M.riskScore ps), Hrs. unfold numbers.
    apply List.length_map. }
  rewrite Hlen. apply div_finite. apply not_0_INR.
  rewrite <- Hlen. destruct ps; [contradiction|discriminate].
Qed.

Lemma sum_zero (rs : list JS.num) (a : R) :
  List.Forall (fun r => r = JS.Fin 0) rs -> fold_left JS.add rs (JS.Fin a) = JS.Fin a.
Proof.
  revert a. induction rs as [|r rs IH]; intros a H; [reflexivity|].
  apply List.Forall_cons_iff in H. destruct H as [-> H].
  cbn [fold_left JS.add]. rewrite (IH _ H). f_equal. lra.
Qed.

Lemma meanRisk_zero (ps : list M.MaintenancePrediction) :
  ps <> [] -> List.Forall (fun p => M.riskScore p = JS.Fin 0) ps ->
  meanRisk ps = JS.Fin 0.
Proof.
  intros Hne Hz. unfold meanRisk, sumRisk.
  rewrite sum_zero by (apply List.Forall_map; exact Hz).
  rewrite div_finite
    by (apply not_0_INR; destruct ps; [contradiction|discriminate]).
  f_equal. unfold Rdiv. apply Rmult_0_l.
Qed.

Section FleetHealth.

Variable w : nat -> DenseWeights.
Variable bn : BatchNormWeights.
Variable modelExists : bool.
Variable loadLayersModel : Error + LayersModel.
Variable preprocessInput : M.MaintenanceInput -> Error + list JS.num.

Abbreviation predictMaintenance :=
  (M.predictMaintenance w bn modelExists loadLayersModel preprocessInput).
Abbreviation step := (M.step w bn modelExists loadLayersModel preprocessInput).
Abbreviation analyzeFleetHealth :=
  (M.analyzeFleetHealth w bn modelExists loadLayersModel preprocessInput).
Abbreviation successes :=
  (successes w bn modelExists loadLayersModel preprocessInput).

Lemma loop_accumulates (now : Z) (inputs : list M.MaintenanceInput) (a : M.Acc) :
  let succ := successes (M.acc_model a) now inputs in
  let a' := fold_left (step now) inputs a in
  M.predictions a' = M.predictions a ++ List.map snd succ /\
  M.acc_criticalIssues a' =
    M.acc_criticalIssues a
    ++ List.map (fun ip => M.issueText (fst ip)) (List.filter (riskAbove (8 / 10)) succ) /\
  M.acc_upcoming a' =
    M.acc_upcoming a
    ++ List.map (fun ip => M.upcomingOf (fst ip) (snd ip))
                (List.filter (riskAbove (5 / 10)) succ).
Proof.
  revert a. induction inputs as [|input rest IH]; intros a; cbn zeta.
  - cbn. rewrite !List.app_nil_r. repeat split.
  - cbn [fold_left successes].
    specialize (IH (step now a input)). cbn zeta in IH.
    destruct IH as (H1 & H2 & H3). rewrite H1, H2, H3. clear H1 H2 H3.
    unfold M.step.
    destruct (predictMaintenance (M.acc_model a) now input) as [[e|p] m'];
      cbn [M.acc_model M.predictions M.acc_criticalIssues M.acc_upcoming].
    + repeat split.
    + cbn [List.map List.filter snd fst].
      change (riskAbove (8 / 10) (input, p))
        with (JS.gt (M.riskScore p) (JS.Fin (8 / 10))).
      change (riskAbove (5 / 10) (input, p))
        with (JS.gt (M.riskScore p) (JS.Fin (5 / 10))).
      repeat split;
        repeat match goal with
               | |- context [JS.gt ?x ?y] => destruct (JS.gt x y)
               end;
        cbn [List.map fst snd]; rewrite <- ?List.app_assoc; reflexivity.
Qed.

(** C8 (amended): with at least one successful prediction,
    [analyzeFleetHealth] computes overall = mean of (1 - riskScore) over
    the successful predictions, which is 1 - mean risk, and trend
    'degrading' when the mean risk is above 0.6, 'improving' when it is
    below 0.3, else 'stable'; in every case one critical-issue string per
    successful prediction with riskScore > 0.8 and one upcoming-maintenance
    entry per successful prediction with riskScore > 0.5, sorted ascending
    by recommended date.  When every successful prediction has riskScore 0
    and there is at least one, overall = 1, trend = 'improving' and there
    are no critical issues.  With no successful prediction, overall = 1.
    The sums and comparisons are those of JavaScript; for finite risk
    scores [rs] they are the ones of the real numbers. *)
Theorem fleet_health (m : BaseModel.t) (now : Z) (inputs : list M.MaintenanceInput) :
  let succ := successes m now inputs in
  let ps := List.map snd succ in
  let health := fst (analyzeFleetHealth m now inputs) in
  (ps <> [] ->
   M.overall health =
     (fold_left (fun sum p => sum + (JS.Fin 1 - M.riskScore p)) ps (JS.Fin 0)
      / JS.Fin (INR (List.length ps)))%js /\
   M.overall health = (JS.Fin 1 - meanRisk ps)%js /\
   (JS.gt (meanRisk ps) (JS.Fin (6 / 10)) = true -> M.trend health = M.degrading) /\
   (JS.gt (meanRisk ps) (JS.Fin (6 / 10)) = false ->
    JS.lt (meanRisk ps) (JS.Fin (3 / 10)) = true -> M.trend health = M.improving) /\
   (JS.gt (meanRisk ps) (JS.Fin (6 / 10)) = false ->
    JS.lt (meanRisk ps) (JS.Fin (3 / 10)) = false -> M.trend health = M.stable) /\
   (forall rs, risksAre ps rs ->
      M.overall health = JS.Fin (1 - mean rs) /\
      (mean rs > 6 / 10 -> M.trend health = M.degrading) /\
      (mean rs < 3 / 10 -> M.trend health = M.improving) /\
      (3 / 10 <= mean rs <= 6 / 10 -> M.trend health = M.stable))) /\
  (ps = [] -> M.overall health = JS.Fin 1) /\
  M.criticalIssues health =
    List.map (fun ip => M.issueText (fst ip)) (List.filter (riskAbove (8 / 10)) succ) /\
  Permutation (M.upcomingMaintenance health)
    (List.map (fun ip => M.upcomingOf (fst ip) (snd ip))
              (List.filter (riskAbove (5 / 10)) succ)) /\
  Sorted byDate (M.upcomingMaintenance health) /\
  (ps <> [] -> List.Forall (fun p => M.riskScore p = JS.Fin 0) ps ->
   M.overall health = JS.Fin 1 /\ M.trend health = M.improving /\
   M.criticalIssues health = []).
Proof.
  intros succ ps health.
  pose proof (loop_accumulates now inputs
                {| M.acc_model := m; M.predictions := [];
                   M.acc_criticalIssues := []; M.acc_upcoming := [] |})
    as (Hps & Hcrit & Hup).
  cbn [M.acc_model M.predictions M.acc_criticalIssues M.acc_upcoming List.app] in Hps, Hcrit, Hup.
  fold succ in Hps, Hcrit, Hup. fold ps in Hps.
  subst health. unfold M.analyzeFleetHealth.
  cbn [fst M.overall M.trend M.criticalIssues M.upcomingMaintenance].
  rewrite Hps, Hcrit, Hup. clear Hps Hcrit Hup.
  rewrite List.length_map.
  change (fold_left (fun sum risk => (sum + risk)%js) (List.map M.riskScore ps) (JS.Fin 0)
          / JS.Fin (INR (List.length ps)))%js with (meanRisk ps).
  set (trend := if JS.gt (meanRisk ps) (JS.Fin (6 / 10)) then M.degrading
                else if JS.lt (meanRisk ps) (JS.Fin (3 / 10)) then M.improving
                     else M.stable).
  assert (Hpos : ps <> [] -> (0 <? List.length ps)%nat = true /\ (0 < List.length ps)%nat).
  { intros Hne. destruct ps; [contradiction|]. split; [reflexivity|cbn; lia]. }
  assert (Hoverall : ps <> [] ->
    (if (0 <? List.length ps)%nat
     then (fold_left (fun sum p => sum + (JS.Fin 1 - M.riskScore p)) ps (JS.Fin 0)
           / JS.Fin (INR (List.length ps)))%js
     else JS.Fin 1) = (JS.Fin 1 - meanRisk ps)%js).
  { intros Hne. destruct (Hpos Hne) as [-> Hlen].
    rewrite sum_health. unfold meanRisk. now apply mean_health. }
  assert (Htrend :
    (JS.gt (meanRisk ps) (JS.Fin (6 / 10)) = true -> trend = M.degrading) /\
    (JS.gt (meanRisk ps) (JS.Fin (6 / 10)) = false ->
     JS.lt (meanRisk ps) (JS.Fin (3 / 10)) = true -> trend = M.improving) /\
    (JS.gt (meanRisk ps) (JS.Fin (6 / 10)) = false ->
     JS.lt (meanRisk ps) (JS.Fin (3 / 10)) = false -> trend = M.stable)).
  { subst trend. repeat split; intros; repeat
      match goal with H : _ = _ |- _ => rewrite H; clear H end; reflexivity. }
  destruct Htrend as (Hdeg & Himp & Hsta).
  split; [|split; [|split; [|split; [|split]]]].
  - intros Hne. split; [|split; [now apply Hoverall|]].
    { destruct (Hpos Hne) as [-> _]. reflexivity. }
    split; [exact Hdeg|]. split; [exact Himp|]. split; [exact Hsta|].
    intros rs Hrs. rewrite (Hoverall Hne).
    pose proof (meanRisk_finite ps rs Hne Hrs) as Hmean.
    rewrite Hmean in Hdeg, Himp, Hsta |- *.
    split; [reflexivity|]. split; [|split].
    + intros H. apply Hdeg. now apply gt_fin.
    + intros H. apply Himp; [apply gt_fin_false; lra|now apply lt_fin].
    + intros H. apply Hsta; [apply gt_fin_false; lra|].
      destruct (JS.lt (JS.Fin (mean rs)) (JS.Fin (3 / 10))) eqn:E; [|reflexivity].
      apply lt_fin in E. lra.
  - intros ->. reflexivity.
  - reflexivity.
  - apply sortByDate_perm.
  - apply sortByDate_sorted.
  - intros Hne Hzero.
    pose proof (meanRisk_zero ps Hne Hzero) as Hmean.
    split; [rewrite (Hoverall Hne), Hmean; cbn [JS.sub]; f_equal; lra|]. split.
    + apply Himp; rewrite Hmean; [apply gt_fin_false|apply lt_fin]; lra.
    + subst ps. clear - Hzero.
      induction succ as [|ip l IH]; [reflexivity|].
      cbn [List.map] in Hzero. apply List.Forall_cons_iff in Hzero.
      destruct Hzero as [Hip Hl]. cbn [List.filter]. unfold riskAbove at 1.
      rewrite Hip.
      replace (JS.gt (JS.Fin 0) (JS.Fin (8 / 10))) with false
        by (symmetry; apply gt_fin_false; lra).
      now apply IH.
Qed.

End FleetHealth.

(** C8, as stated, fails on the empty list of inputs: every prediction (there
    is none) has riskScore 0, overall is 1 and there is no critical issue,
    but the mean risk is 0/0 and the trend is 'stable', not 'improving'. *)
Lemma fleet_health_empty_counterexample :
  List.Forall (fun p => M.riskScore p = JS.Fin 0)
         (List.map snd (successes (fun _ => constWeights 0) zeroBatchNorm true zeroArtifact
                                  noFeatures freshForecaster 0 [])) /\
  fst (M.analyzeFleetHealth (fun _ => constWeights 0) zeroBatchNorm true zeroArtifact
         noFeatures freshForecaster 0 [])
  = {| M.overall := JS.Fin 1; M.trend := M.stable;
       M.criticalIssues := []; M.upcomingMaintenance := [] |} /\
  M.stable <> M.improving.
Proof.
  split; [constructor|]. split; [|discriminate].
  unfold M.analyzeFleetHealth. cbn [fold_left fst M.predictions M.acc_criticalIssues
    M.acc_upcoming List.map List.length Nat.ltb Nat.leb M.sortByDate fold_right INR].
  assert (Hnan : JS.div (JS.Fin 0) (JS.Fin 0) = JS.NaN).
  { cbn [JS.div]. unfold JS.Reqb. destruct (Req_dec_T 0 0); [reflexivity|lra]. }
  rewrite Hnan. reflexivity.
Qed.

Lemma zeroFleet_successes :
  exists mp,
    successes (fun _ => constWeights 0) zeroBatchNorm true zeroArtifact
              noFeatures freshForecaster 0 [sampleInput] = [(sampleInput, mp)] /\
    M.riskScore mp = JS.Fin 0.
Proof.
  eexists. split; [reflexivity|]. cbn. f_equal. lra.
Qed.

Lemma fleet_health_witness :
  let health :=
    fst (M.analyzeFleetHealth (fun _ => constWeights 0) zeroBatchNorm true zeroArtifact
           noFeatures freshForecaster 0 [sampleInput]) in
  M.overall health = JS.Fin 1 /\ M.trend health = M.improving /\ M.criticalIssues health = [].
Proof.
  intros health.
  destruct zeroFleet_successes as (mp & Hs & Hrisk).
  apply (fleet_health (fun _ => constWeights 0) zeroBatchNorm true zeroArtifact
           noFeatures freshForecaster 0 [sampleInput]).
  - rewrite Hs. discriminate.
  - rewrite Hs. repeat constructor. exact Hrisk.
Defined.

(** ** What the orchestrator records as confidence *)

Lemma recordPrediction_last (now : Z) (h : list AIService.PredictionRecord)
    (name : string) (conf : JS.num) (ok : bool) :
  last (AIService.recordPrediction now h name conf ok) =
  Some {| AIService.modelName := name; AIService.timestamp := now;
          AIService.confidence := conf; AIService.success := ok |}.
Proof.
  rewrite recordPrediction_slice. unfold AIService.slice_last.
  rewrite List.skipn_app, List.length_app. cbn [List.length].
  replace (List.length h + 1 - 1000 - List.length h)%nat with 0%nat by lia.
  cbn [skipn]. apply last_snoc.
Qed.

Lemma postprocess_confidence (now : Z) (input : M.MaintenanceInput)
    (p : BaseModel.PredictionResult) (mp : M.MaintenancePrediction) :
  M.postprocess now input p = inr mp ->
  M.confidence mp = BaseModel.confidence p /\
  exists risk f c d u,
    BaseModel.prediction p = [risk; f; c; d; u] /\ M.riskScore mp = risk /\
    List.Forall (fun x => x <> JS.NaN) [risk; f; c; d; u].
Proof.
  unfold M.postprocess.
  destruct (BaseModel.prediction p) as [|a [|b [|c [|d [|u [|x rest]]]]]];
    try discriminate.
  destruct (JS.isNaN a) eqn:Ea; [discriminate|].
  destruct (JS.isNaN b) eqn:Eb; [discriminate|].
  destruct (JS.isNaN c) eqn:Ec; [discriminate|].
  destruct (JS.isNaN d) eqn:Ed; [discriminate|].
  destruct (JS.isNaN u) eqn:Eu; [discriminate|].
  cbn [orb]. intros H. injection H as <-. split; [reflexivity|].
  exists a, b, c, d, u. split; [reflexivity|]. split; [reflexivity|].
  repeat constructor; intros ->; discriminate.
Qed.

Section RecordedConfidence.

Variables RouteInput RouteDerived : Type.
Variable routeDerive : RouteInput -> JS.num -> JS.num -> JS.num -> RouteDerived.
Variable routePreprocess : RouteInput -> Error + list JS.num.
Variables FuelInput FuelDerived : Type.
Variable fuelDerive : FuelInput -> JS.num -> JS.num -> JS.num -> FuelDerived.
Variable fuelPreprocess : FuelInput -> Error + list JS.num.
Variable w : nat -> DenseWeights.
Variable bn : BatchNormWeights.
Variable modelExists : bool.
Variable loadLayersModel : Error + LayersModel.
Variable maintenancePreprocess : M.MaintenanceInput -> Error + list JS.num.

Abbreviation optimizeRoute :=
  (AIService.optimizeRoute RouteInput RouteDerived routeDerive routePreprocess).
Abbreviation predictFuelConsumption :=
  (AIService.predictFuelConsumption FuelInput FuelDerived fuelDerive fuelPreprocess).
Abbreviation predictMaintenance :=
  (AIService.predictMaintenance w bn modelExists loadLayersModel maintenancePreprocess).

(** C9: [optimizeRoute] returns exactly when [predict] returns a raw vector
    of at least four components, and the entry it then appends stores the
    third raw output of the model, which is the returned weatherRiskScore,
    in its confidence field, not the confidence that [predict] computed.
    [predictFuelConsumption] returns exactly when [predict] returns at
    least three components, and [predictMaintenance] exactly when the
    model is or can be initialized, [predict] returns and the raw vector
    passes the checks; the entries they then append store the confidence
    that [predict] computed from the raw vector, which is also the
    confidence of the returned prediction. *)
Theorem recorded_confidence (s : AIService.t) (now : Z) :
  (forall input p timeFactor fuelFactor riskScore routeEfficiency rest,
     BaseModel.predict RouteInput routePreprocess
       (AIService.routeOptimizer s) now input = inr p ->
     BaseModel.prediction p = timeFactor :: fuelFactor :: riskScore :: routeEfficiency :: rest ->
     exists optimization s',
       optimizeRoute s now input = (inr optimization, s') /\
       RouteOptimizerModel.weatherRiskScore RouteDerived optimization = riskScore /\
       last (AIService.predictionHistory s') =
         Some (entry "route-optimizer" now riskScore)) /\
  (forall input optimization s',
     optimizeRoute s now input = (inr optimization, s') ->
     exists p timeFactor fuelFactor riskScore rest,
       BaseModel.predict RouteInput routePreprocess
         (AIService.routeOptimizer s) now input = inr p /\
       BaseModel.prediction p = timeFactor :: fuelFactor :: riskScore :: rest /\
       RouteOptimizerModel.weatherRiskScore RouteDerived optimization = riskScore /\
       last (AIService.predictionHistory s') =
         Some (entry "route-optimizer" now riskScore)) /\
  (forall input p main aux efficiency rest,
     BaseModel.predict FuelInput fuelPreprocess
       (AIService.fuelPredictor s) now input = inr p ->
     BaseModel.prediction p = main :: aux :: efficiency :: rest ->
     exists fuel s',
       predictFuelConsumption s now input = (inr fuel, s') /\
       FuelPredictorModel.confidence FuelDerived fuel = BaseModel.confidence p /\
       last (AIService.predictionHistory s') =
         Some (entry "fuel-predictor" now
                     (BaseModel.calculateConfidence (BaseModel.prediction p)))) /\
  (forall input fuel s',
     predictFuelConsumption s now input = (inr fuel, s') ->
     exists p,
       BaseModel.predict FuelInput fuelPreprocess
         (AIService.fuelPredictor s) now input = inr p /\
       FuelPredictorModel.confidence FuelDerived fuel = BaseModel.confidence p /\
       last (AIService.predictionHistory s') =
         Some (entry "fuel-predictor" now
                     (BaseModel.calculateConfidence (BaseModel.prediction p)))) /\
  (forall input m1 p maintenance,
     M.ensureInitialized w bn modelExists loadLayersModel
       (AIService.maintenanceForecaster s) = (None, m1) ->
     M.predict maintenancePreprocess m1 now input = inr p ->
     M.postprocess now input p = inr maintenance ->
     exists s',
       predictMaintenance s now input = (inr maintenance, s') /\
       M.confidence maintenance = BaseModel.confidence p /\
       last (AIService.predictionHistory s') =
         Some (entry "maintenance-forecaster" now
                     (BaseModel.calculateConfidence (BaseModel.prediction p)))) /\
  (forall input maintenance s',
     predictMaintenance s now input = (inr maintenance, s') ->
     exists m1 p,
       M.ensureInitialized w bn modelExists loadLayersModel
         (AIService.maintenanceForecaster s) = (None, m1) /\
       M.predict maintenancePreprocess m1 now input = inr p /\
       M.postprocess now input p = inr maintenance /\
       M.confidence maintenance = BaseModel.confidence p /\
       last (AIService.predictionHistory s') =
         Some (entry "maintenance-forecaster" now
                     (BaseModel.calculateConfidence (BaseModel.prediction p)))).
Proof.
  split; [|split; [|split; [|split; [|split]]]].
  - intros input p t f r e rest Hp Hraw.
    unfold AIService.optimizeRoute, RouteOptimizerModel.optimizeRoute.
    rewrite Hp, Hraw. eexists. eexists. split; [reflexivity|].
    split; [reflexivity|].
    cbn [AIService.record AIService.predictionHistory
         RouteOptimizerModel.weatherRiskScore].
    apply recordPrediction_last.
  - intros input optimization s'.
    unfold AIService.optimizeRoute, RouteOptimizerModel.optimizeRoute.
    destruct (BaseModel.predict RouteInput routePreprocess
                (AIService.routeOptimizer s) now input) as [e|p] eqn:Hp;
      [discriminate|].
    destruct (BaseModel.prediction p) as [|t [|f [|r [|e rest]]]] eqn:Hraw;
      try discriminate.
    intros H. injection H as <- <-.
    exists p, t, f, r, (e :: rest).
    split; [reflexivity|]. split; [exact Hraw|]. split; [reflexivity|].
    cbn [AIService.record AIService.predictionHistory
         RouteOptimizerModel.weatherRiskScore].
    apply recordPrediction_last.
  - intros input p a b c rest Hp Hraw.
    unfold AIService.predictFuelConsumption, FuelPredictorModel.predictFuelConsumption.
    rewrite Hp, Hraw. eexists. eexists. split; [reflexivity|].
    split; [reflexivity|].
    destruct (predict_loaded _ _ _ _ _ _ Hp) as (_ & _ & _ & _ & _ & _ & Hconf).
    cbn [AIService.record AIService.predictionHistory FuelPredictorModel.confidence].
    rewrite <- Hraw, <- Hconf. apply recordPrediction_last.
  - intros input fuel s'.
    unfold AIService.predictFuelConsumption, FuelPredictorModel.predictFuelConsumption.
    destruct (BaseModel.predict FuelInput fuelPreprocess
                (AIService.fuelPredictor s) now input) as [e|p] eqn:Hp;
      [discriminate|].
    destruct (BaseModel.prediction p) as [|a [|b [|c rest]]] eqn:Hraw;
      try discriminate.
    intros H. injection H as <- <-.
    destruct (predict_loaded _ _ _ _ _ _ Hp) as (_ & _ & _ & _ & _ & _ & Hconf).
    exists p. split; [reflexivity|]. split; [reflexivity|].
    cbn [AIService.record AIService.predictionHistory FuelPredictorModel.confidence].
    rewrite <- Hconf. apply recordPrediction_last.
  - intros input m1 p maintenance Hinit Hp Hpost.
    unfold AIService.predictMaintenance, M.predictMaintenance.
    rewrite Hinit, Hp, Hpost. eexists. split; [reflexivity|].
    destruct (postprocess_confidence _ _ _ _ Hpost) as [Hc _].
    split; [exact Hc|].
    destruct (predict_loaded _ _ _ _ _ _ Hp) as (_ & _ & _ & _ & _ & _ & Hconf).
    cbn [AIService.record AIService.predictionHistory].
    rewrite Hc, <- Hconf. apply recordPrediction_last.
  - intros input maintenance s'.
    unfold AIService.predictMaintenance, M.predictMaintenance.
    destruct (M.ensureInitialized w bn modelExists loadLayersModel
                (AIService.maintenanceForecaster s)) as [[e|] m1]; [discriminate|].
    destruct (M.predict maintenancePreprocess m1 now input) as [e|p] eqn:Hp;
      [discriminate|].
    destruct (predict_loaded _ _ _ _ _ _ Hp) as (_ & _ & _ & _ & _ & _ & Hconf).
    destruct (M.postprocess now input p) as [e|mp] eqn:Hpost; [discriminate|].
    intros H. injection H as <- <-.
    exists m1, p. split; [reflexivity|]. split; [exact Hp|]. split; [exact Hpost|].
    destruct (postprocess_confidence _ _ _ _ Hpost) as [Hc _].
    split; [exact Hc|].
    cbn [AIService.record AIService.predictionHistory].
    rewrite Hc, <- Hconf. apply recordPrediction_last.
Qed.

End RecordedConfidence.

(** ** The effect of [preprocessInput] on the caller's objects *)

Ltac rejected :=
  let E := fresh in let Hp := fresh in
  intros E; injection E as <- <-; intros Hp; exfalso; apply Hp; cbn; auto 7.

Module StoreFacts.
Import Store StoreSpec.

Lemma Array_isArray_stable : stable Array_isArray.
Proof.
  intros t h h' v Hfr Hv. destruct v as [| | | | |a]; try reflexivity.
  destruct (Hv a eq_refl) as [o Ho].
  destruct (Hfr a o Ho) as (o' & Ho' & Harr & _).
  cbn [Array_isArray]. rewrite Ho, Ho'. unfold isArray. now rewrite Harr.
Qed.

Lemma isObject_stable : stable isObject.
Proof.
  intros t h h' v Hfr Hv. destruct v as [| | | | |a]; try reflexivity.
  destruct (Hv a eq_refl) as [o Ho].
  destruct (Hfr a o Ho) as (o' & Ho' & _).
  cbn [isObject]. rewrite Ho, Ho'.
  rewrite !bool_decide_eq_true_2; [reflexivity|eauto|eauto].
Qed.

Lemma frame_weaken (t1 t2 : list (loc * string)) (h h' : heap) :
  (forall x, In x t1 -> In x t2) -> frame t1 h h' -> frame t2 h h'.
Proof.
  intros Hsub Hfr l0 o0 Ho. destruct (Hfr l0 o0 Ho) as (o' & Ho' & Harr & Hprops).
  exists o'. repeat split; [exact Ho'|exact Harr|].
  intros k0 Hk. apply Hprops. intros Hin. apply Hk. now apply Hsub.
Qed.

Lemma frame_getProp (t : list (loc * string)) (h h' : heap) (l : loc) (k : string) :
  frame t h h' -> is_Some (h !! l) -> ~ In (l, k) t -> getProp h' l k = getProp h l k.
Proof.
  intros Hfr [o Ho] Hk. destruct (Hfr l o Ho) as (o' & Ho' & Harr & Hprops).
  unfold getProp. rewrite Ho, Ho', Harr, (Hprops k Hk). reflexivity.
Qed.

Lemma getProp_set (h : heap) (l : loc) (o : object) (k : string) (v : value) :
  k <> "length"%string ->
  getProp (<[l := {| array := array o; props := <[k := v]> (props o) |}]> h) l k = v.
Proof.
  intros Hk. unfold getProp. rewrite lookup_insert_eq. cbn [array props].
  rewrite lookup_insert_eq.
  destruct (array o); [|reflexivity].
  destruct (String.eqb_spec k "length"); [contradiction|reflexivity].
Qed.

Lemma defaultField_step (f : FieldDefault) (h : heap) :
  is_Some (h !! fd_loc f) -> fd_key f <> "length"%string ->
  frame [fieldOf f] h (applyDefault h f) /\
  outcome h (applyDefault h f) f /\
  (forall l0 o0, h !! l0 = Some o0 -> l0 <> fd_loc f ->
                 applyDefault h f !! l0 = Some o0).
Proof.
  intros [o Ho] Hkey. unfold applyDefault, defaultField, outcome, fieldOf.
  destruct (fd_accepted f h (getProp h (fd_loc f) (fd_key f))) eqn:Hacc.
  - split; [|split].
    + intros l0 o0 Hl0. exists o0. repeat split; exact Hl0 || reflexivity.
    + reflexivity.
    + intros l0 o0 Hl0 _. exact Hl0.
  - cbn [alloc]. set (l' := fresh (dom h)).
    assert (Hfresh : h !! l' = None).
    { apply not_elem_of_dom. apply is_fresh. }
    assert (Hne : l' <> fd_loc f).
    { intros E. rewrite E, Ho in Hfresh. discriminate. }
    unfold setProp. rewrite lookup_insert_ne by exact Hne. rewrite Ho.
    split; [|split].
    + intros l0 o0 Hl0.
      destruct (decide (l0 = fd_loc f)) as [->|Hl].
      * rewrite Ho in Hl0. injection Hl0 as <-.
        eexists. split; [apply lookup_insert_eq|]. split; [reflexivity|].
        intros k0 Hk. cbn [props]. apply lookup_insert_ne.
        intros <-. apply Hk. now left.
      * exists o0. split; [|split; reflexivity].
        rewrite lookup_insert_ne by congruence.
        rewrite lookup_insert_ne; [exact Hl0|].
        intros E. rewrite <- E, Hfresh in Hl0. discriminate.
    + exists l'. split; [exact Hfresh|]. split.
      * now apply getProp_set.
      * rewrite lookup_insert_ne by congruence. apply lookup_insert_eq.
    + intros l0 o0 Hl0 Hl.
      rewrite lookup_insert_ne by congruence.
      rewrite lookup_insert_ne; [exact Hl0|].
      intros E. rewrite <- E, Hfresh in Hl0. discriminate.
Qed.

Lemma frame_trans (t1 t2 : list (loc * string)) (h1 h2 h3 : heap) :
  frame t1 h1 h2 -> frame t2 h2 h3 -> frame (t1 ++ t2) h1 h3.
Proof.
  intros H12 H23 l0 o0 Ho.
  destruct (H12 l0 o0 Ho) as (o2 & Ho2 & Harr2 & Hp2).
  destruct (H23 l0 o2 Ho2) as (o3 & Ho3 & Harr3 & Hp3).
  exists o3. split; [exact Ho3|]. split; [congruence|].
  intros k0 Hk. rewrite Hp3, Hp2; [reflexivity| |];
    intros Hin; apply Hk; apply List.in_or_app; [now left|now right].
Qed.

Lemma frame_is_Some (t : list (loc * string)) (h h' : heap) (l : loc) :
  frame t h h' -> is_Some (h !! l) -> is_Some (h' !! l).
Proof. intros Hfr [o Ho]. destruct (Hfr l o Ho) as (o' & Ho' & _). eauto. Qed.

(** The assignments, run in sequence on distinct properties, do not
    disturb one another. *)
Lemma defaults_fold (F : list FieldDefault) (h : heap) :
  List.NoDup (List.map fieldOf F) ->
  List.Forall (fun f => is_Some (h !! fd_loc f) /\ fd_key f <> "length"%string /\
                        notDangling h f /\ stable (fd_accepted f)) F ->
  frame (List.map fieldOf F) h (fold_left applyDefault F h) /\
  List.Forall (outcome h (fold_left applyDefault F h)) F.
Proof.
  induction F as [|f F IH] using rev_ind; intros Hnd Hall.
  - split; [|constructor].
    intros l0 o0 Ho. exists o0. repeat split; exact Ho || reflexivity.
  - rewrite List.map_app in Hnd. cbn [List.map] in Hnd.
    apply List.NoDup_remove in Hnd. rewrite List.app_nil_r in Hnd.
    destruct Hnd as [Hnd Hnew].
    apply List.Forall_app in Hall. destruct Hall as [Hall Hf].
    apply List.Forall_inv in Hf. destruct Hf as (Hloc & Hkey & Hdang & Hstable).
    destruct (IH Hnd Hall) as [Hfr Hout]. clear IH.
    rewrite fold_left_app. cbn [fold_left].
    set (hi := fold_left applyDefault F h) in *.
    destruct (defaultField_step f hi (frame_is_Some _ _ _ _ Hfr Hloc) Hkey)
      as (Hstep & Hnow & Hkeep).
    split.
    + rewrite List.map_app. cbn [List.map]. now apply (frame_trans _ _ h hi).
    + apply List.Forall_app. split.
      * rewrite List.Forall_forall in Hout, Hall |- *.
        intros f0 Hf0. specialize (Hout f0 Hf0).
        destruct (Hall f0 Hf0) as (Hloc0 & _ & _).
        assert (Hsame : getProp (applyDefault hi f) (fd_loc f0) (fd_key f0)
                        = getProp hi (fd_loc f0) (fd_key f0)).
        { apply (frame_getProp [fieldOf f]); [exact Hstep| |].
          - now apply (frame_is_Some (List.map fieldOf F) h hi).
          - intros [E|[]]. apply Hnew. rewrite E.
            change (fd_loc f0, fd_key f0) with (fieldOf f0).
            apply List.in_map. exact Hf0. }
        unfold outcome in *.
        destruct (fd_accepted f0 h (getProp h (fd_loc f0) (fd_key f0))).
        -- now rewrite Hsame.
        -- destruct Hout as (l' & Hfresh & Hprop & Hlit).
           exists l'. split; [exact Hfresh|]. split; [now rewrite Hsame|].
           apply Hkeep; [exact Hlit|].
           intros E. destruct Hloc as [o Ho]. rewrite E, Ho in Hfresh. discriminate.
      * constructor; [|constructor].
        assert (Hprop : getProp hi (fd_loc f) (fd_key f) = getProp h (fd_loc f) (fd_key f)).
        { now apply (frame_getProp (List.map fieldOf F)). }
        assert (Hacc : fd_accepted f hi (getProp hi (fd_loc f) (fd_key f))
                       = fd_accepted f h (getProp h (fd_loc f) (fd_key f))).
        { rewrite Hprop. apply (Hstable _ h hi _ Hfr). exact Hdang. }
        unfold outcome in *. rewrite Hacc in Hnow.
        destruct (fd_accepted f h (getProp h (fd_loc f) (fd_key f))).
        -- now rewrite Hnow.
        -- destruct Hnow as (l' & Hfresh & Hset & Hlit).
           exists l'. split; [|split; [exact Hset|exact Hlit]].
           destruct (h !! l') as [o|] eqn:Ho; [|reflexivity].
           destruct (Hfr l' o Ho) as (o' & Ho' & _). congruence.
Qed.

(** The store after a run that went past the shape checks is the one
    that the six assignments leave. *)
Lemma preprocessInput_store (toPrimitive : heap -> loc -> option Error)
    (h h' : heap) (d c s : loc) (r : option Error) :
  getProp h d "component" = VRef c ->
  getProp h d "sensors" = VRef s ->
  preprocessInput toPrimitive h (VRef d) = (r, h') ->
  pastValidation r ->
  h' = fold_left applyDefault (defaults c s) h /\
  is_Some (h !! c) /\ is_Some (h !! s).
Proof.
  intros Hc Hs. unfold preprocessInput. rewrite Hc, Hs.
  destruct (negb (isObject h (VRef d))); [rejected|].
  destruct (negb (isObject h (getProp h d "ship"))); [rejected|].
  destruct (negb (isObject h (VRef c))) eqn:Hco; [rejected|].
  destruct (negb (isObject h (getProp h d "usage"))); [rejected|].
  destruct (negb (isObject h (VRef s))) eqn:Hso; [rejected|].
  apply negb_false_iff, bool_decide_eq_true_1 in Hco.
  apply negb_false_iff, bool_decide_eq_true_1 in Hso.
  destruct (getProp h d "ship") as [| | | | |sh]; [rejected..|].
  destruct (getProp h d "usage") as [| | | | |u]; [rejected..|].
  cbv zeta. intros E _. injection E as _ <-.
  split; [reflexivity|]. split; assumption.
Qed.

(** C10: when validation passes, [preprocessInput] assigns into the
    objects that the caller's record refers to, whether it then returns or
    throws while reading the features.  For maintenanceHistory of the
    component and temperature, vibration, pressure, efficiency of the
    sensors: a property that holds an array keeps its value, any other
    is overwritten with a reference to a new empty array; lastReadings is
    kept when it holds an object and is otherwise overwritten with a
    reference to a new object {temperature: 0, vibration: 0, pressure: 0,
    efficiency: 1}.  Every object of the store is kept, and each keeps
    all its other properties. *)
Theorem preprocessInput_defaults_in_place (toPrimitive : heap -> loc -> option Error)
    (h h' : heap) (data : value) (d c s : loc) (r : option Error) :
  data = VRef d ->
  getProp h d "component" = VRef c ->
  getProp h d "sensors" = VRef s ->
  List.Forall (notDangling h) (defaults c s) ->
  preprocessInput toPrimitive h data = (r, h') ->
  pastValidation r ->
  List.Forall (outcome h h') (defaults c s) /\
  frame (List.map fieldOf (defaults c s)) h h'.
Proof.
  intros -> Hc Hs Hdang Hrun Hpast.
  destruct (preprocessInput_store toPrimitive h h' d c s r Hc Hs Hrun Hpast)
    as (-> & Hco & Hso).
  destruct (defaults_fold (defaults c s) h) as [Hfr Hout].
  - cbn [defaults List.map fieldOf fd_loc fd_key].
    repeat (constructor; [cbn [In]; intros Hin;
                          repeat (destruct Hin as [Hin|Hin]; [discriminate Hin|]);
                          exact Hin|]).
    constructor.
  - rewrite List.Forall_forall in Hdang |- *. intros f Hf.
    split; [|split; [|split; [now apply Hdang|]]].
    + cbn [defaults In] in Hf.
      repeat (destruct Hf as [<-|Hf]; [assumption|]). destruct Hf.
    + cbn [defaults In] in Hf.
      repeat (destruct Hf as [<-|Hf]; [discriminate|]). destruct Hf.
    + cbn [defaults In] in Hf.
      repeat (destruct Hf as [<-|Hf];
              [first [apply Array_isArray_stable|apply isObject_stable]|]).
      destruct Hf.
  - split; assumption.
Qed.

End StoreFacts.

Lemma preprocessInput_defaults_in_place_witness :
  (exists h',
     Store.preprocessInput plainObjects sampleHeap (Store.VRef 1) = (None, h') /\
     List.Forall (StoreSpec.outcome sampleHeap h') (StoreSpec.defaults 3 5) /\
     StoreSpec.frame (List.map StoreSpec.fieldOf (StoreSpec.defaults 3 5)) sampleHeap h') /\
  (exists h',
     Store.preprocessInput plainObjects incompleteHeap (Store.VRef 1)
     = (Some (Err "Cannot read properties of undefined (reading 'averageLoad')"), h') /\
     List.Forall (StoreSpec.outcome incompleteHeap h') (StoreSpec.defaults 3 5) /\
     StoreSpec.frame (List.map StoreSpec.fieldOf (StoreSpec.defaults 3 5)) incompleteHeap h').
Proof.
  split.
  - eexists. split; [vm_compute; reflexivity|].
    apply (StoreFacts.preprocessInput_defaults_in_place plainObjects sampleHeap _
             (Store.VRef 1) 1 3 5 None).
    + reflexivity.
    + vm_compute. reflexivity.
    + vm_compute. reflexivity.
    + repeat constructor; intros a Ha; vm_compute in Ha; try discriminate Ha;
        injection Ha as <-; eexists; vm_compute; reflexivity.
    + vm_compute. reflexivity.
    + exact I.
  - eexists. split; [vm_compute; reflexivity|].
    apply (StoreFacts.preprocessInput_defaults_in_place plainObjects incompleteHeap _
             (Store.VRef 1) 1 3 5
             (Some (Err "Cannot read properties of undefined (reading 'averageLoad')"))).
    + reflexivity.
    + vm_compute. reflexivity.
    + vm_compute. reflexivity.
    + repeat constructor; intros a Ha; vm_compute in Ha; try discriminate Ha;
        injection Ha as <-; eexists; vm_compute; reflexivity.
    + vm_compute. reflexivity.
    + cbn. intros H. repeat (destruct H as [H|H]; [discriminate H|]). exact H.
Defined.

Lemma routeRaw_equal : routeRaw = repeat (JS.Fin (1 / (1 + exp (- (0 + 0))))) 4.
Proof.
  unfold routeRaw.
  cbn [RouteOptimizerModel.buildModel BaseModel.compile BaseModel.layers].
  rewrite last_layer_split, model_predict_app.
  set (inner := model_predict _ (repeat (JS.Fin 0) 15)).
  assert (Hfin : List.Forall finiteNum inner).
  { apply model_predict_finite; [repeat constructor|apply repeat_finite]. }
  unfold model_predict.
  cbn [fold_left apply_layer seq List.map constWeights kernel bias repeat].
  rewrite !(dot_zero_kernel inner _ _ Hfin). reflexivity.
Qed.

Lemma recorded_confidence_witness :
  (exists optimization s' riskScore,
     sampleRouteRun = (inr optimization, s') /\
     RouteOptimizerModel.weatherRiskScore unit optimization = riskScore /\
     last (AIService.predictionHistory s') =
       Some (entry "route-optimizer" 0 riskScore)) /\
  (exists fuel s',
     AIService.predictFuelConsumption (list JS.num) unit noDerived inr sampleService 0
       (repeat (JS.Fin 0) 20) = (inr fuel, s') /\
     last (AIService.predictionHistory s') =
       Some (entry "fuel-predictor" 0 (BaseModel.calculateConfidence (numbers [2; 2; 2])))) /\
  (exists maintenance s' confidence,
     AIService.predictMaintenance (fun _ => constWeights 0) zeroBatchNorm true zeroArtifact
       noFeatures sampleService 0 sampleInput = (inr maintenance, s') /\
     M.confidence maintenance = confidence /\
     last (AIService.predictionHistory s') =
       Some (entry "maintenance-forecaster" 0 confidence)).
Proof.
  pose proof (recorded_confidence (list JS.num) unit noDerived inr
                (list JS.num) unit noDerived inr
                (fun _ => constWeights 0) zeroBatchNorm true zeroArtifact noFeatures
                sampleService 0) as (Hroute & _ & Hfuel & _ & Hmaint & _).
  split; [|split].
  - set (v := JS.Fin (1 / (1 + exp (- (0 + 0))))).
    destruct (Hroute (repeat (JS.Fin 0) 15) routeResult v v v v [] routeInstance_predict)
      as (optimization & s' & Hrun & Hrisk & Hlast).
    { change (BaseModel.prediction routeResult) with routeRaw.
      rewrite routeRaw_equal. reflexivity. }
    exists optimization, s', v. repeat split; assumption.
  - destruct (Hfuel (repeat (JS.Fin 0) 20) _ (JS.Fin 2) (JS.Fin 2) (JS.Fin 2) []
                (fuelInstance_predict 2 0 _ (repeat_finite 0 20)) eq_refl)
      as (fuel & s' & Hrun & _ & Hlast).
    exists fuel, s'. split; [exact Hrun|exact Hlast].
  - edestruct (Hmaint sampleInput) as (s' & Hrun & Hc & Hlast);
      [reflexivity|reflexivity|reflexivity|].
    eexists. exists s'. eexists. split; [exact Hrun|]. split; [reflexivity|].
    rewrite Hlast. reflexivity.
Defined.

(** On that run the recorded value is the raw risk output, which is below
    1, while the confidence that [predict] computed is 1 (the four raw
    components are equal). *)
Lemma recorded_risk_is_not_confidence :
  exists riskScore,
    BaseModel.predict (list JS.num) inr (AIService.routeOptimizer sampleService) 0
      (repeat (JS.Fin 0) 15) = inr routeResult /\
    last (AIService.predictionHistory (snd sampleRouteRun)) =
      Some (entry "route-optimizer" 0 (JS.Fin riskScore)) /\
    BaseModel.confidence routeResult = JS.Fin 1 /\
    JS.Fin riskScore <> BaseModel.confidence routeResult.
Proof.
  pose proof (sigmoid_range (0 + 0)) as Hv.
  exists (1 / (1 + exp (- (0 + 0)))).
  split; [exact routeInstance_predict|].
  set (v := 1 / (1 + exp (- (0 + 0)))) in *.
  assert (Hmax : Rmax v v = v) by (apply Rmax_left; lra).
  assert (Hmin : Rmin v v = v) by (apply Rmin_left; lra).
  assert (Hconf : BaseModel.confidence routeResult = JS.Fin 1).
  { change (BaseModel.confidence routeResult) with (BaseModel.calculateConfidence routeRaw).
    rewrite routeRaw_equal. fold v. change (repeat (JS.Fin v) 4) with (numbers [v; v; v; v]).
    rewrite confidence_formula; cbn [fold_left]; rewrite !Hmax, ?Hmin; [|lra].
    f_equal. replace (1 - (v - v) / v) with 1 by (field; lra).
    rewrite Rmin_left, Rmax_right by lra. reflexivity. }
  split; [|split].
  - unfold sampleRouteRun, AIService.optimizeRoute, RouteOptimizerModel.optimizeRoute.
    change (AIService.routeOptimizer sampleService) with routeInstance.
    rewrite routeInstance_predict.
    change (BaseModel.prediction routeResult) with routeRaw.
    rewrite routeRaw_equal. cbn [repeat snd AIService.record AIService.predictionHistory
      RouteOptimizerModel.weatherRiskScore].
    apply recordPrediction_last.
  - exact Hconf.
  - rewrite Hconf. intros E. injection E as E. lra.
Qed.

Lemma history_is_last_1000_witness :
  List.length (recordAll [] (repeat fuelEntry (10 * 1000))) = 1000%nat.
Proof.
  apply (proj1 (proj2 (proj2 (proj2 (history_is_last_1000 (repeat fuelEntry (10 * 1000))))))).
  apply List.repeat_length.
Defined.


(** * Further properties of the same sources *)

(** ** Life cycle of a model instance *)

(** X1: [initialize] either makes the instance ready (loaded, holding a model
    compiled with the configured learning rate, or with 0.001 when none is
    configured: the stored artifact when there is one, the freshly built
    network otherwise) or, when a stored
    artifact exists and cannot be loaded, fails with the loader's error and
    leaves the instance as it was; it never falls back to building a fresh
    network. *)
Theorem initialize_outcomes (buildModel : BaseModel.TfModel) (modelExists : bool)
    (loadLayersModel : Error + LayersModel) (m : BaseModel.t) :
  match BaseModel.initialize buildModel modelExists loadLayersModel m with
  | (None, m') =>
      BaseModel.isLoaded m' = true /\
      BaseModel.config m' = BaseModel.config m /\
      exists tm,
        BaseModel.model m' = Some tm /\
        BaseModel.optimizer tm
        = Some (BaseModel.orNumber (BaseModel.learningRate (BaseModel.config m)) (1 / 1000)) /\
        ((modelExists = false /\ BaseModel.layers tm = BaseModel.layers buildModel) \/
         (modelExists = true /\ loadLayersModel = inr (BaseModel.layers tm)))
  | (Some e, m') =>
      m' = m /\ modelExists = true /\ loadLayersModel = inl e
  end.
Proof.
  unfold BaseModel.initialize, BaseModel.loadModel.
  destruct modelExists.
  - destruct loadLayersModel as [e|ls].
    + repeat split.
    + cbn. repeat split. eexists. repeat split. right. split; reflexivity.
  - cbn. repeat split. eexists. repeat split. left. split; reflexivity.
Qed.

(** X2: after [dispose] the instance holds no model: [predict] fails with
    'Model not loaded', [train] with 'Model not initialized', [saveModel]
    with 'No model to save'; the configuration is kept and a second
    [dispose] changes nothing. *)
Theorem dispose_releases (Input : Type)
    (preprocessInput : Input -> Error + list JS.num)
    (fit : BaseModel.TfModel -> BaseModel.TrainingData -> nat -> nat -> R ->
           Error + (BaseModel.TfModel * BaseModel.History))
    (writeArtifact : BaseModel.ModelConfig -> BaseModel.TfModel -> option Error)
    (m : BaseModel.t) (now : Z) (input : Input) (data : BaseModel.TrainingData) :
  BaseModel.predict Input preprocessInput (BaseModel.dispose m) now input
    = inl (Err "Model not loaded") /\
  BaseModel.train fit writeArtifact (BaseModel.dispose m) data
    = (inl (Err "Model not initialized"), BaseModel.dispose m) /\
  BaseModel.saveModel writeArtifact (BaseModel.dispose m) = Some (Err "No model to save") /\
  BaseModel.config (BaseModel.dispose m) = BaseModel.config m /\
  BaseModel.dispose (BaseModel.dispose m) = BaseModel.dispose m.
Proof.
  unfold BaseModel.dispose, BaseModel.predict, BaseModel.train, BaseModel.saveModel.
  destruct (BaseModel.model m) as [tm|] eqn:Hm; cbn; rewrite ?Hm; repeat split.
Qed.

Lemma output_length_of_dense (ls : LayersModel) (n : nat) (a : Activation)
    (w : DenseWeights) (x : list JS.num) :
  List.length (model_predict (ls ++ [dense n a w]) x) = n.
Proof.
  rewrite model_predict_app. cbn [model_predict fold_left apply_layer].
  rewrite List.length_map, List.length_seq. reflexivity.
Qed.

Lemma built_output_lengths (w : nat -> DenseWeights) (bn : BatchNormWeights)
    (x : list JS.num) :
  List.length (model_predict (BaseModel.layers (RouteOptimizerModel.buildModel w)) x) = 4%nat /\
  List.length (model_predict (BaseModel.layers (FuelPredictorModel.buildModel w bn)) x) = 3%nat /\
  List.length (model_predict (BaseModel.layers (MaintenanceForecasterModel.buildModel w bn)) x)
    = 5%nat.
Proof.
  split; [apply route_output_range|]. split; [|apply maintenance_output_range].
  cbn [FuelPredictorModel.buildModel BaseModel.compile BaseModel.layers].
  rewrite last_layer_split9. apply output_length_of_dense.
Qed.

(** The instance that [initialize] leaves when no artifact is stored. *)
Lemma initialize_fresh (build : BaseModel.TfModel) (load : Error + LayersModel)
    (m : BaseModel.t) :
  BaseModel.initialize build false load m =
  (None, {| BaseModel.model :=
              Some (BaseModel.compile build
                      (BaseModel.orNumber (BaseModel.learningRate (BaseModel.config m))
                         (1 / 1000)));
            BaseModel.config := BaseModel.config m;
            BaseModel.isLoaded := true |}).
Proof. reflexivity. Qed.

(** X3: with no stored artifact, a newly constructed instance of each of
    the three models is ready after [initialize], and [predict] then
    succeeds on every input that [preprocessInput] accepts, with a raw
    vector of exactly the configured output length (4, 3 and 5). *)
Theorem fresh_instance_predicts (Input : Type)
    (preprocessInput : Input -> Error + list JS.num)
    (w : nat -> DenseWeights) (bn : BatchNormWeights) (load : Error + LayersModel)
    (now : Z) (input : Input) (features : list JS.num) :
  preprocessInput input = inr features ->
  let ready build cfg := snd (BaseModel.initialize build false load (BaseModel.new cfg)) in
  (exists p,
     BaseModel.predict Input preprocessInput
       (ready (RouteOptimizerModel.buildModel w) RouteOptimizerModel.config) now input = inr p /\
     List.length (BaseModel.prediction p)
       = BaseModel.outputShape RouteOptimizerModel.config) /\
  (exists p,
     BaseModel.predict Input preprocessInput
       (ready (FuelPredictorModel.buildModel w bn) FuelPredictorModel.config) now input = inr p /\
     List.length (BaseModel.prediction p)
       = BaseModel.outputShape FuelPredictorModel.config) /\
  (exists p,
     BaseModel.predict Input preprocessInput
       (ready (MaintenanceForecasterModel.buildModel w bn) MaintenanceForecasterModel.config)
       now input = inr p /\
     List.length (BaseModel.prediction p)
       = BaseModel.outputShape MaintenanceForecasterModel.config).
Proof.
  intros Hpre ready. subst ready. cbn beta.
  rewrite !initialize_fresh. cbn [snd].
  unfold BaseModel.predict. cbn [BaseModel.model BaseModel.isLoaded BaseModel.compile
    BaseModel.layers]. rewrite Hpre.
  destruct (built_output_lengths w bn features) as (Hr & Hf & Hm).
  split; [|split]; eexists; (split; [reflexivity|]); cbn [BaseModel.prediction].
  - exact Hr.
  - exact Hf.
  - exact Hm.
Qed.

Lemma fresh_instance_predicts_witness :
  exists p,
    BaseModel.predict (list JS.num) inr
      (snd (BaseModel.initialize (FuelPredictorModel.buildModel (fun _ => constWeights 0)
                                    zeroBatchNorm)
              false zeroArtifact (BaseModel.new FuelPredictorModel.config)))
      0 (repeat (JS.Fin 0) 20) = inr p /\
    List.length (BaseModel.prediction p) = 3%nat.
Proof.
  apply (fresh_instance_predicts (list JS.num) inr (fun _ => constWeights 0) zeroBatchNorm
           zeroArtifact 0 (repeat (JS.Fin 0) 20) (repeat (JS.Fin 0) 20)).
  reflexivity.
Defined.



(** ** The confidence heuristic in closed form *)

(** X5: for a raw vector with positive maximum the confidence is
    max(0, min(raw) / max(raw)); for a raw vector with negative maximum (all
    components negative) it is 1 whatever the spread. *)
Theorem confidence_closed_form (v : R) (vs : list R) :
  let hi := fold_left Rmax vs v in
  let lo := fold_left Rmin vs v in
  (0 < hi ->
   BaseModel.calculateConfidence (numbers (v :: vs)) = JS.Fin (Rmax 0 (lo / hi))) /\
  (hi < 0 -> BaseModel.calculateConfidence (numbers (v :: vs)) = JS.Fin 1).
Proof.
  intros hi lo.
  assert (Hle : lo <= hi).
  { pose proof (fold_Rmax_spec vs v) as [? _].
    pose proof (fold_Rmin_spec vs v) as [? _]. subst hi lo. lra. }
  split; intros Hhi; rewrite confidence_formula by (fold hi; lra); fold hi lo; f_equal.
  - replace (1 - (hi - lo) / hi) with (lo / hi) by (field; lra).
    assert (lo / hi <= 1).
    { apply (Rmult_le_reg_r hi); [lra|]. unfold Rdiv.
      rewrite Rmult_assoc, Rinv_l by lra. lra. }
    rewrite Rmin_right by lra. reflexivity.
  - assert (0 <= (hi - lo) / - hi).
    { apply Rmult_le_pos; [lra|]. left. apply Rinv_0_lt_compat. lra. }
    replace (1 - (hi - lo) / hi) with (1 + (hi - lo) / - hi) by (field; lra).
    rewrite Rmin_left by lra. apply Rmax_right. lra.
Qed.

Lemma confidence_closed_form_witness :
  BaseModel.calculateConfidence (numbers [1; 2])
  = JS.Fin (Rmax 0 (fold_left Rmin [2] 1 / fold_left Rmax [2] 1)) /\
  BaseModel.calculateConfidence (numbers [-1; -2]) = JS.Fin 1.
Proof.
  split.
  - apply (proj1 (confidence_closed_form 1 [2])).
    cbn [fold_left]. rewrite Rmax_right by lra. lra.
  - apply (proj2 (confidence_closed_form (-1) [-2])).
    cbn [fold_left]. rewrite Rmax_left by lra. lra.
Defined.

(** ** One history entry per orchestrated call *)

Lemma recordPrediction_length (now : Z) (h : list AIService.PredictionRecord)
    (name : string) (conf : JS.num) (ok : bool) :
  List.length (AIService.recordPrediction now h name conf ok)
  = Nat.min (List.length h + 1) 1000.
Proof.
  rewrite recordPrediction_slice, slice_last_length, List.length_app. reflexivity.
Qed.

Section OneEntryPerCall.

Variables RouteInput RouteDerived : Type.
Variable routeDerive : RouteInput -> JS.num -> JS.num -> JS.num -> RouteDerived.
Variable routePreprocess : RouteInput -> Error + list JS.num.
Variables FuelInput FuelDerived : Type.
Variable fuelDerive : FuelInput -> JS.num -> JS.num -> JS.num -> FuelDerived.
Variable fuelPreprocess : FuelInput -> Error + list JS.num.
Variable w : nat -> DenseWeights.
Variable bn : BatchNormWeights.
Variable modelExists : bool.
Variable loadLayersModel : Error + LayersModel.
Variable maintenancePreprocess : M.MaintenanceInput -> Error + list JS.num.

(** X6: each of [optimizeRoute], [predictFuelConsumption] and
    [predictMaintenance] of the service appends exactly one history entry,
    whether the model call returns or throws; the route and fuel calls leave
    the three model instances as they were, and the maintenance call leaves
    the other two. *)
Theorem one_entry_per_call (s : AIService.t) (now : Z) :
  (forall input,
     let out := AIService.optimizeRoute RouteInput RouteDerived routeDerive routePreprocess
                  s now input in
     appendsOne "route-optimizer" now s out /\
     AIService.routeOptimizer (snd out) = AIService.routeOptimizer s /\
     AIService.fuelPredictor (snd out) = AIService.fuelPredictor s /\
     AIService.maintenanceForecaster (snd out) = AIService.maintenanceForecaster s) /\
  (forall input,
     let out := AIService.predictFuelConsumption FuelInput FuelDerived fuelDerive
                  fuelPreprocess s now input in
     appendsOne "fuel-predictor" now s out /\
     AIService.routeOptimizer (snd out) = AIService.routeOptimizer s /\
     AIService.fuelPredictor (snd out) = AIService.fuelPredictor s /\
     AIService.maintenanceForecaster (snd out) = AIService.maintenanceForecaster s) /\
  (forall input,
     let out := AIService.predictMaintenance w bn modelExists loadLayersModel
                  maintenancePreprocess s now input in
     appendsOne "maintenance-forecaster" now s out /\
     AIService.routeOptimizer (snd out) = AIService.routeOptimizer s /\
     AIService.fuelPredictor (snd out) = AIService.fuelPredictor s).
Proof.
  split; [|split]; intros input out; subst out.
  - unfold AIService.optimizeRoute.
    destruct (RouteOptimizerModel.optimizeRoute _ _ _ _ input) as [e|o];
      cbn [fst snd succeeded AIService.record AIService.routeOptimizer
           AIService.fuelPredictor AIService.maintenanceForecaster];
      (split; [|repeat split]); unfold appendsOne;
      cbn [fst snd succeeded AIService.record AIService.predictionHistory];
      (split; [eexists; split; [apply recordPrediction_last|]|apply recordPrediction_length]).
    + reflexivity.
    + discriminate.
  - unfold AIService.predictFuelConsumption.
    destruct (FuelPredictorModel.predictFuelConsumption _ _ _ _ input) as [e|o];
      cbn [fst snd succeeded AIService.record AIService.routeOptimizer
           AIService.fuelPredictor AIService.maintenanceForecaster];
      (split; [|repeat split]); unfold appendsOne;
      cbn [fst snd succeeded AIService.record AIService.predictionHistory];
      (split; [eexists; split; [apply recordPrediction_last|]|apply recordPrediction_length]).
    + reflexivity.
    + discriminate.
  - unfold AIService.predictMaintenance.
    destruct (M.predictMaintenance _ _ _ _ _ _ now input) as [[e|mp] m'];
      cbn [fst snd succeeded AIService.record AIService.routeOptimizer
           AIService.fuelPredictor AIService.maintenanceForecaster];
      (split; [|repeat split]); unfold appendsOne;
      cbn [fst snd succeeded AIService.record AIService.predictionHistory];
      (split; [eexists; split; [apply recordPrediction_last|]|apply recordPrediction_length]).
    + reflexivity.
    + discriminate.
Qed.

End OneEntryPerCall.

(** ** Range of the evaluation scores *)

Lemma sum_confidence_bounds (l : list AIService.PredictionRecord) :
  Forall unitConfidence l ->
  0 <= fold_left (fun sum p => sum + confidenceValue p) l 0 <= INR (List.length l).
Proof.
  induction 1 as [|p l [c [Hc Hrange]] _ IH].
  - cbn. lra.
  - cbn [fold_left]. rewrite fold_plus_shift.
    change (List.length (p :: l)) with (S (List.length l)). rewrite S_INR.
    assert (Hv : confidenceValue p = c) by (unfold confidenceValue; now rewrite Hc).
    rewrite Hv. lra.
Qed.

Lemma unit_is_finite (l : list AIService.PredictionRecord) :
  Forall unitConfidence l -> Forall finiteConfidence l.
Proof.
  intros H. eapply List.Forall_impl; [|exact H].
  intros p [c [Hc _]]. now exists c.
Qed.

Lemma filter_length_le {A : Type} (f : A -> bool) (l : list A) :
  (List.length (List.filter f l) <= List.length l)%nat.
Proof.
  induction l as [|a l IH]; cbn [List.filter List.length]; [lia|].
  destruct (f a); cbn [List.length]; lia.
Qed.

Lemma score_unit (recent : list AIService.PredictionRecord) (name : string) :
  Forall unitConfidence recent ->
  exists sc, AIService.score recent name = JS.Fin sc /\ 0 <= sc <= 1.
Proof.
  intros Hall.
  set (mine := entriesOf name recent).
  assert (Hmine : Forall unitConfidence mine).
  { subst mine. unfold entriesOf.
    rewrite List.Forall_forall in Hall |- *. intros p Hp.
    apply List.filter_In in Hp. destruct Hp as [Hp _]. now apply Hall. }
  destruct mine as [|p l] eqn:E.
  - exists (5 / 10). split; [|lra]. now apply score_default.
  - eexists. split.
    + apply score_weighted; fold mine; rewrite E; [discriminate|].
      now apply unit_is_finite.
    + fold mine. rewrite E.
      pose proof (sum_confidence_bounds (p :: l) Hmine) as Hsum.
      pose proof (filter_length_le AIService.success (p :: l)) as Hcount.
      apply le_INR in Hcount.
      pose proof (pos_INR (List.length (List.filter AIService.success (p :: l)))) as Hpos.
      assert (Hn : 0 < INR (List.length (p :: l))).
      { apply lt_0_INR. cbn. lia. }
      unfold successRate, meanConfidence.
      set (n := INR (List.length (p :: l))) in *.
      set (k := INR (List.length (List.filter AIService.success (p :: l)))) in *.
      set (t := fold_left (fun sum p => sum + confidenceValue p) (p :: l) 0) in *.
      assert (0 <= k / n <= 1).
      { split; [apply Rmult_le_pos; [lra|left; now apply Rinv_0_lt_compat]|].
        apply (Rmult_le_reg_r n); [lra|]. unfold Rdiv.
        rewrite Rmult_assoc, Rinv_l by lra. lra. }
      assert (0 <= t / n <= 1).
      { split; [apply Rmult_le_pos; [lra|left; now apply Rinv_0_lt_compat]|].
        apply (Rmult_le_reg_r n); [lra|]. unfold Rdiv.
        rewrite Rmult_assoc, Rinv_l by lra. lra. }
      lra.
Qed.

Lemma slice_last_unit (n : nat) (history : list AIService.PredictionRecord) :
  Forall unitConfidence history -> Forall unitConfidence (AIService.slice_last n history).
Proof.
  intros Hall. unfold AIService.slice_last.
  rewrite List.Forall_forall in Hall |- *. intros p Hp.
  apply Hall. rewrite <- (List.firstn_skipn (List.length history - n) history).
  apply List.in_or_app. now right.
Qed.

(** X7: [evaluateModels] returns a score for the three model names and for
    no other key; when every recorded confidence is a number in [0,1], each
    score is a number in [0,1]. *)
Theorem evaluateModels_scores_in_unit_interval (history : list AIService.PredictionRecord) :
  (forall name, ~ In name AIService.modelNames ->
                AIService.evaluateModels history !! name = None) /\
  (Forall unitConfidence history ->
   forall name, In name AIService.modelNames ->
     exists sc, AIService.evaluateModels history !! name = Some (JS.Fin sc) /\
                0 <= sc <= 1).
Proof.
  split.
  - intros name Hname. unfold AIService.evaluateModels, AIService.modelNames in *.
    cbn [fold_left In] in *.
    rewrite !lookup_insert_ne by (intros E; apply Hname; rewrite E; tauto).
    apply lookup_empty.
  - intros Hall name Hname.
    rewrite (evaluateModels_lookup history name Hname).
    destruct (score_unit (AIService.slice_last 100 history) name
                (slice_last_unit 100 history Hall)) as [sc [Hsc Hrange]].
    exists sc. now rewrite Hsc.
Qed.

Lemma evaluateModels_scores_in_unit_interval_witness :
  exists sc, AIService.evaluateModels crowdedHistory !! "fuel-predictor"%string
             = Some (JS.Fin sc) /\ 0 <= sc <= 1.
Proof.
  apply (proj2 (evaluateModels_scores_in_unit_interval crowdedHistory)).
  - unfold crowdedHistory. constructor.
    + exists 1. split; [reflexivity|lra].
    + apply List.Forall_forall. intros p Hp. apply List.repeat_spec in Hp. subst p.
      exists 1. split; [reflexivity|lra].
  - cbn. auto.
Defined.

(** ** Validation and repetition of [preprocessInput] *)

Module StoreMore.
Import Store StoreSpec StoreFacts.

Lemma applyDefault_keeps (h : heap) (f : FieldDefault) (l : loc) :
  is_Some (h !! l) -> is_Some (applyDefault h f !! l).
Proof.
  intros Hl. unfold applyDefault, defaultField.
  destruct (fd_accepted f h _); [exact Hl|].
  cbn [alloc]. unfold setProp.
  destruct (<[fresh (dom h):=fd_literal f]> h !! fd_loc f) as [o|] eqn:Eo.
  - destruct (decide (l = fd_loc f)) as [->|Hne].
    + rewrite lookup_insert_eq. eauto.
    + rewrite lookup_insert_ne by congruence.
      destruct (decide (l = fresh (dom h))) as [->|Hne'].
      * rewrite lookup_insert_eq. eauto.
      * now rewrite lookup_insert_ne by congruence.
  - destruct (decide (l = fresh (dom h))) as [->|Hne'].
    + rewrite lookup_insert_eq. eauto.
    + now rewrite lookup_insert_ne by congruence.
Qed.

Lemma defaults_keep (F : list FieldDefault) (h : heap) (l : loc) :
  is_Some (h !! l) -> is_Some (fold_left applyDefault F h !! l).
Proof.
  revert h. induction F as [|f F IH]; intros h Hl; [exact Hl|].
  cbn [fold_left]. apply IH. now apply applyDefault_keeps.
Qed.

Lemma firstError_None (steps : list (option Error)) :
  firstError steps = None <-> List.Forall (fun r => r = None) steps.
Proof.
  induction steps as [|r steps IH].
  - split; [constructor|reflexivity].
  - rewrite List.Forall_cons_iff, <- IH. unfold firstError. cbn [fold_right].
    destruct r as [e|]; cbn [orElse].
    + split; [discriminate|intros [H _]; discriminate H].
    + tauto.
Qed.

Lemma firstError_app (l1 l2 : list (option Error)) :
  firstError (l1 ++ l2) = orElse (firstError l1) (firstError l2).
Proof.
  unfold firstError. induction l1 as [|r l1 IH]; [reflexivity|].
  cbn [List.app fold_right]. rewrite IH. now destruct r.
Qed.

Lemma readError_None (o : value) (k : string) :
  readError o k = None <-> nullish o = false.
Proof. destruct o; cbn; split; intros; try reflexivity; discriminate. Qed.

Lemma validatedHistory_None (history : list (option value)) :
  validatedHistory history = None <->
  forall v, In (Some v) history -> nullish v = false.
Proof.
  unfold validatedHistory. rewrite firstError_None, List.Forall_map, List.Forall_forall.
  split.
  - intros H v Hv. apply (readError_None v "date"). exact (H _ Hv).
  - intros H [v|] He; [|reflexivity]. apply readError_None. now apply H.
Qed.

Lemma averageInterval_None (history : list (option value)) :
  Store.calculateAverageMaintenanceInterval history = None <->
  ((2 <= List.length history)%nat -> forall e, In e history -> e <> None).
Proof.
  unfold Store.calculateAverageMaintenanceInterval.
  destruct (Nat.ltb_spec (List.length history) 2) as [Hlt|Hge].
  - split; [intros _ H; lia|reflexivity].
  - destruct (forallb present history) eqn:E.
    + split; [|reflexivity]. intros _ _ e He.
      rewrite List.forallb_forall in E. specialize (E e He).
      destruct e; [discriminate|discriminate E].
    + split; [discriminate|]. intros H. exfalso.
      assert (Hall : forallb present history = true).
      { apply List.forallb_forall. intros e He. specialize (H Hge e He).
        destruct e; [reflexivity|contradiction]. }
      congruence.
Qed.

Section Conversions.

Variable toPrimitive : heap -> loc -> option Error.

Abbreviation converts h := (fun v => coerce toPrimitive h v = None).

Lemma sumCosts_None (h : heap) (items : list (option value)) :
  sumCosts toPrimitive h items = None <-> List.Forall (converts h) (costsOf h items).
Proof.
  unfold sumCosts, costsOf. rewrite firstError_None.
  induction items as [|e items IH]; cbn [List.map omap list_omap].
  - split; constructor.
  - rewrite List.Forall_cons_iff, IH. destruct e as [v|].
    + rewrite List.Forall_cons_iff. tauto.
    + tauto.
Qed.

Lemma costTrend_None (h : heap) (history : list (option value)) :
  Store.calculateMaintenanceCostTrend toPrimitive h history = None <->
  List.Forall (converts h)
    (if (List.length history <? 3)%nat then []
     else costsOf h (skipn (List.length history - 3) history)
          ++ costsOf h (firstn 3 history)).
Proof.
  unfold Store.calculateMaintenanceCostTrend.
  destruct (List.length history <? 3)%nat.
  - split; [constructor|reflexivity].
  - rewrite List.Forall_app, <- !sumCosts_None.
    destruct (sumCosts toPrimitive h (skipn _ history)); cbn [orElse].
    + split; [discriminate|intros [H _]; discriminate H].
    + tauto.
Qed.

(** When the reads of the feature vector go through. *)
Lemma features_None (h : heap) (sh c u s : loc) :
  features toPrimitive h sh c u s = None <->
  usableHistory (elements h (getProp h c "maintenanceHistory")) /\
  nullish (getProp h c "operatingConditions") = false /\
  nullish (getProp h u "environmentalConditions") = false /\
  List.Forall (converts h) (converted h sh c u s).
Proof.
  unfold features, converted, usableHistory. cbv zeta.
  set (history := elements h (getProp h c "maintenanceHistory")).
  rewrite firstError_None.
  rewrite !List.Forall_app, !List.Forall_cons_iff.
  rewrite validatedHistory_None, averageInterval_None, costTrend_None.
  rewrite !readError_None.
  fold history.
  split.
  - intros (H1 & H2 & H3 & H4 & H5 & H6 & H7 & H8 & H9 & H10 & H11 & H12 & H13 & H14
            & H15 & H16 & H17 & H18 & H19 & H20 & H21 & _).
    repeat split; try assumption; constructor.
  - intros ((H1 & H2) & H10 & H17 & (H3 & H4 & H5 & H6 & H7 & H8 & _) & H9
            & (H11 & H12 & H13 & H14 & H15 & H16 & H18 & H19 & H20 & H21 & _)).
    repeat split; try assumption; constructor.
Qed.

Lemma preprocessInput_inv (h h' : heap) (d c s : loc) (r : option Error) :
  getProp h d "component" = VRef c ->
  getProp h d "sensors" = VRef s ->
  preprocessInput toPrimitive h (VRef d) = (r, h') ->
  pastValidation r ->
  exists sh u,
    getProp h d "ship" = VRef sh /\ getProp h d "usage" = VRef u /\
    h' = fold_left applyDefault (defaults c s) h /\
    r = features toPrimitive h' sh c u s /\
    is_Some (h !! d) /\ is_Some (h !! sh) /\ is_Some (h !! c) /\
    is_Some (h !! u) /\ is_Some (h !! s).
Proof.
  intros Hc Hs. unfold preprocessInput. rewrite Hc, Hs.
  destruct (negb (isObject h (VRef d))) eqn:Hd; [rejected|].
  destruct (negb (isObject h (getProp h d "ship"))) eqn:Hship; [rejected|].
  destruct (negb (isObject h (VRef c))) eqn:Hco; [rejected|].
  destruct (negb (isObject h (getProp h d "usage"))) eqn:Husage; [rejected|].
  destruct (negb (isObject h (VRef s))) eqn:Hso; [rejected|].
  destruct (getProp h d "ship") as [| | | | |sh]; [rejected..|].
  destruct (getProp h d "usage") as [| | | | |u]; [rejected..|].
  apply negb_false_iff, bool_decide_eq_true_1 in Hd, Hship, Hco, Husage, Hso.
  cbv zeta. intros E _. injection E as <- <-.
  exists sh, u. repeat split; assumption.
Qed.

(** X8: [preprocessInput] throws before assigning anything exactly when the
    request, or its ship, component, usage or sensors (tested in that
    order), is not an object, with the message of the first test that
    fails.  Otherwise it makes the six default assignments, every object
    of the store is still there afterwards, and it goes on to read the
    features out of the store it has left, which it leaves as it is.  It
    then returns exactly when the maintenance history has no [undefined]
    or [null] element and (for two or more entries) no hole, the operating
    conditions of the component and the environmental conditions of the
    usage are neither [undefined] nor [null], and every value that it
    turns into a number or a property key converts.  When the rest goes
    through and the operating conditions are missing it throws the
    TypeError of reading their averageLoad, and likewise for the
    environmental conditions and their saltWaterExposure. *)
Theorem preprocessInput_validation (h : heap) (data : value) :
  (isObject h data = false ->
   preprocessInput toPrimitive h data
   = (Some (Err "Invalid input: data must be an object"), h)) /\
  (forall d, data = VRef d -> isObject h data = true ->
     let part k := isObject h (getProp h d k) in
     (part "ship" = false ->
      preprocessInput toPrimitive h data
      = (Some (Err "Invalid input: ship data is required"), h)) /\
     (part "ship" = true -> part "component" = false ->
      preprocessInput toPrimitive h data
      = (Some (Err "Invalid input: component data is required"), h)) /\
     (part "ship" = true -> part "component" = true -> part "usage" = false ->
      preprocessInput toPrimitive h data
      = (Some (Err "Invalid input: usage data is required"), h)) /\
     (part "ship" = true -> part "component" = true -> part "usage" = true ->
      part "sensors" = false ->
      preprocessInput toPrimitive h data
      = (Some (Err "Invalid input: sensors data is required"), h)) /\
     (part "ship" = true -> part "component" = true -> part "usage" = true ->
      part "sensors" = true ->
      exists sh c u s h' r,
        getProp h d "ship" = VRef sh /\ getProp h d "component" = VRef c /\
        getProp h d "usage" = VRef u /\ getProp h d "sensors" = VRef s /\
        preprocessInput toPrimitive h data = (r, h') /\
        h' = fold_left applyDefault (defaults c s) h /\
        (forall l, is_Some (h !! l) -> is_Some (h' !! l)) /\
        let history := elements h' (getProp h' c "maintenanceHistory") in
        let operatingConditions := getProp h' c "operatingConditions" in
        let environmentalConditions := getProp h' u "environmentalConditions" in
        (r = None <->
         usableHistory history /\
         nullish operatingConditions = false /\
         nullish environmentalConditions = false /\
         List.Forall (converts h') (converted h' sh c u s)) /\
        (usableHistory history -> List.Forall (converts h') (converted h' sh c u s) ->
         (operatingConditions = VUndefined ->
          r = Some (Err "Cannot read properties of undefined (reading 'averageLoad')")) /\
         (operatingConditions = VNull ->
          r = Some (Err "Cannot read properties of null (reading 'averageLoad')")) /\
         (nullish operatingConditions = false -> environmentalConditions = VUndefined ->
          r = Some (Err "Cannot read properties of undefined (reading 'saltWaterExposure')")) /\
         (nullish operatingConditions = false -> environmentalConditions = VNull ->
          r = Some (Err "Cannot read properties of null (reading 'saltWaterExposure')"))))).
Proof.
  split.
  - intros Hd. unfold preprocessInput. destruct data; try reflexivity.
    now rewrite Hd.
  - intros d -> Hd part. subst part. cbn beta.
    unfold preprocessInput. rewrite Hd. cbn [negb].
    split; [intros ->; reflexivity|].
    split; [intros -> ->; reflexivity|].
    split; [intros -> -> ->; reflexivity|].
    split; [intros -> -> -> ->; reflexivity|].
    intros Hsh Hc Hu Hs. rewrite Hsh, Hc, Hu, Hs. cbn [negb].
    destruct (getProp h d "ship") as [| | | | |sh] eqn:Esh; try discriminate Hsh.
    destruct (getProp h d "component") as [| | | | |c] eqn:Ec; try discriminate Hc.
    destruct (getProp h d "usage") as [| | | | |u] eqn:Eu; try discriminate Hu.
    destruct (getProp h d "sensors") as [| | | | |s] eqn:Es; try discriminate Hs.
    cbv zeta.
    change (defaultField isObject defaultReadings s "lastReadings"
              (defaultField Array_isArray emptyArray s "efficiency"
                 (defaultField Array_isArray emptyArray s "pressure"
                    (defaultField Array_isArray emptyArray s "vibration"
                       (defaultField Array_isArray emptyArray s "temperature"
                          (defaultField Array_isArray emptyArray c "maintenanceHistory" h))))))
      with (fold_left applyDefault (defaults c s) h).
    set (h' := fold_left applyDefault (defaults c s) h).
    exists sh, c, u, s, h', (features toPrimitive h' sh c u s).
    do 6 (split; [reflexivity|]).
    split; [intros l Hl; now apply (defaults_keep (defaults c s))|].
    split; [apply features_None|].
    intros Hhist Hconv.
    assert (Hrun : features toPrimitive h' sh c u s
                   = orElse (readError (getProp h' c "operatingConditions") "averageLoad")
                            (readError (getProp h' u "environmentalConditions")
                                       "saltWaterExposure")).
    { destruct Hhist as [Hh1 Hh2].
      apply validatedHistory_None in Hh1. apply averageInterval_None in Hh2.
      unfold converted in Hconv. cbv zeta in Hconv.
      rewrite !List.Forall_app, !List.Forall_cons_iff in Hconv.
      destruct Hconv as ((H3 & H4 & H5 & H6 & H7 & H8 & _) & H9
            & (H11 & H12 & H13 & H14 & H15 & H16 & H18 & H19 & H20 & H21 & _)).
      apply costTrend_None in H9.
      unfold features. cbv zeta. cbn [firstError fold_right].
      rewrite Hh1, Hh2, H3, H4, H5, H6, H7, H8, H9, H11, H12, H13, H14, H15, H16,
        H18, H19, H20, H21.
      cbn [orElse].
      destruct (readError (getProp h' c "operatingConditions") "averageLoad");
        [reflexivity|].
      cbn [orElse].
      now destruct (readError (getProp h' u "environmentalConditions") "saltWaterExposure"). }
    rewrite Hrun.
    split; [intros ->; reflexivity|]. split; [intros ->; reflexivity|].
    split; intros Hoc ->; apply (readError_None _ "averageLoad") in Hoc;
      rewrite Hoc; reflexivity.
Qed.

End Conversions.

Lemma preprocessInput_validation_witness :
  preprocessInput plainObjects sampleHeap (VRef 2)
  = (Some (Err "Invalid input: ship data is required"), sampleHeap).
Proof.
  apply (proj2 (preprocessInput_validation plainObjects sampleHeap (VRef 2))
           2%positive eq_refl).
  - vm_compute. reflexivity.
  - vm_compute. reflexivity.
Defined.

Lemma isObject_frame (t : list (loc * string)) (h h' : heap) (v : value) :
  frame t h h' -> isObject h v = true -> isObject h' v = true.
Proof.
  intros Hfr Hv. destruct v as [| | | | |a]; try discriminate Hv.
  cbn [isObject] in *. apply bool_decide_eq_true_1 in Hv.
  apply bool_decide_eq_true_2. now apply (frame_is_Some t h h').
Qed.

Lemma defaults_identity (F : list FieldDefault) (h : heap) :
  List.Forall (fun f => fd_accepted f h (getProp h (fd_loc f) (fd_key f)) = true) F ->
  fold_left applyDefault F h = h.
Proof.
  induction 1 as [|f F Hf _ IH]; [reflexivity|].
  cbn [fold_left]. unfold applyDefault at 2, defaultField. rewrite Hf. exact IH.
Qed.

Lemma defaults_literals (c s : loc) :
  List.Forall (fun f => literalAccepted f /\ stable (fd_accepted f)) (defaults c s).
Proof.
  repeat constructor; try apply Array_isArray_stable; try apply isObject_stable;
    intros h l Hl; cbn [fd_accepted fd_literal Array_isArray isObject]; rewrite Hl;
    reflexivity.
Qed.

(** X9: a second run of [preprocessInput] on the same request changes
    nothing: after the first run each of the six properties passes its test,
    so no further object is created and no property is assigned, and the
    second run ends as the first did. *)
Theorem preprocessInput_twice (toPrimitive : heap -> loc -> option Error)
    (h h' : heap) (d c s : loc) (r : option Error) :
  getProp h d "component" = VRef c ->
  getProp h d "sensors" = VRef s ->
  List.Forall (notDangling h) (defaults c s) ->
  preprocessInput toPrimitive h (VRef d) = (r, h') ->
  pastValidation r ->
  preprocessInput toPrimitive h' (VRef d) = (r, h').
Proof.
  intros Hc Hs Hdang Hrun Hpast.
  destruct (preprocessInput_inv toPrimitive h h' d c s r Hc Hs Hrun Hpast)
    as (sh & u & Hsh & Hu & Hh' & Hr & Hd & Hsho & Hco & Huo & Hso).
  destruct (defaults_fold (defaults c s) h) as [Hfr Hout].
  { cbn [defaults List.map fieldOf fd_loc fd_key].
    repeat (constructor; [cbn [In]; intros Hin;
                          repeat (destruct Hin as [Hin|Hin]; [discriminate Hin|]);
                          exact Hin|]).
    constructor. }
  { pose proof (defaults_literals c s) as Hlit.
    rewrite List.Forall_forall in Hdang, Hlit |- *. intros f Hf.
    split; [|split; [|split; [now apply Hdang|now apply Hlit]]].
    - cbn [defaults In] in Hf.
      repeat (destruct Hf as [<-|Hf]; [assumption|]). destruct Hf.
    - cbn [defaults In] in Hf.
      repeat (destruct Hf as [<-|Hf]; [discriminate|]). destruct Hf. }
  rewrite <- Hh' in Hfr, Hout.
  assert (Hkey : forall k, In k ["ship"; "component"; "usage"; "sensors"]%string ->
                           getProp h' d k = getProp h d k).
  { intros k Hk. apply (frame_getProp _ h h' d k Hfr Hd).
    cbn [defaults List.map fieldOf fd_loc fd_key In].
    cbn [In] in Hk. intros Hin.
    repeat (destruct Hk as [<-|Hk];
            [repeat (destruct Hin as [Hin|Hin]; [discriminate Hin|]); exact Hin|]).
    exact Hk. }
  assert (Hacc : List.Forall
                   (fun f => fd_accepted f h' (getProp h' (fd_loc f) (fd_key f)) = true)
                   (defaults c s)).
  { pose proof (defaults_literals c s) as Hlit.
    rewrite List.Forall_forall in Hout, Hdang, Hlit |- *. intros f Hf.
    specialize (Hout f Hf). specialize (Hdang f Hf).
    destruct (Hlit f Hf) as [Hl Hst]. unfold outcome in Hout.
    destruct (fd_accepted f h (getProp h (fd_loc f) (fd_key f))) eqn:Ha.
    - rewrite Hout, <- Ha. apply (Hst _ h h' _ Hfr). exact Hdang.
    - destruct Hout as (l' & _ & Hprop & Hobj). rewrite Hprop. now apply Hl. }
  unfold preprocessInput.
  rewrite !Hkey by (cbn; tauto). rewrite Hsh, Hc, Hu, Hs.
  assert (Hobj : forall l, is_Some (h !! l) -> isObject h' (VRef l) = true).
  { intros l Hl. apply (isObject_frame _ h h' _ Hfr). now apply bool_decide_eq_true_2. }
  rewrite (Hobj d Hd), (Hobj sh Hsho), (Hobj c Hco), (Hobj u Huo), (Hobj s Hso).
  cbn [negb]. cbv zeta.
  change (defaultField isObject defaultReadings s "lastReadings"
            (defaultField Array_isArray emptyArray s "efficiency"
               (defaultField Array_isArray emptyArray s "pressure"
                  (defaultField Array_isArray emptyArray s "vibration"
                     (defaultField Array_isArray emptyArray s "temperature"
                        (defaultField Array_isArray emptyArray c "maintenanceHistory" h'))))))
    with (fold_left applyDefault (defaults c s) h').
  rewrite (defaults_identity _ _ Hacc). now rewrite <- Hr.
Qed.

Lemma preprocessInput_twice_witness :
  exists h',
    preprocessInput plainObjects sampleHeap (VRef 1) = (None, h') /\
    preprocessInput plainObjects h' (VRef 1) = (None, h').
Proof.
  eexists. split; [vm_compute; reflexivity|].
  apply (preprocessInput_twice plainObjects sampleHeap _ 1 3 5 None).
  - vm_compute. reflexivity.
  - vm_compute. reflexivity.
  - repeat constructor; intros a Ha; vm_compute in Ha; try discriminate Ha;
      injection Ha as <-; eexists; vm_compute; reflexivity.
  - vm_compute. reflexivity.
  - exact I.
Defined.

End StoreMore.

(** ** Maintenance features, scores and schedules *)

Lemma slice_last_exact {A : Type} (n : nat) (l : list A) :
  (n <= List.length l)%nat -> List.length (MD.slice_last n l) = n.
Proof. intros H. unfold MD.slice_last. rewrite List.length_skipn. lia. Qed.

Lemma slice_last_all {A : Type} (n : nat) (l : list A) :
  (List.length l <= n)%nat -> MD.slice_last n l = l.
Proof.
  intros H. unfold MD.slice_last.
  replace (List.length l - n)%nat with 0%nat by lia. reflexivity.
Qed.

Lemma costTrend_unfold (history : list M.MaintenanceEvent) :
  (3 <= List.length history)%nat ->
  MD.calculateMaintenanceCostTrend history =
  MD.clampTrend (JS.div (JS.Fin (recentCostAvg history - earlierCostAvg history))
                        (JS.Fin (earlierCostAvg history))).
Proof.
  intros Hlen. unfold MD.calculateMaintenanceCostTrend.
  destruct (Nat.ltb_spec (List.length history) 3) as [Hlt|_]; [lia|].
  cbv zeta. unfold MD.slice_first, recentCostAvg, earlierCostAvg.
  rewrite !List.length_map, slice_last_exact, List.length_firstn by exact Hlen.
  replace (Nat.min 3 (List.length history)) with 3%nat by lia.
  replace (INR 3) with 3 by (simpl; lra). reflexivity.
Qed.

(** X10: [calculateMaintenanceCostTrend] is 0 for fewer than three events.
    For three or more, when the mean cost of the first three events is not
    zero it is the relative change of the mean cost of the last three,
    clamped to [-1,1] (so it is 0 for exactly three events); when that mean
    is zero it is 1, -1 or NaN according to whether the mean of the last
    three is positive, negative or zero too. *)
Theorem costTrend_cases (history : list M.MaintenanceEvent) :
  let earlier := earlierCostAvg history in
  let recent := recentCostAvg history in
  ((List.length history < 3)%nat ->
   MD.calculateMaintenanceCostTrend history = JS.Fin 0) /\
  ((3 <= List.length history)%nat -> earlier <> 0 ->
   MD.calculateMaintenanceCostTrend history
     = JS.Fin (Rmin 1 (Rmax (-1) ((recent - earlier) / earlier))) /\
   -1 <= Rmin 1 (Rmax (-1) ((recent - earlier) / earlier)) <= 1) /\
  (List.length history = 3%nat -> earlier <> 0 ->
   MD.calculateMaintenanceCostTrend history = JS.Fin 0) /\
  ((3 <= List.length history)%nat -> earlier = 0 ->
   (recent > 0 -> MD.calculateMaintenanceCostTrend history = JS.Fin 1) /\
   (recent < 0 -> MD.calculateMaintenanceCostTrend history = JS.Fin (-1)) /\
   (recent = 0 -> MD.calculateMaintenanceCostTrend history = JS.NaN)).
Proof.
  intros earlier recent.
  assert (Hfin : (3 <= List.length history)%nat -> earlier <> 0 ->
                 MD.calculateMaintenanceCostTrend history
                 = JS.Fin (Rmin 1 (Rmax (-1) ((recent - earlier) / earlier)))).
  { intros Hlen Hne. rewrite costTrend_unfold by exact Hlen.
    fold earlier recent. rewrite div_finite by exact Hne. reflexivity. }
  split; [|split; [|split]].
  - intros Hlt. unfold MD.calculateMaintenanceCostTrend.
    destruct (Nat.ltb_spec (List.length history) 3); [reflexivity|lia].
  - intros Hlen Hne. split; [now apply Hfin|].
    split.
    + apply Rmin_glb; [lra|apply Rmax_l].
    + apply Rmin_l.
  - intros Hlen Hne. rewrite Hfin by (exact Hne || lia).
    assert (Hsame : recent = earlier).
    { subst recent earlier. unfold recentCostAvg, earlierCostAvg.
      rewrite slice_last_all by lia. rewrite List.firstn_all2 by lia. reflexivity. }
    rewrite Hsame. replace ((earlier - earlier) / earlier) with 0 by (field; exact Hne).
    rewrite Rmax_right, Rmin_right by lra. reflexivity.
  - intros Hlen Hz. rewrite costTrend_unfold by exact Hlen.
    fold earlier recent. rewrite Hz.
    replace (recent - 0) with recent by lra.
    unfold MD.clampTrend. cbn [JS.div]. unfold JS.Reqb, JS.Rltb.
    destruct (Req_dec_T 0 0) as [_|Hn]; [|lra].
    split; [|split]; intros Hr.
    + destruct (Req_dec_T recent 0); [lra|].
      destruct (Rlt_dec 0 recent); [reflexivity|lra].
    + destruct (Req_dec_T recent 0); [lra|].
      destruct (Rlt_dec 0 recent); [lra|].
      cbn [JS.max JS.min]. now rewrite Rmin_right by lra.
    + destruct (Req_dec_T recent 0); [reflexivity|lra].
Qed.

Lemma costTrend_cases_witness :
  MD.calculateMaintenanceCostTrend (M.maintenanceHistory (M.component sampleInput))
    = JS.Fin 0 /\
  MD.calculateMaintenanceCostTrend [sampleEvent 0; sampleEvent 1; sampleEvent 2] = JS.Fin 0.
Proof.
  split.
  - apply (proj1 (costTrend_cases _)). cbn. lia.
  - apply (proj1 (proj2 (proj2 (costTrend_cases
             [sampleEvent 0; sampleEvent 1; sampleEvent 2])))).
    + reflexivity.
    + unfold earlierCostAvg, MD.sum. cbn. lra.
Defined.

Lemma valid_values (values : list JS.num) :
  Forall noInfinity values ->
  List.filter (fun v => negb (JS.isNaN v)) values = List.map JS.Fin (finiteValues values).
Proof.
  induction 1 as [|v values Hv _ IH]; [reflexivity|].
  destruct v; cbn [List.filter JS.isNaN negb finiteValues List.map];
    try contradiction; now rewrite IH.
Qed.

Lemma finiteValues_map (rs : list R) : finiteValues (List.map JS.Fin rs) = rs.
Proof. induction rs as [|r rs IH]; [reflexivity|]. cbn. now rewrite IH. Qed.

Lemma finite_noInfinity (rs : list R) : Forall noInfinity (List.map JS.Fin rs).
Proof.
  apply List.Forall_forall. intros v Hv. apply List.in_map_iff in Hv.
  destruct Hv as [r [<- _]]. exact I.
Qed.

Lemma add_finite (l : list R) (a : R) :
  fold_left JS.add (List.map JS.Fin l) (JS.Fin a)
  = JS.Fin (fold_left (fun sum x => sum + x) l a).
Proof.
  revert a. induction l as [|x l IH]; intros a; [reflexivity|].
  cbn [List.map fold_left JS.add]. apply IH.
Qed.

Lemma average_finite (l : list R) :
  l <> [] ->
  MD.average (List.map JS.Fin l) = JS.Fin (MD.sum l / INR (List.length l)).
Proof.
  intros Hne. unfold MD.average. rewrite add_finite, List.length_map.
  apply div_finite. apply not_0_INR. destruct l; [contradiction|discriminate].
Qed.

Lemma slice_last_map {A B : Type} (f : A -> B) (n : nat) (l : list A) :
  MD.slice_last n (List.map f l) = List.map f (MD.slice_last n l).
Proof. unfold MD.slice_last. now rewrite List.length_map, List.skipn_map. Qed.

Lemma trend_of_finite (rs : list R) :
  (3 <= List.length rs)%nat ->
  let recent := MD.sum (MD.slice_last 5 rs) / INR (List.length (MD.slice_last 5 rs)) in
  let earlier := MD.sum (firstn 5 rs) / INR (List.length (firstn 5 rs)) in
  MD.calculateTrend (List.map JS.Fin rs) =
  if JS.Reqb earlier 0 then JS.Fin 0
  else JS.Fin (Rmin 1 (Rmax (-1) ((recent - earlier) / earlier))).
Proof.
  intros Hlen recent earlier. unfold MD.calculateTrend.
  rewrite (valid_values (List.map JS.Fin rs)) by apply finite_noInfinity.
  rewrite finiteValues_map. cbv zeta. rewrite List.length_map.
  destruct (Nat.ltb_spec (List.length rs) 3) as [Hlt|_]; [lia|].
  unfold MD.slice_first. rewrite slice_last_map, List.firstn_map, !List.length_map.
  assert (Hr : MD.slice_last 5 rs <> []).
  { intros E. apply (f_equal (@List.length R)) in E.
    unfold MD.slice_last in E. rewrite List.length_skipn in E.
    change (List.length (@nil R)) with 0%nat in E. lia. }
  assert (He : firstn 5 rs <> []).
  { intros E. apply (f_equal (@List.length R)) in E.
    rewrite List.length_firstn in E.
    change (List.length (@nil R)) with 0%nat in E. lia. }
  destruct (Nat.eqb_spec (List.length (MD.slice_last 5 rs)) 0) as [E|_].
  { destruct (MD.slice_last 5 rs); [contradiction|discriminate]. }
  destruct (Nat.eqb_spec (List.length (firstn 5 rs)) 0) as [E|_].
  { destruct (firstn 5 rs); [contradiction|discriminate]. }
  cbn [orb]. rewrite !average_finite by assumption.
  fold recent earlier. cbn [MD.isZero].
  destruct (JS.Reqb earlier 0) eqn:Ez; [reflexivity|].
  cbn [JS.sub]. rewrite div_finite; [reflexivity|].
  unfold JS.Reqb in Ez. destruct (Req_dec_T earlier 0); [discriminate|assumption].
Qed.

(** X11: on an array of readings without infinities, [calculateTrend] (the
    trend of [calculateSensorTrends]) is always a number in [-1,1]; it is 0
    when fewer than three readings are valid, and also whenever at most
    five are, because the two windows of five then coincide. *)
Theorem sensorTrend_bounded (values : list JS.num) :
  Forall noInfinity values ->
  (exists t, MD.calculateTrend values = JS.Fin t /\ -1 <= t <= 1) /\
  ((List.length (finiteValues values) <= 5)%nat -> MD.calculateTrend values = JS.Fin 0).
Proof.
  intros Hfin.
  assert (Hsame : MD.calculateTrend values
                  = MD.calculateTrend (List.map JS.Fin (finiteValues values))).
  { unfold MD.calculateTrend. rewrite (valid_values values Hfin).
    rewrite (valid_values (List.map JS.Fin (finiteValues values)))
      by apply finite_noInfinity.
    now rewrite finiteValues_map. }
  rewrite Hsame. set (rs := finiteValues values).
  destruct (Nat.lt_ge_cases (List.length rs) 3) as [Hlt|Hge].
  - assert (Hz : MD.calculateTrend (List.map JS.Fin rs) = JS.Fin 0).
    { unfold MD.calculateTrend.
      rewrite (valid_values (List.map JS.Fin rs)) by apply finite_noInfinity.
      rewrite finiteValues_map, List.length_map. destruct (Nat.ltb_spec (List.length rs) 3); [reflexivity|lia]. }
    rewrite Hz. split; [exists 0; split; [reflexivity|lra]|reflexivity].
  - rewrite (trend_of_finite rs Hge).
    split.
    + destruct (JS.Reqb _ 0).
      * exists 0. split; [reflexivity|lra].
      * eexists. split; [reflexivity|]. split.
        -- apply Rmin_glb; [lra|apply Rmax_l].
        -- apply Rmin_l.
    + intros Hfive. rewrite slice_last_all, List.firstn_all2 by lia.
      destruct (JS.Reqb _ 0) eqn:Ez; [reflexivity|].
      unfold JS.Reqb in Ez.
      destruct (Req_dec_T (MD.sum rs / INR (List.length rs)) 0) as [|Hne]; [discriminate|].
      f_equal.
      replace ((MD.sum rs / INR (List.length rs) - MD.sum rs / INR (List.length rs))
               / (MD.sum rs / INR (List.length rs))) with 0.
      * rewrite Rmax_right, Rmin_right by lra. reflexivity.
      * unfold Rminus. rewrite Rplus_opp_r. unfold Rdiv at 1. now rewrite Rmult_0_l.
Qed.

Lemma sensorTrend_bounded_witness :
  (exists t, MD.calculateTrend [JS.Fin 60; JS.NaN; JS.Fin 61; JS.Fin 65; JS.Fin 70] = JS.Fin t
             /\ -1 <= t <= 1) /\
  MD.calculateTrend [JS.Fin 60; JS.NaN; JS.Fin 61; JS.Fin 65; JS.Fin 70] = JS.Fin 0.
Proof.
  destruct (sensorTrend_bounded [JS.Fin 60; JS.NaN; JS.Fin 61; JS.Fin 65; JS.Fin 70])
    as [Hb Hz].
  - repeat constructor.
  - split; [exact Hb|]. apply Hz. cbn. lia.
Defined.

(** X12: each of the five factor scores is at most 1; for inputs whose
    quantities are non-negative and whose last efficiency reading is at
    most 1, each score lies in [0,1]. *)
Theorem factorScores_bounded (input : M.MaintenanceInput) :
  let fs := MD.calculateFactorScores input in
  (MD.ageScore fs <= 1 /\ MD.usageScore fs <= 1 /\ MD.conditionScore fs <= 1 /\
   MD.historyScore fs <= 1 /\ MD.sensorScore fs <= 1) /\
  (0 <= M.age (M.ship input) ->
   0 <= M.dailyOperatingHours (M.usage input) ->
   0 <= M.voyagesPerMonth (M.usage input) ->
   0 <= M.roughSeaExposure (M.environmentalConditions (M.usage input)) ->
   0 <= M.averageLoad (M.operatingConditions (M.component input)) ->
   0 <= M.oc_vibration (M.operatingConditions (M.component input)) ->
   0 <= M.oc_temperature (M.operatingConditions (M.component input)) ->
   M.r_efficiency (M.lastReadings (M.sensors input)) <= 1 ->
   0 <= M.r_vibration (M.lastReadings (M.sensors input)) ->
   0 <= M.r_temperature (M.lastReadings (M.sensors input)) ->
   0 <= MD.ageScore fs /\ 0 <= MD.usageScore fs /\ 0 <= MD.conditionScore fs /\
   0 <= MD.historyScore fs /\ 0 <= MD.sensorScore fs).
Proof.
  intros fs. subst fs. unfold MD.calculateFactorScores.
  cbn [MD.ageScore MD.usageScore MD.conditionScore MD.historyScore MD.sensorScore].
  split.
  - repeat split; apply Rmin_l.
  - intros. pose proof (pos_INR (List.length (M.maintenanceHistory (M.component input)))).
    repeat split; apply Rmin_glb; lra.
Qed.

Lemma factorScores_bounded_witness :
  0 <= MD.ageScore (MD.calculateFactorScores sampleInput) /\
  0 <= MD.usageScore (MD.calculateFactorScores sampleInput) /\
  0 <= MD.conditionScore (MD.calculateFactorScores sampleInput) /\
  0 <= MD.historyScore (MD.calculateFactorScores sampleInput) /\
  0 <= MD.sensorScore (MD.calculateFactorScores sampleInput).
Proof.
  apply (proj2 (factorScores_bounded sampleInput)); cbn; lra.
Defined.









Lemma baseCost_positive (c : M.ComponentType) (t : M.MaintenanceType) :
  0 < M.calculateBaseCost c t /\ 0 < M.calculateBaseDowntime c t.
Proof. destruct c, t; cbn; lra. Qed.

(** X14: for every component type the base cost and the base downtime grow
    strictly from preventive to corrective to emergency; and a prediction
    whose cost and downtime factors lie in [0,1] (as the sigmoid output
    layer yields them) has an estimated cost between the base cost of its
    maintenance type and 1.5 times it, and an estimated downtime between
    the base downtime and 1.4 times it. *)
Theorem cost_and_downtime_bands (now : Z) (input : M.MaintenanceInput)
    (p : BaseModel.PredictionResult) (risk f c d u : R) :
  (forall k,
     M.calculateBaseCost k M.preventive < M.calculateBaseCost k M.corrective
       < M.calculateBaseCost k M.emergency /\
     M.calculateBaseDowntime k M.preventive < M.calculateBaseDowntime k M.corrective
       < M.calculateBaseDowntime k M.emergency) /\
  (BaseModel.prediction p = numbers [risk; f; c; d; u] ->
   0 <= c <= 1 -> 0 <= d <= 1 ->
   exists mp cost downtime,
     M.postprocess now input p = inr mp /\
     M.estimatedCost mp = JS.Fin cost /\
     M.estimatedDowntime mp = JS.Fin downtime /\
     let baseCost :=
       M.calculateBaseCost (M.component_type (M.component input)) (M.maintenanceType mp) in
     let baseDowntime :=
       M.calculateBaseDowntime (M.component_type (M.component input)) (M.maintenanceType mp) in
     baseCost <= cost <= baseCost * (15 / 10) /\
     baseDowntime <= downtime <= baseDowntime * (14 / 10)).
Proof.
  split.
  - intros k. destruct k; cbn; lra.
  - intros Hraw Hc Hd.
    destruct (postprocess_five now input p risk f c d u Hraw)
      as (mp & Hpost & _ & Htype & _ & _ & _ & Hcost & Hdown).
    exists mp. eexists. eexists. split; [exact Hpost|].
    split; [exact Hcost|]. split; [exact Hdown|].
    rewrite Htype.
    destruct (baseCost_positive (M.component_type (M.component input))
                (M.selectMaintenanceType (JS.Fin risk) (JS.Fin u))) as [Hcost' Hdown'].
    cbv zeta. nra.
Qed.

Lemma cost_and_downtime_bands_witness :
  exists mp cost downtime,
    M.postprocess 0 sampleInput (withRaw (numbers [7 / 10; 5 / 10; 1 / 2; 1 / 2; 0]))
    = inr mp /\
    M.estimatedCost mp = JS.Fin cost /\
    M.estimatedDowntime mp = JS.Fin downtime /\
    let baseCost :=
      M.calculateBaseCost (M.component_type (M.component sampleInput)) (M.maintenanceType mp) in
    let baseDowntime :=
      M.calculateBaseDowntime (M.component_type (M.component sampleInput))
        (M.maintenanceType mp) in
    baseCost <= cost <= baseCost * (15 / 10) /\
    baseDowntime <= downtime <= baseDowntime * (14 / 10).
Proof.
  apply (proj2 (cost_and_downtime_bands 0 sampleInput
                  (withRaw (numbers [7 / 10; 5 / 10; 1 / 2; 1 / 2; 0])) (7 / 10) (5 / 10)
                  (1 / 2) (1 / 2) 0)); [reflexivity|lra|lra].
Defined.


(** ** Route geometry *)

Lemma sin_half_sqr (x : R) : sin (x / 2) * sin (x / 2) = (1 - cos x) / 2.
Proof.
  replace x with (2 * (x / 2)) at 3 by field.
  rewrite cos_2a_sin. field.
Qed.

Lemma unit_dot_bound (s1 c1 s2 c2 k : R) :
  s1 * s1 + c1 * c1 = 1 -> s2 * s2 + c2 * c2 = 1 -> -1 <= k <= 1 ->
  -1 <= s1 * s2 + c1 * c2 * k <= 1.
Proof.
  intros H1 H2 Hk.
  pose proof (Rle_0_sqr (s1 - s2)) as A1. pose proof (Rle_0_sqr (c1 - c2 * k)) as A2.
  pose proof (Rle_0_sqr (s1 + s2)) as B1. pose proof (Rle_0_sqr (c1 + c2 * k)) as B2.
  pose proof (Rle_0_sqr c2) as C.
  assert (D : 0 <= 1 - k * k) by nra.
  pose proof (Rmult_le_pos _ _ C D) as E.
  unfold Rsqr in *. split; nra.
Qed.

Lemma haversine_dot (p q : RG.Point) :
  RG.haversine p q =
  (1 - (sin (RG.latitude p * PI / 180) * sin (RG.latitude q * PI / 180)
        + cos (RG.latitude p * PI / 180) * cos (RG.latitude q * PI / 180)
          * cos ((RG.longitude q - RG.longitude p) * PI / 180))) / 2.
Proof.
  unfold RG.haversine. cbv zeta.
  set (a := RG.latitude p * PI / 180). set (b := RG.latitude q * PI / 180).
  set (l := (RG.longitude q - RG.longitude p) * PI / 180).
  replace ((RG.latitude q - RG.latitude p) * PI / 180) with (b - a)
    by (subst a b; field).
  rewrite Rmult_assoc, !sin_half_sqr, cos_minus. field.
Qed.

Lemma haversine_range (p q : RG.Point) : 0 <= RG.haversine p q <= 1.
Proof.
  rewrite haversine_dot.
  set (a := RG.latitude p * PI / 180). set (b := RG.latitude q * PI / 180).
  set (l := (RG.longitude q - RG.longitude p) * PI / 180).
  pose proof (unit_dot_bound (sin a) (cos a) (sin b) (cos b) (cos l)) as H.
  pose proof (sin2_cos2 a) as Ha. pose proof (sin2_cos2 b) as Hb.
  unfold Rsqr in Ha, Hb. pose proof (COS_bound l) as Hl.
  specialize (H Ha Hb Hl). lra.
Qed.

Lemma atan_nonneg (x : R) : 0 <= x -> 0 <= atan x.
Proof.
  intros [Hx|<-].
  - left. rewrite <- atan_0. now apply atan_increasing.
  - rewrite atan_0. lra.
Qed.

Lemma atan2_quadrant (y x : R) :
  0 <= y -> 0 <= x -> 0 <= RG.Math_atan2 y x <= PI / 2.
Proof.
  intros Hy Hx. unfold RG.Math_atan2, JS.Rltb.
  pose proof PI_RGT_0 as Hpi.
  destruct (Rlt_dec 0 x) as [Hpos|Hn].
  - assert (0 <= y / x).
    { apply Rmult_le_pos; [exact Hy|]. left. now apply Rinv_0_lt_compat. }
    pose proof (atan_bound (y / x)). pose proof (atan_nonneg (y / x)). lra.
  - destruct (Rlt_dec x 0); [lra|].
    destruct (Rlt_dec 0 y); [lra|].
    destruct (Rlt_dec y 0); lra.
Qed.

Lemma distance_range (p q : RG.Point) :
  0 <= RG.calculateDistance p q <= RG.earthRadius * PI.
Proof.
  pose proof (haversine_range p q) as Ha.
  unfold RG.calculateDistance. cbv zeta.
  pose proof (atan2_quadrant (sqrt (RG.haversine p q)) (sqrt (1 - RG.haversine p q))
                (sqrt_pos _) (sqrt_pos _)) as Hc.
  unfold RG.earthRadius. pose proof PI_RGT_0. nra.
Qed.

(** X16: [calculateDistance] is symmetric in its two points, and it is 0
    from a point to itself. *)
Theorem calculateDistance_properties (p q : RG.Point) :
  RG.calculateDistance p q = RG.calculateDistance q p /\
  RG.calculateDistance p p = 0.
Proof.
  split.
  - unfold RG.calculateDistance. cbv zeta.
    assert (Hsym : RG.haversine p q = RG.haversine q p).
    { rewrite !haversine_dot.
      replace ((RG.longitude p - RG.longitude q) * PI / 180)
        with (- ((RG.longitude q - RG.longitude p) * PI / 180)) by field.
      rewrite cos_neg. field. }
    now rewrite Hsym.
  - unfold RG.calculateDistance. cbv zeta.
    assert (Hz : RG.haversine p p = 0).
    { rewrite haversine_dot.
      replace ((RG.longitude p - RG.longitude p) * PI / 180) with 0 by field.
      rewrite cos_0. pose proof (sin2_cos2 (RG.latitude p * PI / 180)) as H.
      unfold Rsqr in H. lra. }
    rewrite Hz, sqrt_0. replace (1 - 0) with 1 by lra. rewrite sqrt_1.
    unfold RG.Math_atan2, JS.Rltb. destruct (Rlt_dec 0 1); [|lra].
    replace (0 / 1) with 0 by field. rewrite atan_0. lra.
Qed.

Lemma totalDistance_nonneg (r : list RG.Point) : 0 <= RG.calculateTotalRouteDistance r.
Proof.
  induction r as [|p0 [|p1 rest] IH]; cbn [RG.calculateTotalRouteDistance]; try lra.
  pose proof (distance_range p0 p1) as [H _].
  cbn [RG.calculateTotalRouteDistance] in IH. lra.
Qed.

Lemma totalDistance_snoc (r : list RG.Point) (p q : RG.Point) :
  RG.calculateTotalRouteDistance (r ++ [p; q])
  = RG.calculateTotalRouteDistance (r ++ [p]) + RG.calculateDistance p q.
Proof.
  induction r as [|a r IH]; [cbn; lra|].
  destruct r as [|b r].
  - cbn. lra.
  - cbn [List.app RG.calculateTotalRouteDistance] in *. rewrite IH. lra.
Qed.

(** X17: the total distance of a route is 0 for fewer than two points, is
    the distance itself for two points, is never negative, and grows by the
    length of the new leg when a waypoint is appended. *)
Theorem totalRouteDistance_properties (r : list RG.Point) (p q : RG.Point) :
  RG.calculateTotalRouteDistance [] = 0 /\
  RG.calculateTotalRouteDistance [p] = 0 /\
  RG.calculateTotalRouteDistance [p; q] = RG.calculateDistance p q /\
  0 <= RG.calculateTotalRouteDistance r /\
  RG.calculateTotalRouteDistance ((r ++ [p]) ++ [q])
  = RG.calculateTotalRouteDistance (r ++ [p]) + RG.calculateDistance p q.
Proof.
  split; [reflexivity|]. split; [reflexivity|].
  split; [cbn; lra|]. split; [apply totalDistance_nonneg|].
  rewrite <- List.app_assoc. apply totalDistance_snoc.
Qed.

Lemma numWaypoints_bounds (efficiency : R) :
  (2 <= RG.numWaypoints efficiency)%nat /\
  (0 <= efficiency <= 1 -> (RG.numWaypoints efficiency <= 10)%nat).
Proof.
  unfold RG.numWaypoints. split; [lia|].
  intros [H0 H1].
  assert (Zfloor (efficiency * 10) <= 10)%Z.
  { apply le_IZR. pose proof (Zfloor_bound (efficiency * 10)) as [Hb _]. lra. }
  lia.
Qed.

Lemma deviation_bound (u dev : R) :
  0 <= u < 1 -> 0 <= dev -> Rabs ((u - 5 / 10) * dev) <= dev / 2.
Proof.
  intros Hu Hdev. apply Rabs_le. split; nra.
Qed.

(** X18: the optimized route starts at the origin and ends at the
    destination; it has max(2, floor(10 x efficiency)) + 1 points, hence
    between 3 and 11 for an efficiency in [0,1]; and, the weather values
    being non-negative, each interior point lies within
    (windSpeed + waveHeight) / 200 degrees, in latitude and in longitude,
    of the point at the same fraction of the straight line. *)
Theorem optimizedWaypoints_shape (random : nat -> R) (o d : RG.Point)
    (weather : RG.Weather) (efficiency : R) :
  let wps := RG.generateOptimizedWaypoints random o d weather efficiency in
  let n := RG.numWaypoints efficiency in
  List.hd_error wps = Some o /\
  last wps = Some d /\
  List.length wps = (n + 1)%nat /\
  (0 <= efficiency <= 1 -> (3 <= List.length wps <= 11)%nat) /\
  (unitStream random -> 0 <= RG.windSpeed weather + RG.waveHeight weather ->
   forall i, (1 <= i < n)%nat ->
     within ((RG.windSpeed weather + RG.waveHeight weather) / 200)
            (nth i wps o) (interpolate o d (INR i / INR n))).
Proof.
  intros wps n. subst wps. unfold RG.generateOptimizedWaypoints. cbv zeta. fold n.
  destruct (numWaypoints_bounds efficiency) as [Hlo Hhi]. fold n in Hlo, Hhi.
  split; [reflexivity|]. split.
  { rewrite List.app_comm_cons. apply last_snoc. }
  assert (Hlen : forall f : nat -> RG.Point,
            List.length (o :: List.map f (seq 1 (n - 1)) ++ [d]) = (n + 1)%nat).
  { intros f. cbn [List.length].
    rewrite List.length_app, List.length_map, List.length_seq. cbn [List.length]. lia. }
  split; [apply Hlen|]. split.
  { intros He. specialize (Hhi He). rewrite Hlen. lia. }
  intros Hu Hdev i Hi.
  destruct i as [|i]; [lia|].
  cbn [nth]. rewrite List.app_nth1 by (rewrite List.length_map, List.length_seq; lia).
  set (interior := fun i0 : nat => _).
  rewrite (List.nth_indep _ o (interior 0%nat))
    by (rewrite List.length_map, List.length_seq; lia).
  rewrite List.map_nth, List.seq_nth by lia.
  change (1 + i)%nat with (S i). subst interior. cbv beta.
  unfold within, interpolate. cbn [RG.latitude RG.longitude].
  replace ((RG.windSpeed weather + RG.waveHeight weather) / 200)
    with ((RG.windSpeed weather + RG.waveHeight weather) / 100 / 2) by field.
  assert (Hd : 0 <= (RG.windSpeed weather + RG.waveHeight weather) / 100) by lra.
  split.
  - match goal with
    | |- Rabs (?a + ?b - ?a) <= _ => replace (a + b - a) with b by ring
    end.
    apply deviation_bound; [apply Hu|exact Hd].
  - match goal with
    | |- Rabs (?a + ?b - ?a) <= _ => replace (a + b - a) with b by ring
    end.
    apply deviation_bound; [apply Hu|exact Hd].
Qed.

Lemma optimizedWaypoints_shape_witness :
  (3 <= List.length (RG.generateOptimizedWaypoints halfStream (samplePoint 40 (-74))
                       (samplePoint 51 0) sampleWeather (1 / 2)) <= 11)%nat.
Proof.
  apply (optimizedWaypoints_shape halfStream (samplePoint 40 (-74)) (samplePoint 51 0)
           sampleWeather (1 / 2)).
  lra.
Defined.

Lemma alternativePoint_first (random : nat -> R) (o d : RG.Point) (i : nat) :
  RG.alternativePoint random o d i 0 = o.
Proof.
  unfold RG.alternativePoint. cbn [Nat.ltb Nat.leb andb INR].
  destruct o as [lat lon]. cbn [RG.latitude RG.longitude]. f_equal; lra.
Qed.

Lemma alternativePoint_last (random : nat -> R) (o d : RG.Point) (i : nat) :
  RG.alternativePoint random o d i 5 = d.
Proof.
  unfold RG.alternativePoint.
  change ((0 <? 5)%nat && (5 <? 5)%nat) with false. cbv iota.
  replace (INR 5 / 5) with 1 by (cbn [INR]; lra).
  destruct d as [lat lon]. cbn [RG.latitude RG.longitude]. f_equal; lra.
Qed.

Lemma alternativePoint_interior (random : nat -> R) (o d : RG.Point) (i j : nat) :
  unitStream random -> (1 <= j < 5)%nat ->
  within ((INR i + 1) / 20) (RG.alternativePoint random o d i j)
         (interpolate o d (INR j / 5)).
Proof.
  intros Hu Hj. unfold RG.alternativePoint.
  replace ((0 <? j)%nat && (j <? 5)%nat) with true
    by (symmetry; apply andb_true_intro; split; apply Nat.ltb_lt; lia).
  unfold within, interpolate. cbn [RG.latitude RG.longitude].
  pose proof (pos_INR i) as Hi.
  replace ((INR i + 1) / 20) with ((INR i + 1) * (1 / 10) / 2) by field.
  split.
  - match goal with
    | |- Rabs (?a + ?b - ?a) <= _ => replace (a + b - a) with b by ring
    end.
    apply deviation_bound; [apply Hu|lra].
  - match goal with
    | |- Rabs (?a + ?b - ?a) <= _ => replace (a + b - a) with b by ring
    end.
    apply deviation_bound; [apply Hu|lra].
Qed.

(** X19: [generateAlternativeRoutes] returns two alternatives.  Each route
    has six points, the first the origin and the last the destination (in
    exact arithmetic); its time is never negative, its fuel is seven times
    its time, and its risk is at most 1 and the same for both.  The four
    interior points of alternative [i] lie within (i + 1) / 20 degrees of
    the points at the fractions 1/5 .. 4/5 of the straight line. *)
Theorem alternativeRoutes_shape (random : nat -> R) (o d : RG.Point)
    (weather : RG.Weather) :
  let alts := RG.generateAlternativeRoutes random o d weather in
  List.length alts = 2%nat /\
  List.Forall (fun a =>
     List.length (RG.route a) = 6%nat /\
     List.hd_error (RG.route a) = Some o /\
     last (RG.route a) = Some d /\
     0 <= RG.time a /\
     RG.fuel a = 7 * RG.time a /\
     RG.risk a <= 1 /\
     RG.risk a = Rmin 1 ((RG.windSpeed weather + RG.waveHeight weather) / 30)) alts /\
  (unitStream random ->
   forall i a j, nth_error alts i = Some a -> (1 <= j < 5)%nat ->
     within ((INR i + 1) / 20) (nth j (RG.route a) o) (interpolate o d (INR j / 5))).
Proof.
  intros alts. subst alts. unfold RG.generateAlternativeRoutes.
  split; [reflexivity|]. split.
  - apply List.Forall_forall. intros a Ha.
    apply List.in_map_iff in Ha as [i [<- _]].
    cbn [RG.route RG.time RG.fuel RG.risk].
    split; [reflexivity|].
    split; [cbn [seq List.map List.hd_error]; now rewrite alternativePoint_first|].
    split.
    { change (seq 0 6) with ([0; 1; 2; 3; 4] ++ [5])%nat.
      rewrite List.map_app. cbn [List.map].
      rewrite alternativePoint_last. apply last_snoc. }
    pose proof (totalDistance_nonneg
                  (List.map (RG.alternativePoint random o d i) (seq 0 6))) as Hd.
    repeat split; try lra. apply Rmin_l.
  - intros Hu i a j Ha Hj.
    assert (Hr : RG.route a = List.map (RG.alternativePoint random o d i) (seq 0 6)).
    { destruct i as [|[|i]]; cbn [seq List.map nth_error] in Ha;
        [injection Ha as <-; reflexivity | injection Ha as <-; reflexivity
        | destruct i; discriminate]. }
    rewrite Hr.
    rewrite (List.nth_indep _ o (RG.alternativePoint random o d i 0%nat))
      by (rewrite List.length_map, List.length_seq; lia).
    rewrite List.map_nth, List.seq_nth by lia.
    now apply alternativePoint_interior.
Qed.

Lemma alternativeRoutes_shape_witness :
  unitStream halfStream /\
  (forall i a j,
     nth_error (RG.generateAlternativeRoutes halfStream (samplePoint 40 (-74))
                  (samplePoint 51 0) sampleWeather) i = Some a ->
     (1 <= j < 5)%nat ->
     within ((INR i + 1) / 20) (nth j (RG.route a) (samplePoint 40 (-74)))
            (interpolate (samplePoint 40 (-74)) (samplePoint 51 0) (INR j / 5))).
Proof.
  assert (Hu : unitStream halfStream) by (intros k; unfold halfStream; lra).
  split; [exact Hu|].
  apply (alternativeRoutes_shape halfStream (samplePoint 40 (-74)) (samplePoint 51 0)
           sampleWeather).
  exact Hu.
Defined.

Lemma mul_not_finite_l (x y : JS.num) : ~ finiteNum x -> ~ finiteNum (JS.mul x y).
Proof.
  intros Hx [r Hr]. destruct x as [v| | |].
  - apply Hx. now exists v.
  - destruct y as [w| | |]; cbn [JS.mul] in Hr; try discriminate.
    unfold JS.Reqb, JS.Rltb in Hr.
    destruct (Req_dec_T w 0); [discriminate|]. destruct (Rlt_dec 0 w); discriminate.
  - destruct y as [w| | |]; cbn [JS.mul] in Hr; try discriminate.
    unfold JS.Reqb, JS.Rltb in Hr.
    destruct (Req_dec_T w 0); [discriminate|]. destruct (Rlt_dec 0 w); discriminate.
  - destruct y; discriminate.
Qed.

Lemma mul_not_finite_r (x y : JS.num) : ~ finiteNum y -> ~ finiteNum (JS.mul x y).
Proof.
  intros Hy [r Hr]. destruct y as [v| | |].
  - apply Hy. now exists v.
  - destruct x as [w| | |]; cbn [JS.mul] in Hr; try discriminate.
    unfold JS.Reqb, JS.Rltb in Hr.
    destruct (Req_dec_T w 0); [discriminate|]. destruct (Rlt_dec 0 w); discriminate.
  - destruct x as [w| | |]; cbn [JS.mul] in Hr; try discriminate.
    unfold JS.Reqb, JS.Rltb in Hr.
    destruct (Req_dec_T w 0); [discriminate|]. destruct (Rlt_dec 0 w); discriminate.
  - destruct x; discriminate.
Qed.

Lemma add_not_finite_r (x y : JS.num) : ~ finiteNum y -> ~ finiteNum (JS.add x y).
Proof.
  intros Hy [r Hr]. destruct y as [v| | |].
  - apply Hy. now exists v.
  - destruct x; discriminate.
  - destruct x; discriminate.
  - destruct x; discriminate.
Qed.

Lemma mul_nan_r (x : JS.num) : JS.mul x JS.NaN = JS.NaN.
Proof. now destruct x. Qed.

(** X20: the estimates of [optimizeRoute] are not guarded.  For a maximum
    speed of 0 the estimated time is no finite number (the base time
    divides by the speed), for a cargo capacity of 0 the estimated fuel is
    no finite number, whatever the factors; and a factor that is [NaN],
    as the network returns it on a feature that is not a number, makes
    the estimate [NaN].  None of these cases is rejected. *)
Theorem route_estimates (input : RG.RouteInput) (timeFactor fuelFactor : JS.num) :
  let s := RG.shipSpecs input in
  (RG.maxSpeed s = 0 -> ~ finiteNum (RG.estimatedTime input timeFactor)) /\
  (RG.cargoCapacity s = 0 -> ~ finiteNum (RG.estimatedFuelConsumption input fuelFactor)) /\
  RG.estimatedTime input JS.NaN = JS.NaN /\
  RG.estimatedFuelConsumption input JS.NaN = JS.NaN.
Proof.
  intros s. split; [|split; [|split]].
  - intros Hs. unfold RG.estimatedTime, RG.calculateBaseTime. fold s. rewrite Hs.
    apply mul_not_finite_l, div_by_zero_not_finite.
  - intros Hc. unfold RG.estimatedFuelConsumption, RG.calculateBaseFuelConsumption.
    fold s. cbv zeta. rewrite Hc.
    apply mul_not_finite_l, mul_not_finite_l, mul_not_finite_r, add_not_finite_r,
      mul_not_finite_l, div_by_zero_not_finite.
  - unfold RG.estimatedTime. cbn [JS.mul JS.add]. apply mul_nan_r.
  - unfold RG.estimatedFuelConsumption. cbn [JS.mul JS.add]. apply mul_nan_r.
Qed.

Lemma route_estimates_witness :
  ~ finiteNum (RG.estimatedTime becalmedRouteInput (JS.Fin (1 / 2))) /\
  ~ finiteNum (RG.estimatedFuelConsumption emptyHoldRouteInput (JS.Fin (1 / 2))).
Proof.
  split.
  - apply (proj1 (route_estimates becalmedRouteInput (JS.Fin (1 / 2)) (JS.Fin 0))).
    reflexivity.
  - apply (proj1 (proj2 (route_estimates emptyHoldRouteInput (JS.Fin 0) (JS.Fin (1 / 2))))).
    reflexivity.
Defined.

(** X21: the route model's [preprocessInput] yields 15 features, the
    configured input width.  Every feature other than the load ratio
    (index 5) and the distance (index 13) is a finite number; the load
    ratio is the quotient of cargo weight and capacity when the capacity is
    not 0, and for a cargo capacity of 0 it is Infinity, -Infinity or NaN:
    the input is not rejected. *)
Theorem route_features (month : nat) (data : RG.RouteInput) :
  let features := RG.preprocessInput month data in
  List.length features = 15%nat /\
  (forall k x, k <> 5%nat -> k <> 13%nat -> nth_error features k = Some x -> finiteNum x) /\
  (RG.cargoCapacity (RG.shipSpecs data) <> 0 ->
   nth_error features 5
   = Some (JS.Fin (RG.currentCargoWeight (RG.shipSpecs data)
                   / RG.cargoCapacity (RG.shipSpecs data)))) /\
  (RG.cargoCapacity (RG.shipSpecs data) = 0 ->
   exists x, nth_error features 5 = Some x /\ ~ finiteNum x).
Proof.
  intros features. subst features. unfold RG.preprocessInput. cbv zeta.
  split; [reflexivity|]. split; [|split].
  - intros k x H5 H13 Hk.
    do 15 (destruct k as [|k];
           [try contradiction; cbn [nth_error] in Hk; injection Hk as <-;
            first [now eexists | destruct (RG.prioritizeFuel _); now eexists
                  | destruct (RG.prioritizeTime _); now eexists
                  | destruct (RG.avoidRoughSeas _); now eexists]|]).
    destruct k; discriminate Hk.
  - intros Hc. cbn [nth_error]. now rewrite div_finite by exact Hc.
  - intros Hc. rewrite Hc. eexists. split; [reflexivity|].
    apply div_by_zero_not_finite.
Qed.

Lemma route_features_witness :
  nth_error (RG.preprocessInput 3 sampleRouteInput) 5 = Some (JS.Fin (500 / 1000)).
Proof.
  apply (route_features 3 sampleRouteInput). cbn. lra.
Defined.

(** ** The service: training test, metrics, status and singleton *)

Lemma Object_entries_eval (history : list AIService.PredictionRecord) :
  SS.Object_entries (AIService.evaluateModels history)
  = List.map (fun name => (name, AIService.score (AIService.slice_last 100 history) name))
             AIService.modelNames.
Proof.
  unfold SS.Object_entries, AIService.modelNames.
  cbn [omap list_omap List.map].
  rewrite !evaluateModels_lookup by (cbn; tauto).
  reflexivity.
Qed.

Lemma needsTraining_iff (s : SS.Service) :
  SS.needsTraining s = true <->
  exists name, In name AIService.modelNames /\
    JS.lt (AIService.score
             (AIService.slice_last 100 (AIService.predictionHistory (SS.core s))) name)
          (JS.Fin (SS.performanceThreshold (SS.config s))) = true.
Proof.
  unfold SS.needsTraining. rewrite Object_entries_eval, List.existsb_exists.
  split.
  - intros [[name sc] [Hin Hlt]]. apply List.in_map_iff in Hin as [name' [E Hname]].
    injection E as -> <-. now exists name.
  - intros [name [Hname Hlt]].
    exists (name, AIService.score
                    (AIService.slice_last 100 (AIService.predictionHistory (SS.core s)))
                    name).
    split; [|exact Hlt]. apply List.in_map_iff. now exists name.
Qed.

(** X22: the test of [checkAndTrainModels].  With no recorded prediction
    every score is the default 0.5, so training is started exactly when the
    threshold is above 0.5; a service built with the default configuration
    (threshold 0.8, automatic training on) therefore asks for training.
    When every recorded confidence is in [0,1], a threshold of 0 or less
    never starts training and a threshold above 1 always does.  A model with
    a [NaN] confidence among its recent records has the score [NaN], which
    is never below the threshold. *)
Theorem needsTraining_cases (s : SS.Service) :
  let history := AIService.predictionHistory (SS.core s) in
  let threshold := SS.performanceThreshold (SS.config s) in
  (history = [] -> (SS.needsTraining s = true <-> 5 / 10 < threshold)) /\
  (SS.needsTraining (SS.new None) = true /\
   SS.autoTrainModels (SS.config (SS.new None)) = true) /\
  (Forall unitConfidence history -> threshold <= 0 -> SS.needsTraining s = false) /\
  (Forall unitConfidence history -> 1 < threshold -> SS.needsTraining s = true) /\
  (forall name p,
     In p (entriesOf name (AIService.slice_last 100 history)) ->
     AIService.confidence p = JS.NaN ->
     AIService.score (AIService.slice_last 100 history) name = JS.NaN /\
     JS.lt (AIService.score (AIService.slice_last 100 history) name)
           (JS.Fin threshold) = false).
Proof.
  intros history threshold.
  assert (Hempty : forall s0 : SS.Service,
            AIService.predictionHistory (SS.core s0) = [] ->
            (SS.needsTraining s0 = true <->
             5 / 10 < SS.performanceThreshold (SS.config s0))).
  { intros s0 Hh. rewrite needsTraining_iff, Hh. split.
    - intros [name [_ Hlt]]. now apply lt_fin in Hlt.
    - intros Hlt. exists "route-optimizer"%string. split; [cbn; tauto|].
      now apply lt_fin. }
  split; [apply Hempty|]. split.
  { split; [|reflexivity]. apply Hempty; [reflexivity|]. cbn. lra. }
  split; [|split].
  - intros Hall Hth. apply not_true_is_false. rewrite needsTraining_iff.
    intros [name [_ Hlt]]. fold history threshold in Hlt.
    destruct (score_unit (AIService.slice_last 100 history) name
                (slice_last_unit 100 history Hall)) as [sc [Hsc Hrange]].
    rewrite Hsc in Hlt. apply lt_fin in Hlt. lra.
  - intros Hall Hth. apply needsTraining_iff.
    exists "route-optimizer"%string. split; [cbn; tauto|]. fold history threshold.
    destruct (score_unit (AIService.slice_last 100 history) "route-optimizer"
                (slice_last_unit 100 history Hall)) as [sc [Hsc Hrange]].
    rewrite Hsc. apply lt_fin. lra.
  - intros name p Hin Hp. rewrite (score_nan _ _ _ Hin Hp). split; reflexivity.
Qed.

Lemma needsTraining_cases_witness :
  SS.needsTraining (SS.new (Some strictConfig)) = true <-> 5 / 10 < 2.
Proof.
  apply (needsTraining_cases (SS.new (Some strictConfig))). reflexivity.
Defined.

Lemma calls_after_first (s : SS.Service) (configs : list (option SS.PartialConfig)) :
  List.Forall (fun r => r = s) (getAIService_calls configs (Some s)).
Proof.
  induction configs as [|c cs IH]; cbn [getAIService_calls SS.getAIService].
  - constructor.
  - constructor; [reflexivity|exact IH].
Qed.

(** X23: [getAIService] keeps one instance.  Every call of a sequence
    returns the service that the first call built from its own
    configuration; the configurations passed later are ignored, also when
    they differ.  The instance is built with the defaults for the keys that
    the first configuration leaves out. *)
Theorem getAIService_singleton (c : option SS.PartialConfig)
    (cs : list (option SS.PartialConfig)) :
  List.length (getAIService_calls (c :: cs) None) = S (List.length cs) /\
  List.Forall (fun s => s = SS.new c) (getAIService_calls (c :: cs) None) /\
  SS.config (SS.new None)
  = {| SS.autoTrainModels := true; SS.modelUpdateInterval := 24;
       SS.performanceThreshold := 8 / 10; SS.enableModelVersioning := true;
       SS.maxModelVersions := 5 |} /\
  (forall c1 c2, fst (SS.getAIService c2 (snd (SS.getAIService c1 None))) = SS.new c1).
Proof.
  split; [|split; [|split]].
  - cbn [getAIService_calls SS.getAIService List.length]. f_equal.
    generalize (Some (SS.new c)). induction cs as [|c' cs IH]; intros inst; [reflexivity|].
    cbn [getAIService_calls List.length].
    destruct (SS.getAIService c' inst) as [s' inst']. cbn [List.length]. f_equal. apply IH.
  - cbn [getAIService_calls SS.getAIService].
    constructor; [reflexivity|apply calls_after_first].
  - reflexivity.
  - reflexivity.
Qed.

Lemma latest_fold_none (l : list SS.DirEntry) : fold_left SS.latestStep l None = None.
Proof. induction l as [|e l IH]; [reflexivity|exact IH]. Qed.

Lemma latest_unreadable (l : list SS.DirEntry) (state : option (option (option Z))) :
  In SS.unreadable l -> fold_left SS.latestStep l state = None.
Proof.
  revert state. induction l as [|e l IH]; intros state Hin; [destruct Hin|].
  cbn [fold_left]. destruct Hin as [->|Hin]; [|now apply IH].
  replace (SS.latestStep state SS.unreadable) with (@None (option (option Z)))
    by (now destruct state).
  apply latest_fold_none.
Qed.

Lemma latest_invalid (l : list SS.DirEntry) :
  ~ In SS.unreadable l ->
  fold_left SS.latestStep l (Some (Some None)) = Some (Some None).
Proof.
  induction l as [|e l IH]; intros Hno; [reflexivity|].
  cbn [fold_left]. destruct e as [|d|].
  - apply IH. intros H. apply Hno. now right.
  - cbn [SS.latestStep]. replace (SS.Date_gt d None) with false by (now destruct d).
    apply IH. intros H. apply Hno. now right.
  - exfalso. apply Hno. now left.
Qed.

Lemma latest_max (l : list SS.DirEntry) (ds : list Z) (m : Z) :
  ~ In SS.unreadable l -> savedDates l = List.map Some ds ->
  exists m', fold_left SS.latestStep l (Some (Some (Some m))) = Some (Some (Some m')) /\
             (m' = m \/ In m' ds) /\ (m <= m')%Z /\ (forall d, In d ds -> (d <= m')%Z).
Proof.
  revert ds m. induction l as [|e l IH]; intros ds m Hno Hds.
  - destruct ds; [|discriminate]. exists m. cbn. repeat split; [now left|lia|tauto].
  - assert (Hno' : ~ In SS.unreadable l) by (intros H; apply Hno; now right).
    destruct e as [|d|].
    + apply (IH ds m Hno' Hds).
    + cbn in Hds. destruct ds as [|d0 ds]; [discriminate|].
      cbn [List.map] in Hds. injection Hds as -> Hds.
      cbn [fold_left SS.latestStep SS.Date_gt].
      destruct (Z.ltb_spec m d0) as [Hlt|Hge].
      * destruct (IH ds d0 Hno' Hds) as [m' [Hf [Hin [Hle Hall]]]].
        exists m'. split; [exact Hf|]. split; [right; destruct Hin; [left; congruence|now right]|].
        split; [lia|]. intros d [<-|Hd]; [exact Hle|now apply Hall].
      * destruct (IH ds m Hno' Hds) as [m' [Hf [Hin [Hle Hall]]]].
        exists m'. split; [exact Hf|]. split; [destruct Hin; [now left|right; now right]|].
        split; [exact Hle|]. intros d [<-|Hd]; [lia|now apply Hall].
    + exfalso. apply Hno. now left.
Qed.

Lemma latest_skip (l : list SS.DirEntry) (state : option (option (option Z))) :
  ~ In SS.unreadable l -> savedDates l = [] -> fold_left SS.latestStep l state = state.
Proof.
  revert state. induction l as [|e l IH]; intros state Hno Hds; [reflexivity|].
  assert (Hno' : ~ In SS.unreadable l) by (intros H; apply Hno; now right).
  destruct e as [|d|].
  - cbn [fold_left]. replace (SS.latestStep state SS.noMetadata) with state
      by (now destruct state).
    now apply IH.
  - discriminate.
  - exfalso. apply Hno. now left.
Qed.

(** X24: [getLastTrainingDate] is [null] when the directory is missing, when
    reading any entry throws (whatever the other entries hold), and when no
    entry has a metadata file.  Else, all saved dates being valid, it is the
    latest of them; and when the first saved date is an Invalid Date, the
    result is that Invalid Date, whatever the later entries hold. *)
Theorem getLastTrainingDate_cases (l : list SS.DirEntry) :
  SS.getLastTrainingDate None = None /\
  (In SS.unreadable l -> SS.getLastTrainingDate (Some l) = None) /\
  (~ In SS.unreadable l -> savedDates l = [] -> SS.getLastTrainingDate (Some l) = None) /\
  (~ In SS.unreadable l ->
   forall ds, savedDates l = List.map Some ds -> ds <> [] ->
     exists m, SS.getLastTrainingDate (Some l) = Some (Some m) /\
               In m ds /\ forall d, In d ds -> (d <= m)%Z) /\
  (~ In SS.unreadable l ->
   forall rest, savedDates l = None :: rest ->
     SS.getLastTrainingDate (Some l) = Some None).
Proof.
  split; [reflexivity|]. split; [|split; [|split]].
  - intros Hin. unfold SS.getLastTrainingDate. now rewrite latest_unreadable.
  - intros Hno Hds. unfold SS.getLastTrainingDate. now rewrite latest_skip.
  - intros Hno. unfold SS.getLastTrainingDate.
    induction l as [|e l IH]; intros ds Hds Hne.
    + destruct ds; [contradiction|discriminate].
    + assert (Hno' : ~ In SS.unreadable l) by (intros H; apply Hno; now right).
      destruct e as [|d|].
      * cbn [fold_left SS.latestStep]. now apply IH.
      * cbn in Hds. destruct ds as [|d0 ds]; [discriminate|].
        cbn [List.map] in Hds. injection Hds as -> Hds.
        cbn [fold_left SS.latestStep].
        destruct (latest_max l ds d0 Hno' Hds) as [m [Hf [Hin [Hle Hall]]]].
        exists m. rewrite Hf. split; [reflexivity|].
        split; [destruct Hin; [left; congruence|now right]|].
        intros d [<-|Hd]; [exact Hle|now apply Hall].
      * exfalso. apply Hno. now left.
  - intros Hno. unfold SS.getLastTrainingDate.
    induction l as [|e l IH]; intros rest Hds; [discriminate|].
    assert (Hno' : ~ In SS.unreadable l) by (intros H; apply Hno; now right).
    destruct e as [|d|].
    + cbn [fold_left SS.latestStep]. now apply (IH Hno' rest).
    + cbn in Hds. injection Hds as -> Hds.
      cbn [fold_left SS.latestStep]. now rewrite latest_invalid.
    + exfalso. apply Hno. now left.
Qed.

Lemma getLastTrainingDate_cases_witness :
  exists m, SS.getLastTrainingDate
              (Some [SS.metadata (Some 5%Z); SS.noMetadata; SS.metadata (Some 9%Z)])
            = Some (Some m) /\
            In m [5%Z; 9%Z] /\ forall d, In d [5%Z; 9%Z] -> (d <= m)%Z.
Proof.
  apply (getLastTrainingDate_cases
           [SS.metadata (Some 5%Z); SS.noMetadata; SS.metadata (Some 9%Z)]).
  - cbn. intros [H|[H|[H|[]]]]; discriminate.
  - reflexivity.
  - discriminate.
Defined.

Lemma Map_get_set_eq {V : Type} (k : string) (v : V) (m : SS.Map V) :
  SS.Map_get k (SS.Map_set k v m) = Some v.
Proof.
  induction m as [|[k' v'] m IH]; cbn [SS.Map_set SS.Map_get].
  - now rewrite String.eqb_refl.
  - destruct (String.eqb k' k) eqn:E; cbn [SS.Map_get].
    + now rewrite String.eqb_refl.
    + now rewrite E.
Qed.

Lemma Map_get_set_ne {V : Type} (k k0 : string) (v : V) (m : SS.Map V) :
  k <> k0 -> SS.Map_get k0 (SS.Map_set k v m) = SS.Map_get k0 m.
Proof.
  intros Hne. apply String.eqb_neq in Hne.
  induction m as [|[k' v'] m IH]; cbn [SS.Map_set SS.Map_get].
  - now rewrite Hne.
  - destruct (String.eqb k' k) eqn:E; cbn [SS.Map_get].
    + apply String.eqb_eq in E. subst k'. now rewrite Hne.
    + now rewrite IH.
Qed.

Lemma window_counts {A : Type} (f : A -> bool) (h : list A) :
  (List.length (List.filter f (AIService.slice_last 100 h))
   <= List.length (AIService.slice_last 100 (List.filter f h)) <= 100)%nat.
Proof.
  rewrite slice_last_length.
  pose proof (filter_length_le f (AIService.slice_last 100 h)) as H1.
  rewrite slice_last_length in H1.
  assert (H2 : (List.length (List.filter f (AIService.slice_last 100 h))
                <= List.length (List.filter f h))%nat).
  { unfold AIService.slice_last.
    rewrite <- (List.firstn_skipn (List.length h - 100) h) at 3.
    rewrite List.filter_app, List.length_app. lia. }
  lia.
Qed.

(** X25: [updatePerformanceMetrics] leaves the models, the history and the
    configuration alone, stores an entry under each of the three model
    names and leaves every other key of the map as it was.  The entry
    carries the model's score as accuracy; its prediction count is at most
    100 and at least the number of records that entered the score (the two
    are counted over different windows, and agree when the history holds
    at most 100 records); and for a non-negative accuracy,
    recall <= f1Score <= precision <= accuracy. *)
Theorem updatePerformanceMetrics_entries (now : Z) (s : SS.Service) :
  let history := AIService.predictionHistory (SS.core s) in
  let s' := SS.updatePerformanceMetrics now s in
  SS.core s' = SS.core s /\ SS.config s' = SS.config s /\
  (forall name, In name AIService.modelNames ->
     exists m, SS.Map_get name (SS.performanceMetrics s') = Some m /\
       SS.m_modelName m = name /\ SS.lastEvaluated m = now /\
       SS.accuracy m = AIService.score (AIService.slice_last 100 history) name /\
       (List.length (entriesOf name (AIService.slice_last 100 history))
        <= SS.predictionCount m <= 100)%nat /\
       ((List.length history <= 100)%nat ->
        SS.predictionCount m = List.length (entriesOf name history)) /\
       (forall a, SS.accuracy m = JS.Fin a -> 0 <= a ->
          exists p r f, SS.precision m = JS.Fin p /\ SS.recall m = JS.Fin r /\
                        SS.f1Score m = JS.Fin f /\ r <= f <= p /\ p <= a)) /\
  (forall name, ~ In name AIService.modelNames ->
     SS.Map_get name (SS.performanceMetrics s') = SS.Map_get name (SS.performanceMetrics s)).
Proof.
  intros history s'. subst s'. unfold SS.updatePerformanceMetrics. fold history.
  cbn [SS.core SS.config SS.performanceMetrics].
  rewrite Object_entries_eval. unfold AIService.modelNames.
  cbn [List.map fold_left fst snd].
  split; [reflexivity|]. split; [reflexivity|]. split.
  - assert (Hentry : forall name acc,
              acc = AIService.score (AIService.slice_last 100 history) name ->
              let m := SS.metricsOf now history name acc in
              SS.m_modelName m = name /\ SS.lastEvaluated m = now /\
              SS.accuracy m = AIService.score (AIService.slice_last 100 history) name /\
              (List.length (entriesOf name (AIService.slice_last 100 history))
               <= SS.predictionCount m <= 100)%nat /\
              ((List.length history <= 100)%nat ->
               SS.predictionCount m = List.length (entriesOf name history)) /\
              (forall a, SS.accuracy m = JS.Fin a -> 0 <= a ->
                 exists p r f, SS.precision m = JS.Fin p /\ SS.recall m = JS.Fin r /\
                               SS.f1Score m = JS.Fin f /\ r <= f <= p /\ p <= a)).
    { intros name acc -> m. subst m. unfold SS.metricsOf. cbv zeta.
      cbn [SS.m_modelName SS.lastEvaluated SS.accuracy SS.predictionCount
           SS.precision SS.recall SS.f1Score].
      split; [reflexivity|]. split; [reflexivity|]. split; [reflexivity|].
      split; [apply window_counts|]. split.
      - intros Hlen. rewrite slice_last_length. unfold entriesOf.
        pose proof (filter_length_le
                      (fun p => String.eqb (AIService.modelName p) name) history).
        lia.
      - intros a -> Ha. cbn [JS.mul].
        eexists. eexists. eexists.
        split; [reflexivity|]. split; [reflexivity|]. split; [reflexivity|]. lra. }
    intros name [<-|[<-|[<-|[]]]].
    + rewrite !Map_get_set_ne by discriminate. rewrite Map_get_set_eq.
      eexists. split; [reflexivity|]. now apply Hentry.
    + rewrite !Map_get_set_ne by discriminate. rewrite Map_get_set_eq.
      eexists. split; [reflexivity|]. now apply Hentry.
    + rewrite Map_get_set_eq.
      eexists. split; [reflexivity|]. now apply Hentry.
  - intros name Hname.
    rewrite !Map_get_set_ne; [reflexivity| | |];
      intros E; apply Hname; rewrite <- E; cbn; tauto.
Qed.

Lemma updatePerformanceMetrics_entries_witness :
  exists m, SS.Map_get "fuel-predictor"
              (SS.performanceMetrics (SS.updatePerformanceMetrics 0 (SS.new None)))
            = Some m /\
            SS.m_modelName m = "fuel-predictor"%string /\ SS.lastEvaluated m = 0%Z /\
            SS.accuracy m = AIService.score (AIService.slice_last 100 []) "fuel-predictor" /\
            (List.length (entriesOf "fuel-predictor" (AIService.slice_last 100 []))
             <= SS.predictionCount m <= 100)%nat /\
            ((List.length (@nil AIService.PredictionRecord) <= 100)%nat ->
             SS.predictionCount m = List.length (entriesOf "fuel-predictor" [])) /\
            (forall a, SS.accuracy m = JS.Fin a -> 0 <= a ->
               exists p r f, SS.precision m = JS.Fin p /\ SS.recall m = JS.Fin r /\
                             SS.f1Score m = JS.Fin f /\ r <= f <= p /\ p <= a).
Proof.
  apply (updatePerformanceMetrics_entries 0 (SS.new None)). cbn. tauto.
Defined.

Lemma sum_accuracies (ms : list SS.ModelPerformanceMetrics) (accs : list R) (a : R) :
  List.map SS.accuracy ms = List.map JS.Fin accs ->
  fold_left (fun sum m => JS.add sum (SS.accuracy m)) ms (JS.Fin a)
  = JS.Fin (fold_left Rplus accs a).
Proof.
  revert accs a. induction ms as [|m ms IH]; intros accs a H.
  - destruct accs; [reflexivity|discriminate].
  - destruct accs as [|x accs]; [discriminate|].
    cbn [List.map] in H. injection H as Hm H.
    cbn [fold_left]. rewrite Hm. cbn [JS.add]. now apply IH.
Qed.

Lemma avgPerformance_finite (ms : list SS.ModelPerformanceMetrics) (accs : list R) :
  List.map SS.accuracy ms = List.map JS.Fin accs -> accs <> [] ->
  SS.avgPerformance ms = JS.Fin (fold_left Rplus accs 0 / INR (List.length accs)).
Proof.
  intros H Hne. unfold SS.avgPerformance.
  assert (Hlen : List.length ms = List.length accs).
  { rewrite <- (List.length_map SS.accuracy), H. apply List.length_map. }
  rewrite Hlen.
  destruct accs as [|x accs]; [contradiction|].
  replace (0 <? List.length (x :: accs))%nat with true by reflexivity.
  rewrite (sum_accuracies ms (x :: accs) 0 H).
  apply div_finite. apply not_0_INR. discriminate.
Qed.

Lemma fold_Rplus_shift (l : list R) (a : R) :
  fold_left Rplus l a = a + fold_left Rplus l 0.
Proof.
  revert a. induction l as [|x l IH]; intros a; cbn [fold_left]; [lra|].
  rewrite (IH (a + x)), (IH (0 + x)). lra.
Qed.

Lemma sum_above (c : R) (accs : list R) :
  c * INR (List.length accs) < fold_left Rplus accs 0 -> exists a, In a accs /\ c < a.
Proof.
  induction accs as [|x accs IH]; intros H.
  - cbn in H. lra.
  - destruct (Rlt_dec c x) as [Hx|Hx]; [exists x; split; [now left|exact Hx]|].
    change (List.length (x :: accs)) with (S (List.length accs)) in H.
    rewrite S_INR in H. cbn [fold_left] in H. rewrite fold_Rplus_shift in H.
    destruct IH as [a [Hin Ha]]; [lra|]. exists a. split; [now right|exact Ha].
Qed.

Lemma sum_below (c : R) (accs : list R) :
  (forall a, In a accs -> a <= c) -> fold_left Rplus accs 0 <= c * INR (List.length accs).
Proof.
  induction accs as [|x accs IH]; intros H.
  - cbn. lra.
  - change (List.length (x :: accs)) with (S (List.length accs)).
    rewrite S_INR. cbn [fold_left]. rewrite fold_Rplus_shift.
    assert (x <= c) by (apply H; now left).
    assert (fold_left Rplus accs 0 <= c * INR (List.length accs))
      by (apply IH; intros a Ha; apply H; now right).
    lra.
Qed.

Lemma health_poor (avg : R) : avg <= 6 / 10 -> SS.healthOf (JS.Fin avg) = SS.poor.
Proof.
  intros H. unfold SS.healthOf.
  destruct (JS.gt (JS.Fin avg) (JS.Fin (9 / 10))) eqn:E1; [apply gt_fin in E1; lra|].
  destruct (JS.gt (JS.Fin avg) (JS.Fin (8 / 10))) eqn:E2; [apply gt_fin in E2; lra|].
  destruct (JS.gt (JS.Fin avg) (JS.Fin (6 / 10))) eqn:E3; [apply gt_fin in E3; lra|].
  reflexivity.
Qed.

Lemma disposed_not_loaded (m : BaseModel.t) :
  loadedHasModel m -> BaseModel.isLoaded (BaseModel.dispose m) = false.
Proof.
  unfold loadedHasModel, BaseModel.dispose. intros H.
  destruct (BaseModel.model m) eqn:E; [reflexivity|].
  destruct (BaseModel.isLoaded m); [|reflexivity].
  exfalso. now apply H.
Qed.

(** X26: [getServiceStatus].  With no stored metrics the health is 'poor',
    and so it is for a new service right after [updatePerformanceMetrics]
    (every accuracy is the default 0.5).  When the stored accuracies are
    numbers, the health is 'excellent' only if some model's accuracy is
    above 0.9, and it is 'poor' when no accuracy is above 0.6.  After
    [dispose] the status reports no model as loaded and the service as not
    ready. *)
Theorem serviceStatus_health (modelsDir : option (list SS.DirEntry)) (s : SS.Service) :
  (SS.performanceMetrics s = [] ->
   SS.systemHealth (SS.getServiceStatus modelsDir s) = SS.poor) /\
  (forall now c,
     SS.systemHealth
       (SS.getServiceStatus modelsDir (SS.updatePerformanceMetrics now (SS.new c)))
     = SS.poor) /\
  (forall accs, accuraciesAre s accs -> accs <> [] ->
     (SS.systemHealth (SS.getServiceStatus modelsDir s) = SS.excellent ->
      exists a, In a accs /\ 9 / 10 < a) /\
     ((forall a, In a accs -> a <= 6 / 10) ->
      SS.systemHealth (SS.getServiceStatus modelsDir s) = SS.poor)) /\
  (loadedHasModel (AIService.routeOptimizer (SS.core s)) ->
   loadedHasModel (AIService.fuelPredictor (SS.core s)) ->
   loadedHasModel (AIService.maintenanceForecaster (SS.core s)) ->
   let st := SS.getServiceStatus modelsDir (SS.dispose s) in
   SS.isReady st = false /\ SS.routeOptimizerLoaded st = false /\
   SS.fuelPredictorLoaded st = false /\ SS.maintenanceForecasterLoaded st = false).
Proof.
  assert (Hlow : forall (s0 : SS.Service) accs,
            accuraciesAre s0 accs -> (forall a, In a accs -> a <= 6 / 10) ->
            SS.systemHealth (SS.getServiceStatus modelsDir s0) = SS.poor).
  { intros s0 accs Hacc Hall. unfold SS.getServiceStatus. cbn [SS.systemHealth].
    destruct accs as [|x accs].
    - unfold accuraciesAre in Hacc.
      destruct (SS.Map_values (SS.performanceMetrics s0)); [|discriminate].
      unfold SS.avgPerformance. cbn [List.length Nat.ltb Nat.leb].
      apply health_poor. lra.
    - rewrite (avgPerformance_finite _ (x :: accs) Hacc) by discriminate.
      apply health_poor.
      pose proof (sum_below (6 / 10) (x :: accs) Hall) as Hs.
      assert (Hn : 0 < INR (List.length (x :: accs))) by (apply lt_0_INR; cbn; lia).
      apply (Rmult_le_reg_r (INR (List.length (x :: accs)))); [exact Hn|].
      unfold Rdiv. rewrite Rmult_assoc, Rinv_l by lra. lra. }
  split; [|split; [|split]].
  - intros Hm. apply (Hlow s []); [|intros a []].
    unfold accuraciesAre. now rewrite Hm.
  - intros now c.
    apply (Hlow _ [5 / 10; 5 / 10; 5 / 10]).
    + unfold accuraciesAre, SS.updatePerformanceMetrics.
      cbn [SS.performanceMetrics]. rewrite Object_entries_eval. reflexivity.
    + intros a [<-|[<-|[<-|[]]]]; lra.
  - intros accs Hacc Hne. split; [|now apply Hlow].
    unfold SS.getServiceStatus. cbn [SS.systemHealth].
    rewrite (avgPerformance_finite _ accs Hacc Hne). unfold SS.healthOf.
    destruct (JS.gt _ (JS.Fin (9 / 10))) eqn:E1.
    + intros _. apply gt_fin in E1. apply sum_above.
      assert (Hn : 0 < INR (List.length accs)).
      { apply lt_0_INR. destruct accs; [contradiction|cbn; lia]. }
      apply (Rmult_lt_compat_r _ _ _ Hn) in E1.
      replace (fold_left Rplus accs 0 / INR (List.length accs) * INR (List.length accs))
        with (fold_left Rplus accs 0) in E1 by (field; lra).
      lra.
    + destruct (JS.gt _ (JS.Fin (8 / 10))); [discriminate|].
      destruct (JS.gt _ (JS.Fin (6 / 10))); discriminate.
  - intros Hr Hf Hm st. subst st. unfold SS.getServiceStatus, SS.dispose.
    cbn [SS.isReady SS.routeOptimizerLoaded SS.fuelPredictorLoaded
         SS.maintenanceForecasterLoaded SS.core AIService.routeOptimizer
         AIService.fuelPredictor AIService.maintenanceForecaster].
    rewrite !disposed_not_loaded by assumption. repeat split.
Qed.

Lemma serviceStatus_health_witness :
  (SS.systemHealth (SS.getServiceStatus None (serviceWithMetrics (95 / 100))) = SS.excellent ->
   exists a, In a [95 / 100] /\ 9 / 10 < a) /\
  ((forall a, In a [95 / 100] -> a <= 6 / 10) ->
   SS.systemHealth (SS.getServiceStatus None (serviceWithMetrics (95 / 100))) = SS.poor).
Proof.
  apply (serviceStatus_health None (serviceWithMetrics (95 / 100))).
  - reflexivity.
  - discriminate.
Defined.

(** ** Synthetic training data *)

Lemma get_fin (input : list R) (k : nat) :
  (k < List.length input)%nat -> JSArray.get input k = JS.Fin (nth k input 0).
Proof.
  intros Hk. unfold JSArray.get.
  destruct (nth_error input k) as [x|] eqn:E.
  - now rewrite (List.nth_error_nth _ _ _ E).
  - apply List.nth_error_None in E. lia.
Qed.

Lemma clampUnit_fin (r : R) : JSArray.clampUnit (JS.Fin r) = JS.Fin (Rmax 0 (Rmin 1 r)).
Proof. reflexivity. Qed.

Lemma clamp_range (r : R) : 0 <= Rmax 0 (Rmin 1 r) <= 1.
Proof.
  unfold Rmax, Rmin. destruct (Rle_dec 1 r); destruct (Rle_dec 0 _); lra.
Qed.

Lemma clamp_below (r c : R) : 0 <= c -> r <= c -> Rmax 0 (Rmin 1 r) <= c.
Proof.
  intros Hc Hr. unfold Rmax, Rmin.
  destruct (Rle_dec 1 r); destruct (Rle_dec 0 _); lra.
Qed.

Lemma nth_unit (input : list R) (k : nat) :
  List.Forall unitValue input -> 0 <= nth k input 0 <= 1.
Proof.
  intros Hall. destruct (Nat.lt_ge_cases k (List.length input)) as [Hk|Hk].
  - rewrite List.Forall_forall in Hall. apply Hall. now apply List.nth_In.
  - rewrite List.nth_overflow by exact Hk. lra.
Qed.

Ltac js_arith :=
  rewrite ?get_fin by lia;
  repeat (rewrite ?div_finite by lra; rewrite ?clampUnit_fin;
          cbn [JS.add JS.sub JS.mul]).

Lemma riskScore_value (input : list R) :
  List.length input = 25%nat ->
  exists r, MT.calculateRiskScore input = JS.Fin (Rmax 0 (Rmin 1 r)) /\
            (List.Forall unitValue input -> r <= 91 / 100).
Proof.
  intros Hlen. unfold MT.calculateRiskScore. cbv zeta. js_arith.
  eexists. split; [reflexivity|]. intros Hall.
  pose proof (nth_unit input 0 Hall). pose proof (nth_unit input 1 Hall).
  pose proof (nth_unit input 6 Hall). pose proof (nth_unit input 7 Hall).
  pose proof (nth_unit input 9 Hall). pose proof (nth_unit input 11 Hall).
  pose proof (nth_unit input 13 Hall). pose proof (nth_unit input 20 Hall).
  pose proof (nth_unit input 21 Hall). pose proof (nth_unit input 22 Hall).
  lra.
Qed.

Lemma targets_unit (input : list R) :
  List.length input = 25%nat -> List.Forall unitNum (MT.sampleOutput input).
Proof.
  intros Hlen. unfold MT.sampleOutput.
  assert (Hu : unitNum (MT.calculateMaintenanceUrgency input)).
  { unfold MT.calculateMaintenanceUrgency, MT.calculateRiskScore. cbv zeta. js_arith.
    eexists. split; [reflexivity|apply clamp_range]. }
  repeat (apply List.Forall_cons); try apply List.Forall_nil; try exact Hu.
  - unfold MT.calculateRiskScore. cbv zeta. js_arith.
    eexists. split; [reflexivity|apply clamp_range].
  - unfold MT.calculateDaysToFailure. cbv zeta. js_arith.
    eexists. split; [reflexivity|apply clamp_range].
  - destruct Hu as [u [Hu _]].
    unfold MT.calculateCostFactor. cbv zeta. rewrite Hu. js_arith.
    eexists. split; [reflexivity|apply clamp_range].
  - destruct Hu as [u [Hu _]].
    unfold MT.calculateDowntimeFactor. cbv zeta. rewrite Hu. js_arith.
    eexists. split; [reflexivity|apply clamp_range].
Qed.

Lemma floor_scaled (r c : R) :
  0 <= r < 1 -> 0 < c -> 0 <= JSArray.Math_floor (r * c) / c <= 1.
Proof.
  intros Hr Hc. unfold JSArray.Math_floor.
  pose proof (Zfloor_bound (r * c)) as [Hb _].
  assert (H0 : (0 <= Zfloor (r * c))%Z) by (apply Zfloor_lub; cbn; nra).
  apply IZR_le in H0.
  split.
  - apply Rmult_le_pos; [exact H0|]. left. now apply Rinv_0_lt_compat.
  - apply (Rmult_le_reg_r c); [exact Hc|].
    unfold Rdiv. rewrite Rmult_assoc, Rinv_l by lra. nra.
Qed.

Lemma ratio_unit (a b : R) : 0 <= a < 1 -> 0 < b -> 0 <= a * b / b <= 1.
Proof. intros Ha Hb. replace (a * b / b) with a by (field; lra). lra. Qed.

Lemma sampleInput_unit (r : nat -> R) :
  unitStream r -> List.Forall unitValue (MT.sampleInput r).
Proof.
  intros Hu. unfold MT.sampleInput. cbv zeta.
  pose proof (Hu 0%nat). pose proof (Hu 1%nat). pose proof (Hu 2%nat).
  pose proof (Hu 3%nat). pose proof (Hu 5%nat). pose proof (Hu 6%nat).
  pose proof (Hu 7%nat). pose proof (Hu 8%nat). pose proof (Hu 9%nat).
  pose proof (Hu 10%nat). pose proof (Hu 11%nat). pose proof (Hu 12%nat).
  pose proof (Hu 13%nat). pose proof (Hu 14%nat). pose proof (Hu 15%nat).
  pose proof (Hu 16%nat). pose proof (Hu 17%nat). pose proof (Hu 18%nat).
  pose proof (Hu 19%nat). pose proof (Hu 20%nat). pose proof (Hu 21%nat).
  pose proof (Hu 22%nat). pose proof (Hu 23%nat). pose proof (Hu 24%nat).
  repeat (apply List.Forall_cons); try apply List.Forall_nil; unfold unitValue;
    try lra;
    try (apply floor_scaled; [assumption|lra]);
    try (apply ratio_unit; [assumption|lra]).
  - replace (r 6%nat * (1 + r 0%nat * 24) * (8 / 10) / (1 + r 0%nat * 24))
      with (r 6%nat * (8 / 10)) by (field; lra).
    lra.
  - destruct (JS.Rgtb (r 4%nat) (5 / 10)); lra.
Qed.

(** X27: the maintenance model's [generateTrainingData] yields as many
    inputs and outputs as samples are asked for; every input has the 25
    entries and every output the 5 entries of the model's configuration,
    and every output entry is a number in [0,1].  The results of
    [Math.random] lying in [0,1), every input entry lies in [0,1] and the
    first output entry, the risk score, is at most 0.91: the upper clamp of
    [calculateRiskScore] never acts on generated data. *)
Theorem maintenance_training_data (random : nat -> R) (sampleSize : nat) :
  let data := MT.generateTrainingData random sampleSize in
  List.length (ts_inputs data) = sampleSize /\
  List.length (ts_outputs data) = sampleSize /\
  ts_validationSplit data = 2 / 10 /\
  List.Forall (fun input => List.length input = BaseModel.inputShape M.config)
              (ts_inputs data) /\
  List.Forall (fun output => List.length output = BaseModel.outputShape M.config /\
                             List.Forall unitNum output)
              (ts_outputs data) /\
  (unitStream random ->
   List.Forall (List.Forall unitValue) (ts_inputs data) /\
   List.Forall (fun output => exists risk, nth_error output 0 = Some (JS.Fin risk) /\
                                           risk <= 91 / 100)
               (ts_outputs data)).
Proof.
  intros data. subst data. unfold MT.generateTrainingData.
  cbn [ts_inputs ts_outputs ts_validationSplit].
  split; [now rewrite List.length_map, List.length_seq|].
  split; [now rewrite List.length_map, List.length_seq|].
  split; [reflexivity|]. split; [|split].
  - apply List.Forall_forall. intros input Hin.
    apply List.in_map_iff in Hin as [i [<- _]]. reflexivity.
  - apply List.Forall_forall. intros output Hin.
    apply List.in_map_iff in Hin as [i [<- _]].
    split; [reflexivity|]. now apply targets_unit.
  - intros Hu.
    assert (Hs : forall i, unitStream (fun k => random (25 * i + k)%nat))
      by (intros i k; apply Hu).
    split.
    + apply List.Forall_forall. intros input Hin.
      apply List.in_map_iff in Hin as [i [<- _]]. apply sampleInput_unit, Hs.
    + apply List.Forall_forall. intros output Hin.
      apply List.in_map_iff in Hin as [i [<- _]].
      destruct (riskScore_value (MT.sampleInput (fun k => random (25 * i + k)%nat))
                  eq_refl) as [r [Hr Hle]].
      eexists. split; [cbn [MT.sampleOutput nth_error]; now rewrite Hr|].
      apply clamp_below; [lra|]. apply Hle, sampleInput_unit, Hs.
Qed.

Lemma maintenance_training_data_witness :
  List.Forall (List.Forall unitValue) (ts_inputs (MT.generateTrainingData halfStream 3)) /\
  List.Forall (fun output => exists risk, nth_error output 0 = Some (JS.Fin risk) /\
                                          risk <= 91 / 100)
              (ts_outputs (MT.generateTrainingData halfStream 3)).
Proof.
  apply (maintenance_training_data halfStream 3).
  intros k. unfold halfStream. lra.
Defined.

Lemma route_targets_unit (input : list R) :
  List.length input = 15%nat -> List.Forall unitNum (RT.sampleOutput input).
Proof.
  intros Hlen. unfold RT.sampleOutput.
  assert (Ht : unitNum (RT.calculateTimeFactor input)).
  { unfold RT.calculateTimeFactor. cbv zeta. js_arith.
    eexists. split; [reflexivity|apply clamp_range]. }
  assert (Hf : unitNum (RT.calculateFuelFactor input)).
  { unfold RT.calculateFuelFactor. cbv zeta. js_arith.
    eexists. split; [reflexivity|apply clamp_range]. }
  assert (Hr : unitNum (RT.calculateRiskScore input)).
  { unfold RT.calculateRiskScore. cbv zeta. js_arith.
    eexists. split; [reflexivity|apply clamp_range]. }
  repeat (apply List.Forall_cons); try apply List.Forall_nil; try assumption.
  destruct Ht as [t [Ht _]]. destruct Hf as [f [Hf _]]. destruct Hr as [r [Hr _]].
  unfold RT.calculateRouteEfficiency. cbv zeta. rewrite Ht, Hf, Hr. js_arith.
  eexists. split; [reflexivity|apply clamp_range].
Qed.

(** X28: the route model's [generateTrainingData] yields as many inputs and
    outputs as samples are asked for, with the 15 and 4 entries of the
    model's configuration, and every output entry is a number in [0,1].
    The results of [Math.random] lying in [0,1), the entry 4 of every input
    is the maximum speed itself, between 15 and 35, and the cargo ratio at
    entry 5 is below 3.  The vector is not the one that [preprocessInput]
    builds for the same voyage: there the latitude is divided by 90, the
    maximum speed by 30 and the distance by 5000 instead of 10000, while
    the cargo, wind, wave, visibility and preference entries agree. *)
Theorem route_training_data (random : nat -> R) (sampleSize : nat) :
  let data := RT.generateTrainingData random sampleSize in
  List.length (ts_inputs data) = sampleSize /\
  List.length (ts_outputs data) = sampleSize /\
  ts_validationSplit data = 2 / 10 /\
  List.Forall (fun input => List.length input = BaseModel.inputShape RouteOptimizerModel.config)
              (ts_inputs data) /\
  List.Forall (fun output =>
                 List.length output = BaseModel.outputShape RouteOptimizerModel.config /\
                 List.Forall unitNum output)
              (ts_outputs data) /\
  (unitStream random ->
   List.Forall (fun input => 15 <= nth 4 input 0 < 35 /\ 0 <= nth 5 input 0 < 3)
               (ts_inputs data)) /\
  (forall month v, RG.cargoCapacity (RG.shipSpecs v) <> 0 ->
     let x := RT.sampleInput v in
     let f := RG.preprocessInput month v in
     featureIs f 0 (nth 0 x 0 / 90) /\ featureIs f 4 (nth 4 x 0 / 30) /\
     featureIs f 13 (nth 13 x 0 * 2) /\
     (forall k, In k [5; 6; 7; 8; 10; 11; 12]%nat -> featureIs f k (nth k x 0))).
Proof.
  intros data. subst data. unfold RT.generateTrainingData.
  cbn [ts_inputs ts_outputs ts_validationSplit].
  split; [now rewrite List.length_map, List.length_seq|].
  split; [now rewrite List.length_map, List.length_seq|].
  split; [reflexivity|]. split; [|split; [|split]].
  - apply List.Forall_forall. intros input Hin.
    apply List.in_map_iff in Hin as [i [<- _]]. reflexivity.
  - apply List.Forall_forall. intros output Hin.
    apply List.in_map_iff in Hin as [i [<- _]].
    split; [reflexivity|]. now apply route_targets_unit.
  - intros Hu. apply List.Forall_forall. intros input Hin.
    apply List.in_map_iff in Hin as [i [<- _]].
    unfold RT.sampleInput, RT.sampleRoute. cbv zeta.
    cbn [nth RG.shipSpecs RG.maxSpeed RG.currentCargoWeight RG.cargoCapacity].
    pose proof (Hu (15 * i + 4)%nat). pose proof (Hu (15 * i + 6)%nat).
    pose proof (Hu (15 * i + 7)%nat).
    split; [lra|].
    set (w := random (15 * i + 7)%nat * 1500) in *.
    set (c := 500 + random (15 * i + 6)%nat * 1500) in *.
    assert (Hc : 0 < c) by (subst c; lra).
    split.
    + apply Rmult_le_pos; [subst w; lra|]. left. now apply Rinv_0_lt_compat.
    + apply (Rmult_lt_reg_r c); [exact Hc|].
      unfold Rdiv. rewrite Rmult_assoc, Rinv_l by lra. subst w c. lra.
  - intros month v Hc.
    unfold featureIs, RG.preprocessInput, RT.sampleInput. cbv zeta.
    cbn [nth nth_error].
    split; [reflexivity|]. split; [reflexivity|]. split.
    + do 2 f_equal. field.
    + intros k [<-|[<-|[<-|[<-|[<-|[<-|[<-|[]]]]]]]]; cbn [nth nth_error].
      * now rewrite div_finite.
      * reflexivity.
      * reflexivity.
      * reflexivity.
      * now destruct (RG.prioritizeFuel _).
      * now destruct (RG.prioritizeTime _).
      * now destruct (RG.avoidRoughSeas _).
Qed.

Lemma route_training_data_witness :
  List.Forall (fun input => 15 <= nth 4 input 0 < 35 /\ 0 <= nth 5 input 0 < 3)
              (ts_inputs (RT.generateTrainingData halfStream 2)).
Proof.
  apply (route_training_data halfStream 2).
  intros k. unfold halfStream. lra.
Defined.

(** ** The quantities of a fuel prediction *)

Lemma add_not_finite_l (x y : JS.num) : ~ finiteNum x -> ~ finiteNum (JS.add x y).
Proof.
  intros Hx [r Hr]. destruct x as [v| | |].
  - apply Hx. now exists v.
  - destruct y; discriminate.
  - destruct y; discriminate.
  - destruct y; discriminate.
Qed.

Lemma baseMain_value (input : FD.FuelPredictionInput) :
  plausibleFuelInput input ->
  exists bm, FD.calculateBaseMainEngineConsumption input = JS.Fin bm /\ 0 <= bm /\
             (FD.duration (FD.voyage input) = 0 -> bm = 0).
Proof.
  intros (Hp & Hs & Hd & Hc & Hl & Hm & _).
  unfold FD.calculateBaseMainEngineConsumption. cbv zeta.
  rewrite div_finite by lra. cbn [FD.Math_pow3 JS.mul].
  eexists. split; [reflexivity|].
  set (s := FD.cruisingSpeed (FD.operational input) / FD.maxSpeed (FD.ship input)).
  assert (Hs0 : 0 <= s).
  { apply Rmult_le_pos; [exact Hc|]. left. now apply Rinv_0_lt_compat. }
  split.
  - repeat apply Rmult_le_pos; try lra; left; apply Rinv_0_lt_compat; lra.
  - intros ->. unfold Rdiv. ring.
Qed.

Lemma baseAux_nonneg (input : FD.FuelPredictionInput) :
  plausibleFuelInput input -> 0 <= FD.calculateBaseAuxiliaryConsumption input.
Proof.
  intros (Hp & Hs & Hd & Hc & Hl & Hm & Ha & Hh).
  unfold FD.calculateBaseAuxiliaryConsumption. cbv zeta.
  repeat apply Rmult_le_pos; try lra; left; apply Rinv_0_lt_compat; lra.
Qed.

(** X29: the quantities of [predictFuelConsumption].  The third model
    output, the efficiency factor, has no effect on the result.  For
    non-negative power, loads, duration and cruising speed, a positive
    maximum speed and the two consumption factors in [0,1], the main-engine
    consumption is a number between its base value and 1.5 times it, the
    auxiliary consumption one between its base value and 1.3 times it, the
    total is their sum, the CO2 emission is the total times 0.845 x 3.15,
    and for a positive duration the rate times the duration is the total.
    A duration of 0 gives the consumption rate [NaN], and a maximum speed
    of 0 gives a main-engine and a total consumption that are no finite
    numbers; neither input is rejected.  The weather impact is a multiple
    of 0.01 that is at most 50. *)
Theorem fuel_quantities (input : FD.FuelPredictionInput) (m a : R) (e : JS.num) :
  let d := FD.derive input (JS.Fin m) (JS.Fin a) e in
  (forall e', FD.derive input (JS.Fin m) (JS.Fin a) e' = d) /\
  (plausibleFuelInput input -> 0 <= m <= 1 -> 0 <= a <= 1 ->
   exists bm main aux,
     FD.calculateBaseMainEngineConsumption input = JS.Fin bm /\
     FD.mainEngineConsumption d = JS.Fin main /\
     FD.auxiliaryConsumption d = JS.Fin aux /\
     0 <= bm <= main /\ main <= 15 / 10 * bm /\
     0 <= FD.calculateBaseAuxiliaryConsumption input <= aux /\
     aux <= 13 / 10 * FD.calculateBaseAuxiliaryConsumption input /\
     FD.totalConsumption d = JS.Fin (main + aux) /\
     FD.co2Emissions d = JS.Fin ((main + aux) * (845 / 1000) * (315 / 100)) /\
     (0 < FD.duration (FD.voyage input) ->
      exists rate, FD.consumptionRate d = JS.Fin rate /\
                   rate * FD.duration (FD.voyage input) = main + aux) /\
     (FD.duration (FD.voyage input) = 0 -> FD.consumptionRate d = JS.NaN)) /\
  (FD.maxSpeed (FD.ship input) = 0 ->
   ~ finiteNum (FD.mainEngineConsumption d) /\ ~ finiteNum (FD.totalConsumption d)) /\
  (exists w z, FD.weatherImpact (FD.factors d) = JS.Fin w /\ w = IZR z / 100 /\ w <= 50).
Proof.
  intros d. subst d. split; [reflexivity|]. split; [|split].
  - intros Hp Hm Ha.
    destruct (baseMain_value input Hp) as [bm [Hbm [Hbm0 Hbmd]]].
    pose proof (baseAux_nonneg input Hp) as Hba.
    unfold FD.derive. cbv zeta.
    cbn [FD.mainEngineConsumption FD.auxiliaryConsumption FD.totalConsumption
         FD.co2Emissions FD.consumptionRate].
    rewrite Hbm. cbn [JS.mul JS.add].
    set (ba := FD.calculateBaseAuxiliaryConsumption input) in *.
    exists bm, (bm * (1 + m * (5 / 10))), (ba * (1 + a * (3 / 10))).
    split; [reflexivity|]. split; [reflexivity|]. split; [reflexivity|].
    split; [nra|]. split; [nra|]. split; [nra|]. split; [nra|].
    split; [reflexivity|]. split; [reflexivity|]. split.
    + intros Hd. rewrite div_finite by lra. eexists. split; [reflexivity|]. field. lra.
    + intros Hd. rewrite Hd.
      assert (Hz : bm * (1 + m * (5 / 10)) + ba * (1 + a * (3 / 10)) = 0).
      { rewrite (Hbmd Hd). subst ba. unfold FD.calculateBaseAuxiliaryConsumption.
        cbv zeta. rewrite Hd. unfold Rdiv. ring. }
      rewrite Hz. cbn [JS.div]. unfold JS.Reqb.
      destruct (Req_dec_T 0 0); [reflexivity|lra].
  - intros Hs. unfold FD.derive. cbv zeta.
    cbn [FD.mainEngineConsumption FD.totalConsumption].
    assert (Hmain : ~ finiteNum
              (JS.mul (FD.calculateBaseMainEngineConsumption input)
                      (JS.Fin 1 + JS.Fin m * JS.Fin (5 / 10))%js)).
    { unfold FD.calculateBaseMainEngineConsumption. cbv zeta. rewrite Hs.
      unfold FD.Math_pow3.
      apply mul_not_finite_l, mul_not_finite_l, mul_not_finite_r, mul_not_finite_l,
        mul_not_finite_l, div_by_zero_not_finite. }
    split; [exact Hmain|]. now apply add_not_finite_l.
  - unfold FD.derive. cbv zeta. cbn [FD.factors].
    unfold FD.calculateImpactFactors. cbv zeta. cbn [FD.weatherImpact].
    unfold FD.round2. cbn [JS.mul FD.Math_round].
    rewrite div_finite by lra.
    eexists. eexists. split; [reflexivity|]. split; [reflexivity|].
    set (wi := Rmin 30 _). set (wa := Rmin 20 _).
    assert (Hwi : wi <= 30) by apply Rmin_l.
    assert (Hwa : wa <= 20) by apply Rmin_l.
    pose proof (Zfloor_bound ((wi + wa) * 100 + 1 / 2)) as [Hb _].
    assert (Hz : (Zfloor ((wi + wa) * 100 + 1 / 2) < 5001)%Z).
    { apply lt_IZR. lra. }
    assert (Hz' : IZR (Zfloor ((wi + wa) * 100 + 1 / 2)) <= 5000).
    { apply IZR_le. lia. }
    lra.
Qed.

Lemma fuel_quantities_witness :
  exists bm main aux,
    FD.calculateBaseMainEngineConsumption sampleFuelInput = JS.Fin bm /\
    FD.mainEngineConsumption sampleFuelRun = JS.Fin main /\
    FD.auxiliaryConsumption sampleFuelRun = JS.Fin aux /\
    0 <= bm <= main /\ main <= 15 / 10 * bm /\
    0 <= FD.calculateBaseAuxiliaryConsumption sampleFuelInput <= aux /\
    aux <= 13 / 10 * FD.calculateBaseAuxiliaryConsumption sampleFuelInput /\
    FD.totalConsumption sampleFuelRun = JS.Fin (main + aux) /\
    FD.co2Emissions sampleFuelRun
    = JS.Fin ((main + aux) * (845 / 1000) * (315 / 100)) /\
    (0 < FD.duration (FD.voyage sampleFuelInput) ->
     exists rate,
       FD.consumptionRate sampleFuelRun = JS.Fin rate /\
       rate * FD.duration (FD.voyage sampleFuelInput) = main + aux) /\
    (FD.duration (FD.voyage sampleFuelInput) = 0 ->
     FD.consumptionRate sampleFuelRun = JS.NaN).
Proof.
  apply (fuel_quantities sampleFuelInput (1 / 2) (1 / 2) (JS.Fin 0)).
  - unfold plausibleFuelInput. cbn. repeat split; lra.
  - lra.
  - lra.
Defined.

Lemma averageOf_nil : FD.averageOf [] = JS.NaN.
Proof.
  unfold FD.averageOf. cbn [fold_left List.length INR JS.div]. unfold JS.Reqb.
  destruct (Req_dec_T 0 0); [reflexivity|lra].
Qed.

Lemma averageOf_finite (l : list R) :
  l <> [] -> FD.averageOf (List.map JS.Fin l) = JS.Fin (mean l).
Proof.
  intros Hne. unfold FD.averageOf, mean. rewrite add_finite, List.length_map.
  apply div_finite. apply not_0_INR. destruct l; [contradiction|discriminate].
Qed.

Lemma sum_positive (l : list R) (a : R) :
  0 <= a -> List.Forall (fun r => 0 < r) l -> l <> [] ->
  0 < fold_left (fun sum x => sum + x) l a.
Proof.
  revert a. induction l as [|x l IH]; intros a Ha Hall Hne; [contradiction|].
  apply List.Forall_cons_iff in Hall as [Hx Hall]. cbn [fold_left].
  destruct l as [|y l]; [cbn; lra|].
  apply IH; [lra|exact Hall|discriminate].
Qed.

Lemma mean_positive (l : list R) :
  List.Forall (fun r => 0 < r) l -> l <> [] -> 0 < mean l.
Proof.
  intros Hall Hne. unfold mean, MD.sum.
  apply Rmult_lt_0_compat; [now apply sum_positive; [lra| |]|].
  apply Rinv_0_lt_compat, lt_0_INR. destruct l; [contradiction|cbn; lia].
Qed.

Lemma no_prediction (predict : FD.FuelPredictionInput -> Error + BaseModel.PredictionResult)
    (historicalData : list FD.FuelPredictionInput) :
  (forall data, In data historicalData -> exists err, predict data = inl err) ->
  omap (fun data =>
          match FuelPredictorModel.predictFuelConsumption
                  FD.FuelPredictionInput FD.Derived FD.derive predict data with
          | inr prediction =>
              Some (FD.totalConsumption (FuelPredictorModel.derived FD.Derived prediction))
          | inl _ => None
          end) historicalData = [].
Proof.
  induction historicalData as [|data rest IH]; intros H; [reflexivity|].
  cbn [omap list_omap]. unfold FuelPredictorModel.predictFuelConsumption at 1.
  destruct (H data (or_introl eq_refl)) as [err ->].
  apply IH. intros d Hd. apply H. now right.
Qed.

(** X30: [analyzeFuelTrends].  When every prediction throws, and so for no
    data at all, the average consumption is [NaN], the trend 'stable' and
    no recommendation is made; a single consumption also gives the trend
    'stable'.  There are never more than five recommendations, and at most
    two unless the trend is 'increasing'.  For two or more positive
    consumptions the average is their mean, the trend is 'increasing'
    exactly when the mean of the second half exceeds 1.05 times that of
    the first half, and 'decreasing' exactly when it is below 0.95 times
    it. *)
Theorem fuel_trends
    (predict : FD.FuelPredictionInput -> Error + BaseModel.PredictionResult)
    (historicalData : list FD.FuelPredictionInput) (cs : list JS.num) (rs : list R) :
  ((forall data, In data historicalData -> exists err, predict data = inl err) ->
   FD.analyzeFuelTrends predict historicalData
   = {| FD.averageConsumption := JS.NaN; FD.trend := FD.stableTrend;
        FD.recommendations := [] |}) /\
  (forall c, FD.trend (FD.trendsOf [c]) = FD.stableTrend) /\
  ((List.length (FD.recommendations (FD.trendsOf cs)) <= 5)%nat /\
   (FD.trend (FD.trendsOf cs) <> FD.increasing ->
    (List.length (FD.recommendations (FD.trendsOf cs)) <= 2)%nat)) /\
  ((2 <= List.length rs)%nat -> List.Forall (fun r => 0 < r) rs ->
   let half := Nat.div (List.length rs) 2 in
   let report := FD.trendsOf (List.map JS.Fin rs) in
   FD.averageConsumption report = JS.Fin (mean rs) /\
   (FD.trend report = FD.increasing <->
    105 / 100 * mean (firstn half rs) < mean (skipn half rs)) /\
   (FD.trend report = FD.decreasing <->
    mean (skipn half rs) < 95 / 100 * mean (firstn half rs))).
Proof.
  split; [|split; [|split]].
  - intros H. unfold FD.analyzeFuelTrends. rewrite (no_prediction predict historicalData H).
    unfold FD.trendsOf.
    change (Nat.div (List.length (@nil JS.num)) 2) with 0%nat. cbn [firstn skipn]. cbv zeta.
    rewrite averageOf_nil. reflexivity.
  - intros c. unfold FD.trendsOf.
    change (Nat.div (List.length [c]) 2) with 0%nat. cbn [firstn skipn]. cbv zeta.
    rewrite averageOf_nil. cbn [FD.trend].
    replace (JS.div (JS.sub (FD.averageOf [c]) JS.NaN) JS.NaN) with JS.NaN
      by (now destruct (JS.sub (FD.averageOf [c]) JS.NaN)).
    reflexivity.
  - unfold FD.trendsOf. cbv zeta. cbn [FD.recommendations FD.trend].
    destruct (JS.gt _ (JS.Fin (5 / 100))); [|destruct (JS.lt _ _)];
      destruct (JS.gt _ (JS.Fin 1000)); cbn [List.app List.length];
      split; try lia; intros Hne; try lia; contradiction.
  - intros Hlen Hpos half report. subst report. unfold FD.trendsOf. cbv zeta.
    cbn [FD.averageConsumption FD.trend].
    rewrite List.length_map. fold half.
    rewrite List.firstn_map, List.skipn_map.
    assert (Hhalf : (1 <= half /\ half < List.length rs)%nat).
    { subst half. split.
      - apply Nat.div_le_lower_bound; lia.
      - apply Nat.Div0.div_lt_upper_bound; lia. }
    assert (Hne : rs <> []) by (destruct rs; [cbn in Hlen; lia|discriminate]).
    assert (Hne1 : firstn half rs <> []).
    { assert (Hl : List.length (firstn half rs) = half)
        by (rewrite List.length_firstn; lia).
      intros E. rewrite E in Hl. change (List.length (@nil R)) with 0%nat in Hl. lia. }
    assert (Hne2 : skipn half rs <> []).
    { assert (Hl : List.length (skipn half rs) = (List.length rs - half)%nat)
        by apply List.length_skipn.
      intros E. rewrite E in Hl. change (List.length (@nil R)) with 0%nat in Hl. lia. }
    rewrite !averageOf_finite by assumption.
    pose proof (mean_positive (firstn half rs) (Forall_take _ half rs Hpos) Hne1) as Hf.
    set (f := mean (firstn half rs)) in *. set (s := mean (skipn half rs)) in *.
    cbn [JS.sub]. rewrite div_finite by lra.
    assert (Hx : (s - f) / f * f = s - f) by (field; lra).
    set (x := (s - f) / f) in *.
    split; [reflexivity|].
    destruct (JS.gt (JS.Fin x) (JS.Fin (5 / 100))) eqn:E1.
    + apply gt_fin in E1. split; split; intros H; try discriminate; try reflexivity; nra.
    + assert (Hle : x <= 5 / 100).
      { apply Rnot_lt_le. intros Hc. apply gt_fin in Hc. congruence. }
      destruct (JS.lt (JS.Fin x) (JS.Fin (- (5 / 100)))) eqn:E2.
      * apply lt_fin in E2. split; split; intros H; try discriminate; try reflexivity; nra.
      * assert (Hge : - (5 / 100) <= x).
        { apply Rnot_lt_le. intros Hc. apply lt_fin in Hc. congruence. }
        split; split; intros H; try discriminate; nra.
Qed.

Lemma fuel_trends_witness :
  FD.averageConsumption (FD.trendsOf (List.map JS.Fin [100; 100; 120; 120]))
  = JS.Fin (mean [100; 100; 120; 120]) /\
  (FD.trend (FD.trendsOf (List.map JS.Fin [100; 100; 120; 120])) = FD.increasing <->
   105 / 100 * mean (firstn 2 [100; 100; 120; 120]) < mean (skipn 2 [100; 100; 120; 120])) /\
  (FD.trend (FD.trendsOf (List.map JS.Fin [100; 100; 120; 120])) = FD.decreasing <->
   mean (skipn 2 [100; 100; 120; 120]) < 95 / 100 * mean (firstn 2 [100; 100; 120; 120])).
Proof.
  apply (fuel_trends (fun _ => inl (Err "")) [] [] [100; 100; 120; 120]).
  - cbn. lia.
  - repeat constructor; lra.
Defined.
